(** * The EGL desktop surface of Looking Glass (client/renderers/EGL/desktop.c)

    A shallow embedding of the desktop compositing core: the surface record
    [EGL_Desktop], the operations of desktop.c written in a small state monad
    that threads the surface and the chronological list of calls made to the
    collaborators (texture, shader, mesh, application), and the properties of
    the design specification stated against that embedding.

    Integers of the C code are [Z]; [int] arithmetic that can leave the 32-bit
    range is written with [wrap_int].  The C type [float] is IEEE binary32,
    computed with the executable operations of [SpecFloat] at precision 24. *)

From Stdlib Require Import ZArith Lia Bool Floats.SpecFloat.
From stdpp Require Import base list strings.

Open Scope Z_scope.

(** ** Machine numbers *)

Module Int32.
Definition min_int : Z := - 2 ^ 31.
Definition max_int : Z := 2 ^ 31 - 1.

Definition in_range (z : Z) : Prop := min_int <= z <= max_int.

(** Two's complement wrap-around of a mathematical integer into [int]. *)
Definition wrap_int (z : Z) : Z := (z + 2 ^ 31) mod 2 ^ 32 - 2 ^ 31.
End Int32.

Module F32.
Definition float32 : Type := spec_float.

Definition prec : Z := 24.
Definition emax : Z := 128.

Definition mul : float32 -> float32 -> float32 := SFmul prec emax.
Definition sub : float32 -> float32 -> float32 := SFsub prec emax.

(** C's [a != b] on floats: true as soon as one side is a NaN. *)
Definition neqb (a b : float32) : bool := negb (SFeqb a b).

(** Conversion of an integer, and of the dyadic [m * 2^e], to binary32. *)
Definition of_Z (z : Z) : float32 := binary_normalize prec emax z 0 false.
Definition of_dyadic (m e : Z) : float32 := binary_normalize prec emax m e false.

Definition zero : float32 := S754_zero false.
Definition two : float32 := Eval cbv in of_Z 2.         (* 2.0f *)
Definition one : float32 := Eval cbv in of_Z 1.         (* 1.0f *)
Definition half : float32 := Eval cbv in of_dyadic 1 (-1). (* 0.5f *)
End F32.

Abbreviation float32 := F32.float32.

(** ** Types of the collaborators' interfaces

    The headers that declare these types are not part of the unit; each type
    carries the enumerators and fields that desktop.c names. *)

Definition GLint : Type := Z.

(** Pointers to frame memory are opaque to desktop.c: an address. *)
Definition FrameBuffer : Type := Z.

Record FrameDamageRect : Type := mkFrameDamageRect
  { fdr_x : Z; fdr_y : Z; fdr_width : Z; fdr_height : Z }.

Record Rect : Type := mkRect { rect_x : Z; rect_y : Z }.

Inductive LG_RendererRotate : Type :=
  LG_ROTATE_0 | LG_ROTATE_90 | LG_ROTATE_180 | LG_ROTATE_270.

(** Modelled from the spec: the frame types are declared outside the unit; the
    spec lists the supported pixel formats as 8-bit BGRA, 8-bit RGBA, 10-bit
    packed RGBA and 16-bit floating-point RGBA, "any other format fails
    setup".  [FRAME_TYPE_other n] stands for every enumerator that the switch
    of [egl_desktopSetup] does not name. *)
Inductive FrameType : Type :=
  | FRAME_TYPE_BGRA
  | FRAME_TYPE_RGBA
  | FRAME_TYPE_RGBA10
  | FRAME_TYPE_RGBA16F
  | FRAME_TYPE_other (n : Z).

Record LG_RendererFormat : Type := mkFormat
  { fmt_type : FrameType; fmt_width : Z; fmt_height : Z; fmt_pitch : Z }.

Inductive EGL_PixelFormat : Type :=
  EGL_PF_BGRA | EGL_PF_RGBA | EGL_PF_RGBA10 | EGL_PF_RGBA16F.

Inductive EGL_TexType : Type := EGL_TEXTYPE_DMABUF | EGL_TEXTYPE_FRAMEBUFFER.

Inductive EGL_TexStatus : Type :=
  EGL_TEX_STATUS_OK | EGL_TEX_STATUS_NOTREADY | EGL_TEX_STATUS_ERROR.

Inductive EGL_DesktopScaleType : Type :=
  EGL_DESKTOP_NOSCALE | EGL_DESKTOP_UPSCALE | EGL_DESKTOP_DOWNSCALE.

(** Modelled from the spec: the scale algorithm numbers come from a generated
    header that is not part of the unit; the spec gives the enumeration
    {Auto, Nearest, Linear}, in the order of the table [algorithmNames]. *)
Definition EGL_SCALE_AUTO : Z := 0.
Definition EGL_SCALE_NEAREST : Z := 1.
Definition EGL_SCALE_LINEAR : Z := 2.
Definition EGL_SCALE_MAX : Z := 3.

(** A shader object is known to desktop.c by the slot that points to it. *)
Inductive EGL_Shader : Type :=
  | Shader_desktop
  | Shader_ffxFSR1_easu
  | Shader_ffxFSR1_rcas
  | Shader_ffxCAS.

Inductive EGL_UniformType : Type :=
  | EGL_UNIFORM_TYPE_1F
  | EGL_UNIFORM_TYPE_2F
  | EGL_UNIFORM_TYPE_1I
  | EGL_UNIFORM_TYPE_2I
  | EGL_UNIFORM_TYPE_M3x2FV.

(** The payload union of a uniform: the member that was written. *)
Inductive UniformValue : Type :=
  | UV_f (fs : list float32)
  | UV_i (ns : list Z)
  | UV_m (transpose : bool).

Record EGL_Uniform : Type := mkUniform
  { u_type : EGL_UniformType; u_location : GLint; u_value : UniformValue }.

(** [u.f[0]] *)
Definition uniform_f0 (u : EGL_Uniform) : float32 :=
  match u_value u with
  | UV_f (x :: _) => x
  | _ => F32.zero
  end.

(** [u.f[0] = x] *)
Definition set_uniform_f0 (x : float32) (u : EGL_Uniform) : EGL_Uniform :=
  {| u_type := u_type u; u_location := u_location u;
     u_value := match u_value u with
                | UV_f (_ :: rest) => UV_f (x :: rest)
                | _ => UV_f [x]
                end |}.

Definition set_uniform_type (t : EGL_UniformType) (u : EGL_Uniform) : EGL_Uniform :=
  {| u_type := t; u_location := u_location u; u_value := u_value u |}.

Definition set_uniform_location (l : GLint) (u : EGL_Uniform) : EGL_Uniform :=
  {| u_type := u_type u; u_location := l; u_value := u_value u |}.

(** ** The texture resource

    Modelled from the spec: texture.c is not part of the unit.  The spec gives
    the texture contract [init(kind)], [setup(pixelFormat, width, height,
    pitch)], [addFilter(program, initiallyEnabled) -> filterHandle],
    [enableFilter(handle, bool)], [setFilterResolution(handle, w, h)].  A
    texture keeps its filter stages in pipeline order; a filter handle names a
    stage of the texture that created it. *)

Record RenderStep : Type := mkStep
  { step_shader : option EGL_Shader;
    step_enabled : bool;           (* activeNow *)
    step_width : Z;
    step_height : Z }.

Record EGL_Texture : Type := mkTexture
  { tex_type : EGL_TexType;
    tex_streaming : bool;
    tex_setup : option (EGL_PixelFormat * Z * Z * Z);
    tex_steps : list RenderStep }.

(** [None] is the NULL handle. *)
Definition PostProcessHandle : Type := option nat.

Definition texture_new (type : EGL_TexType) (streaming : bool) : EGL_Texture :=
  {| tex_type := type; tex_streaming := streaming;
     tex_setup := None; tex_steps := [] |}.

Definition texture_with_steps (steps : list RenderStep) (t : EGL_Texture) : EGL_Texture :=
  {| tex_type := tex_type t; tex_streaming := tex_streaming t;
     tex_setup := tex_setup t; tex_steps := steps |}.

Definition texture_with_setup (pf : EGL_PixelFormat) (w h pitch : Z)
    (t : EGL_Texture) : EGL_Texture :=
  {| tex_type := tex_type t; tex_streaming := tex_streaming t;
     tex_setup := Some (pf, w, h, pitch); tex_steps := tex_steps t |}.

Definition step_enable (enable : bool) (s : RenderStep) : RenderStep :=
  {| step_shader := step_shader s; step_enabled := enable;
     step_width := step_width s; step_height := step_height s |}.

Definition step_resize (w h : Z) (s : RenderStep) : RenderStep :=
  {| step_shader := step_shader s; step_enabled := step_enabled s;
     step_width := w; step_height := h |}.

(** Appends a stage and returns the handle of the new stage. *)
Definition texture_add_filter (sh : option EGL_Shader) (enabled : bool)
    (t : EGL_Texture) : EGL_Texture * nat :=
  (texture_with_steps (tex_steps t ++ [mkStep sh enabled 0 0]) t,
   length (tex_steps t)).

(** Updates the stage a handle names; a handle that names no stage of the
    texture changes nothing. *)
Definition texture_alter_step (f : RenderStep -> RenderStep)
    (h : PostProcessHandle) (t : EGL_Texture) : EGL_Texture :=
  match h with
  | Some i => texture_with_steps (alter f i (tex_steps t)) t
  | None => t
  end.

Definition texture_step (h : PostProcessHandle) (t : option EGL_Texture)
    : option RenderStep :=
  match t, h with
  | Some t, Some i => tex_steps t !! i
  | _, _ => None
  end.

(** ** The surface

    [struct DesktopShader] and [struct EGL_Desktop].  The fields [egl] and
    [display] are handles that desktop.c only passes on; they are left out.
    Pointer fields to collaborator objects hold the model of the object
    ([texture]), the name of the object (shaders) or whether the object was
    allocated ([mesh], [matrix]). *)

Record DesktopShader : Type := mkDesktopShader
  { ds_shader : option EGL_Shader;
    uTransform : GLint;
    uDesktopSize : GLint;
    uTextureSize : GLint;
    uScaleAlgo : GLint;
    uNVGain : GLint;
    uCBMode : GLint }.

#[projections(primitive)]
Record EGL_Desktop : Type := mkDesktop
  { texture : option EGL_Texture;  (* EGL_Texture * texture (NULL is [None]) *)
    shader : DesktopShader;
    mesh : bool;  (* EGL_DesktopRects * mesh: allocated or NULL *)
    matrix : bool;  (* CountedBuffer * matrix: allocated or NULL *)
    width : Z;
    height : Z;
    rotate : LG_RendererRotate;
    upscale : bool;
    scaleAlgo : Z;
    nvMax : Z;
    nvGain : Z;
    cbMode : Z;
    useDMA : bool;
    format : LG_RendererFormat;
    ffxFSR1_0 : option EGL_Shader;  (* ffxFSR1[0] *)
    ffxFSR1_1 : option EGL_Shader;  (* ffxFSR1[1] *)
    ffxFSR1Enable : bool;
    ffxFSR1Handle_0 : PostProcessHandle;  (* ffxFSR1Handle[0] *)
    ffxFSR1Handle_1 : PostProcessHandle;  (* ffxFSR1Handle[1] *)
    ffxFSR1Uniform : EGL_Uniform;
    ffxCAS : option EGL_Shader;
    ffxCASEnable : bool;
    ffxCASHandle : PostProcessHandle;
    ffxCASUniform : EGL_Uniform }.

(** Field updates, one per field that desktop.c assigns. *)
Definition set_texture (v : option EGL_Texture) (d : EGL_Desktop) : EGL_Desktop :=
  {| texture := v; shader := shader d; mesh := mesh d; matrix := matrix d;
     width := width d; height := height d; rotate := rotate d;
     upscale := upscale d; scaleAlgo := scaleAlgo d; nvMax := nvMax d;
     nvGain := nvGain d; cbMode := cbMode d; useDMA := useDMA d;
     format := format d; ffxFSR1_0 := ffxFSR1_0 d;
     ffxFSR1_1 := ffxFSR1_1 d; ffxFSR1Enable := ffxFSR1Enable d;
     ffxFSR1Handle_0 := ffxFSR1Handle_0 d;
     ffxFSR1Handle_1 := ffxFSR1Handle_1 d;
     ffxFSR1Uniform := ffxFSR1Uniform d; ffxCAS := ffxCAS d;
     ffxCASEnable := ffxCASEnable d; ffxCASHandle := ffxCASHandle d;
     ffxCASUniform := ffxCASUniform d |}.

Definition set_shader (v : DesktopShader) (d : EGL_Desktop) : EGL_Desktop :=
  {| texture := texture d; shader := v; mesh := mesh d;
     matrix := matrix d; width := width d; height := height d;
     rotate := rotate d; upscale := upscale d; scaleAlgo := scaleAlgo d;
     nvMax := nvMax d; nvGain := nvGain d; cbMode := cbMode d;
     useDMA := useDMA d; format := format d; ffxFSR1_0 := ffxFSR1_0 d;
     ffxFSR1_1 := ffxFSR1_1 d; ffxFSR1Enable := ffxFSR1Enable d;
     ffxFSR1Handle_0 := ffxFSR1Handle_0 d;
     ffxFSR1Handle_1 := ffxFSR1Handle_1 d;
     ffxFSR1Uniform := ffxFSR1Uniform d; ffxCAS := ffxCAS d;
     ffxCASEnable := ffxCASEnable d; ffxCASHandle := ffxCASHandle d;
     ffxCASUniform := ffxCASUniform d |}.

Definition set_mesh (v : bool) (d : EGL_Desktop) : EGL_Desktop :=
  {| texture := texture d; shader := shader d; mesh := v;
     matrix := matrix d; width := width d; height := height d;
     rotate := rotate d; upscale := upscale d; scaleAlgo := scaleAlgo d;
     nvMax := nvMax d; nvGain := nvGain d; cbMode := cbMode d;
     useDMA := useDMA d; format := format d; ffxFSR1_0 := ffxFSR1_0 d;
     ffxFSR1_1 := ffxFSR1_1 d; ffxFSR1Enable := ffxFSR1Enable d;
     ffxFSR1Handle_0 := ffxFSR1Handle_0 d;
     ffxFSR1Handle_1 := ffxFSR1Handle_1 d;
     ffxFSR1Uniform := ffxFSR1Uniform d; ffxCAS := ffxCAS d;
     ffxCASEnable := ffxCASEnable d; ffxCASHandle := ffxCASHandle d;
     ffxCASUniform := ffxCASUniform d |}.

Definition set_matrix (v : bool) (d : EGL_Desktop) : EGL_Desktop :=
  {| texture := texture d; shader := shader d; mesh := mesh d;
     matrix := v; width := width d; height := height d;
     rotate := rotate d; upscale := upscale d; scaleAlgo := scaleAlgo d;
     nvMax := nvMax d; nvGain := nvGain d; cbMode := cbMode d;
     useDMA := useDMA d; format := format d; ffxFSR1_0 := ffxFSR1_0 d;
     ffxFSR1_1 := ffxFSR1_1 d; ffxFSR1Enable := ffxFSR1Enable d;
     ffxFSR1Handle_0 := ffxFSR1Handle_0 d;
     ffxFSR1Handle_1 := ffxFSR1Handle_1 d;
     ffxFSR1Uniform := ffxFSR1Uniform d; ffxCAS := ffxCAS d;
     ffxCASEnable := ffxCASEnable d; ffxCASHandle := ffxCASHandle d;
     ffxCASUniform := ffxCASUniform d |}.

Definition set_width (v : Z) (d : EGL_Desktop) : EGL_Desktop :=
  {| texture := texture d; shader := shader d; mesh := mesh d;
     matrix := matrix d; width := v; height := height d;
     rotate := rotate d; upscale := upscale d; scaleAlgo := scaleAlgo d;
     nvMax := nvMax d; nvGain := nvGain d; cbMode := cbMode d;
     useDMA := useDMA d; format := format d; ffxFSR1_0 := ffxFSR1_0 d;
     ffxFSR1_1 := ffxFSR1_1 d; ffxFSR1Enable := ffxFSR1Enable d;
     ffxFSR1Handle_0 := ffxFSR1Handle_0 d;
     ffxFSR1Handle_1 := ffxFSR1Handle_1 d;
     ffxFSR1Uniform := ffxFSR1Uniform d; ffxCAS := ffxCAS d;
     ffxCASEnable := ffxCASEnable d; ffxCASHandle := ffxCASHandle d;
     ffxCASUniform := ffxCASUniform d |}.

Definition set_height (v : Z) (d : EGL_Desktop) : EGL_Desktop :=
  {| texture := texture d; shader := shader d; mesh := mesh d;
     matrix := matrix d; width := width d; height := v;
     rotate := rotate d; upscale := upscale d; scaleAlgo := scaleAlgo d;
     nvMax := nvMax d; nvGain := nvGain d; cbMode := cbMode d;
     useDMA := useDMA d; format := format d; ffxFSR1_0 := ffxFSR1_0 d;
     ffxFSR1_1 := ffxFSR1_1 d; ffxFSR1Enable := ffxFSR1Enable d;
     ffxFSR1Handle_0 := ffxFSR1Handle_0 d;
     ffxFSR1Handle_1 := ffxFSR1Handle_1 d;
     ffxFSR1Uniform := ffxFSR1Uniform d; ffxCAS := ffxCAS d;
     ffxCASEnable := ffxCASEnable d; ffxCASHandle := ffxCASHandle d;
     ffxCASUniform := ffxCASUniform d |}.

Definition set_upscale (v : bool) (d : EGL_Desktop) : EGL_Desktop :=
  {| texture := texture d; shader := shader d; mesh := mesh d;
     matrix := matrix d; width := width d; height := height d;
     rotate := rotate d; upscale := v; scaleAlgo := scaleAlgo d;
     nvMax := nvMax d; nvGain := nvGain d; cbMode := cbMode d;
     useDMA := useDMA d; format := format d; ffxFSR1_0 := ffxFSR1_0 d;
     ffxFSR1_1 := ffxFSR1_1 d; ffxFSR1Enable := ffxFSR1Enable d;
     ffxFSR1Handle_0 := ffxFSR1Handle_0 d;
     ffxFSR1Handle_1 := ffxFSR1Handle_1 d;
     ffxFSR1Uniform := ffxFSR1Uniform d; ffxCAS := ffxCAS d;
     ffxCASEnable := ffxCASEnable d; ffxCASHandle := ffxCASHandle d;
     ffxCASUniform := ffxCASUniform d |}.

Definition set_scaleAlgo (v : Z) (d : EGL_Desktop) : EGL_Desktop :=
  {| texture := texture d; shader := shader d; mesh := mesh d;
     matrix := matrix d; width := width d; height := height d;
     rotate := rotate d; upscale := upscale d; scaleAlgo := v;
     nvMax := nvMax d; nvGain := nvGain d; cbMode := cbMode d;
     useDMA := useDMA d; format := format d; ffxFSR1_0 := ffxFSR1_0 d;
     ffxFSR1_1 := ffxFSR1_1 d; ffxFSR1Enable := ffxFSR1Enable d;
     ffxFSR1Handle_0 := ffxFSR1Handle_0 d;
     ffxFSR1Handle_1 := ffxFSR1Handle_1 d;
     ffxFSR1Uniform := ffxFSR1Uniform d; ffxCAS := ffxCAS d;
     ffxCASEnable := ffxCASEnable d; ffxCASHandle := ffxCASHandle d;
     ffxCASUniform := ffxCASUniform d |}.

Definition set_nvMax (v : Z) (d : EGL_Desktop) : EGL_Desktop :=
  {| texture := texture d; shader := shader d; mesh := mesh d;
     matrix := matrix d; width := width d; height := height d;
     rotate := rotate d; upscale := upscale d; scaleAlgo := scaleAlgo d;
     nvMax := v; nvGain := nvGain d; cbMode := cbMode d;
     useDMA := useDMA d; format := format d; ffxFSR1_0 := ffxFSR1_0 d;
     ffxFSR1_1 := ffxFSR1_1 d; ffxFSR1Enable := ffxFSR1Enable d;
     ffxFSR1Handle_0 := ffxFSR1Handle_0 d;
     ffxFSR1Handle_1 := ffxFSR1Handle_1 d;
     ffxFSR1Uniform := ffxFSR1Uniform d; ffxCAS := ffxCAS d;
     ffxCASEnable := ffxCASEnable d; ffxCASHandle := ffxCASHandle d;
     ffxCASUniform := ffxCASUniform d |}.

Definition set_nvGain (v : Z) (d : EGL_Desktop) : EGL_Desktop :=
  {| texture := texture d; shader := shader d; mesh := mesh d;
     matrix := matrix d; width := width d; height := height d;
     rotate := rotate d; upscale := upscale d; scaleAlgo := scaleAlgo d;
     nvMax := nvMax d; nvGain := v; cbMode := cbMode d;
     useDMA := useDMA d; format := format d; ffxFSR1_0 := ffxFSR1_0 d;
     ffxFSR1_1 := ffxFSR1_1 d; ffxFSR1Enable := ffxFSR1Enable d;
     ffxFSR1Handle_0 := ffxFSR1Handle_0 d;
     ffxFSR1Handle_1 := ffxFSR1Handle_1 d;
     ffxFSR1Uniform := ffxFSR1Uniform d; ffxCAS := ffxCAS d;
     ffxCASEnable := ffxCASEnable d; ffxCASHandle := ffxCASHandle d;
     ffxCASUniform := ffxCASUniform d |}.

Definition set_cbMode (v : Z) (d : EGL_Desktop) : EGL_Desktop :=
  {| texture := texture d; shader := shader d; mesh := mesh d;
     matrix := matrix d; width := width d; height := height d;
     rotate := rotate d; upscale := upscale d; scaleAlgo := scaleAlgo d;
     nvMax := nvMax d; nvGain := nvGain d; cbMode := v;
     useDMA := useDMA d; format := format d; ffxFSR1_0 := ffxFSR1_0 d;
     ffxFSR1_1 := ffxFSR1_1 d; ffxFSR1Enable := ffxFSR1Enable d;
     ffxFSR1Handle_0 := ffxFSR1Handle_0 d;
     ffxFSR1Handle_1 := ffxFSR1Handle_1 d;
     ffxFSR1Uniform := ffxFSR1Uniform d; ffxCAS := ffxCAS d;
     ffxCASEnable := ffxCASEnable d; ffxCASHandle := ffxCASHandle d;
     ffxCASUniform := ffxCASUniform d |}.

Definition set_useDMA (v : bool) (d : EGL_Desktop) : EGL_Desktop :=
  {| texture := texture d; shader := shader d; mesh := mesh d;
     matrix := matrix d; width := width d; height := height d;
     rotate := rotate d; upscale := upscale d; scaleAlgo := scaleAlgo d;
     nvMax := nvMax d; nvGain := nvGain d; cbMode := cbMode d;
     useDMA := v; format := format d; ffxFSR1_0 := ffxFSR1_0 d;
     ffxFSR1_1 := ffxFSR1_1 d; ffxFSR1Enable := ffxFSR1Enable d;
     ffxFSR1Handle_0 := ffxFSR1Handle_0 d;
     ffxFSR1Handle_1 := ffxFSR1Handle_1 d;
     ffxFSR1Uniform := ffxFSR1Uniform d; ffxCAS := ffxCAS d;
     ffxCASEnable := ffxCASEnable d; ffxCASHandle := ffxCASHandle d;
     ffxCASUniform := ffxCASUniform d |}.

Definition set_format (v : LG_RendererFormat) (d : EGL_Desktop) : EGL_Desktop :=
  {| texture := texture d; shader := shader d; mesh := mesh d;
     matrix := matrix d; width := width d; height := height d;
     rotate := rotate d; upscale := upscale d; scaleAlgo := scaleAlgo d;
     nvMax := nvMax d; nvGain := nvGain d; cbMode := cbMode d;
     useDMA := useDMA d; format := v; ffxFSR1_0 := ffxFSR1_0 d;
     ffxFSR1_1 := ffxFSR1_1 d; ffxFSR1Enable := ffxFSR1Enable d;
     ffxFSR1Handle_0 := ffxFSR1Handle_0 d;
     ffxFSR1Handle_1 := ffxFSR1Handle_1 d;
     ffxFSR1Uniform := ffxFSR1Uniform d; ffxCAS := ffxCAS d;
     ffxCASEnable := ffxCASEnable d; ffxCASHandle := ffxCASHandle d;
     ffxCASUniform := ffxCASUniform d |}.

Definition set_ffxFSR1_0 (v : option EGL_Shader) (d : EGL_Desktop) : EGL_Desktop :=
  {| texture := texture d; shader := shader d; mesh := mesh d;
     matrix := matrix d; width := width d; height := height d;
     rotate := rotate d; upscale := upscale d; scaleAlgo := scaleAlgo d;
     nvMax := nvMax d; nvGain := nvGain d; cbMode := cbMode d;
     useDMA := useDMA d; format := format d; ffxFSR1_0 := v;
     ffxFSR1_1 := ffxFSR1_1 d; ffxFSR1Enable := ffxFSR1Enable d;
     ffxFSR1Handle_0 := ffxFSR1Handle_0 d;
     ffxFSR1Handle_1 := ffxFSR1Handle_1 d;
     ffxFSR1Uniform := ffxFSR1Uniform d; ffxCAS := ffxCAS d;
     ffxCASEnable := ffxCASEnable d; ffxCASHandle := ffxCASHandle d;
     ffxCASUniform := ffxCASUniform d |}.

Definition set_ffxFSR1_1 (v : option EGL_Shader) (d : EGL_Desktop) : EGL_Desktop :=
  {| texture := texture d; shader := shader d; mesh := mesh d;
     matrix := matrix d; width := width d; height := height d;
     rotate := rotate d; upscale := upscale d; scaleAlgo := scaleAlgo d;
     nvMax := nvMax d; nvGain := nvGain d; cbMode := cbMode d;
     useDMA := useDMA d; format := format d; ffxFSR1_0 := ffxFSR1_0 d;
     ffxFSR1_1 := v; ffxFSR1Enable := ffxFSR1Enable d;
     ffxFSR1Handle_0 := ffxFSR1Handle_0 d;
     ffxFSR1Handle_1 := ffxFSR1Handle_1 d;
     ffxFSR1Uniform := ffxFSR1Uniform d; ffxCAS := ffxCAS d;
     ffxCASEnable := ffxCASEnable d; ffxCASHandle := ffxCASHandle d;
     ffxCASUniform := ffxCASUniform d |}.

Definition set_ffxFSR1Enable (v : bool) (d : EGL_Desktop) : EGL_Desktop :=
  {| texture := texture d; shader := shader d; mesh := mesh d;
     matrix := matrix d; width := width d; height := height d;
     rotate := rotate d; upscale := upscale d; scaleAlgo := scaleAlgo d;
     nvMax := nvMax d; nvGain := nvGain d; cbMode := cbMode d;
     useDMA := useDMA d; format := format d; ffxFSR1_0 := ffxFSR1_0 d;
     ffxFSR1_1 := ffxFSR1_1 d; ffxFSR1Enable := v;
     ffxFSR1Handle_0 := ffxFSR1Handle_0 d;
     ffxFSR1Handle_1 := ffxFSR1Handle_1 d;
     ffxFSR1Uniform := ffxFSR1Uniform d; ffxCAS := ffxCAS d;
     ffxCASEnable := ffxCASEnable d; ffxCASHandle := ffxCASHandle d;
     ffxCASUniform := ffxCASUniform d |}.

Definition set_ffxFSR1Handle_0 (v : PostProcessHandle) (d : EGL_Desktop) : EGL_Desktop :=
  {| texture := texture d; shader := shader d; mesh := mesh d;
     matrix := matrix d; width := width d; height := height d;
     rotate := rotate d; upscale := upscale d; scaleAlgo := scaleAlgo d;
     nvMax := nvMax d; nvGain := nvGain d; cbMode := cbMode d;
     useDMA := useDMA d; format := format d; ffxFSR1_0 := ffxFSR1_0 d;
     ffxFSR1_1 := ffxFSR1_1 d; ffxFSR1Enable := ffxFSR1Enable d;
     ffxFSR1Handle_0 := v; ffxFSR1Handle_1 := ffxFSR1Handle_1 d;
     ffxFSR1Uniform := ffxFSR1Uniform d; ffxCAS := ffxCAS d;
     ffxCASEnable := ffxCASEnable d; ffxCASHandle := ffxCASHandle d;
     ffxCASUniform := ffxCASUniform d |}.

Definition set_ffxFSR1Handle_1 (v : PostProcessHandle) (d : EGL_Desktop) : EGL_Desktop :=
  {| texture := texture d; shader := shader d; mesh := mesh d;
     matrix := matrix d; width := width d; height := height d;
     rotate := rotate d; upscale := upscale d; scaleAlgo := scaleAlgo d;
     nvMax := nvMax d; nvGain := nvGain d; cbMode := cbMode d;
     useDMA := useDMA d; format := format d; ffxFSR1_0 := ffxFSR1_0 d;
     ffxFSR1_1 := ffxFSR1_1 d; ffxFSR1Enable := ffxFSR1Enable d;
     ffxFSR1Handle_0 := ffxFSR1Handle_0 d; ffxFSR1Handle_1 := v;
     ffxFSR1Uniform := ffxFSR1Uniform d; ffxCAS := ffxCAS d;
     ffxCASEnable := ffxCASEnable d; ffxCASHandle := ffxCASHandle d;
     ffxCASUniform := ffxCASUniform d |}.

Definition set_ffxFSR1Uniform (v : EGL_Uniform) (d : EGL_Desktop) : EGL_Desktop :=
  {| texture := texture d; shader := shader d; mesh := mesh d;
     matrix := matrix d; width := width d; height := height d;
     rotate := rotate d; upscale := upscale d; scaleAlgo := scaleAlgo d;
     nvMax := nvMax d; nvGain := nvGain d; cbMode := cbMode d;
     useDMA := useDMA d; format := format d; ffxFSR1_0 := ffxFSR1_0 d;
     ffxFSR1_1 := ffxFSR1_1 d; ffxFSR1Enable := ffxFSR1Enable d;
     ffxFSR1Handle_0 := ffxFSR1Handle_0 d;
     ffxFSR1Handle_1 := ffxFSR1Handle_1 d; ffxFSR1Uniform := v;
     ffxCAS := ffxCAS d; ffxCASEnable := ffxCASEnable d;
     ffxCASHandle := ffxCASHandle d; ffxCASUniform := ffxCASUniform d |}.

Definition set_ffxCAS (v : option EGL_Shader) (d : EGL_Desktop) : EGL_Desktop :=
  {| texture := texture d; shader := shader d; mesh := mesh d;
     matrix := matrix d; width := width d; height := height d;
     rotate := rotate d; upscale := upscale d; scaleAlgo := scaleAlgo d;
     nvMax := nvMax d; nvGain := nvGain d; cbMode := cbMode d;
     useDMA := useDMA d; format := format d; ffxFSR1_0 := ffxFSR1_0 d;
     ffxFSR1_1 := ffxFSR1_1 d; ffxFSR1Enable := ffxFSR1Enable d;
     ffxFSR1Handle_0 := ffxFSR1Handle_0 d;
     ffxFSR1Handle_1 := ffxFSR1Handle_1 d;
     ffxFSR1Uniform := ffxFSR1Uniform d; ffxCAS := v;
     ffxCASEnable := ffxCASEnable d; ffxCASHandle := ffxCASHandle d;
     ffxCASUniform := ffxCASUniform d |}.

Definition set_ffxCASEnable (v : bool) (d : EGL_Desktop) : EGL_Desktop :=
  {| texture := texture d; shader := shader d; mesh := mesh d;
     matrix := matrix d; width := width d; height := height d;
     rotate := rotate d; upscale := upscale d; scaleAlgo := scaleAlgo d;
     nvMax := nvMax d; nvGain := nvGain d; cbMode := cbMode d;
     useDMA := useDMA d; format := format d; ffxFSR1_0 := ffxFSR1_0 d;
     ffxFSR1_1 := ffxFSR1_1 d; ffxFSR1Enable := ffxFSR1Enable d;
     ffxFSR1Handle_0 := ffxFSR1Handle_0 d;
     ffxFSR1Handle_1 := ffxFSR1Handle_1 d;
     ffxFSR1Uniform := ffxFSR1Uniform d; ffxCAS := ffxCAS d;
     ffxCASEnable := v; ffxCASHandle := ffxCASHandle d;
     ffxCASUniform := ffxCASUniform d |}.

Definition set_ffxCASHandle (v : PostProcessHandle) (d : EGL_Desktop) : EGL_Desktop :=
  {| texture := texture d; shader := shader d; mesh := mesh d;
     matrix := matrix d; width := width d; height := height d;
     rotate := rotate d; upscale := upscale d; scaleAlgo := scaleAlgo d;
     nvMax := nvMax d; nvGain := nvGain d; cbMode := cbMode d;
     useDMA := useDMA d; format := format d; ffxFSR1_0 := ffxFSR1_0 d;
     ffxFSR1_1 := ffxFSR1_1 d; ffxFSR1Enable := ffxFSR1Enable d;
     ffxFSR1Handle_0 := ffxFSR1Handle_0 d;
     ffxFSR1Handle_1 := ffxFSR1Handle_1 d;
     ffxFSR1Uniform := ffxFSR1Uniform d; ffxCAS := ffxCAS d;
     ffxCASEnable := ffxCASEnable d; ffxCASHandle := v;
     ffxCASUniform := ffxCASUniform d |}.

Definition set_ffxCASUniform (v : EGL_Uniform) (d : EGL_Desktop) : EGL_Desktop :=
  {| texture := texture d; shader := shader d; mesh := mesh d;
     matrix := matrix d; width := width d; height := height d;
     rotate := rotate d; upscale := upscale d; scaleAlgo := scaleAlgo d;
     nvMax := nvMax d; nvGain := nvGain d; cbMode := cbMode d;
     useDMA := useDMA d; format := format d; ffxFSR1_0 := ffxFSR1_0 d;
     ffxFSR1_1 := ffxFSR1_1 d; ffxFSR1Enable := ffxFSR1Enable d;
     ffxFSR1Handle_0 := ffxFSR1Handle_0 d;
     ffxFSR1Handle_1 := ffxFSR1Handle_1 d;
     ffxFSR1Uniform := ffxFSR1Uniform d; ffxCAS := ffxCAS d;
     ffxCASEnable := ffxCASEnable d; ffxCASHandle := ffxCASHandle d;
     ffxCASUniform := v |}.

(** The surface as [calloc] leaves it. *)
Definition zero_uniform : EGL_Uniform :=
  {| u_type := EGL_UNIFORM_TYPE_1F; u_location := 0; u_value := UV_f [F32.zero] |}.

Definition zero_desktop : EGL_Desktop :=
  {| texture := None;
     shader := mkDesktopShader None 0 0 0 0 0 0;
     mesh := false; matrix := false;
     width := 0; height := 0; rotate := LG_ROTATE_0; upscale := false;
     scaleAlgo := 0; nvMax := 0; nvGain := 0; cbMode := 0;
     useDMA := false; format := mkFormat (FRAME_TYPE_other 0) 0 0 0;
     ffxFSR1_0 := None; ffxFSR1_1 := None; ffxFSR1Enable := false;
     ffxFSR1Handle_0 := None; ffxFSR1Handle_1 := None;
     ffxFSR1Uniform := zero_uniform;
     ffxCAS := None; ffxCASEnable := false; ffxCASHandle := None;
     ffxCASUniform := zero_uniform |}.

(** ** Calls to the collaborators

    Every call that leaves desktop.c is recorded, in order, with its
    arguments.  What a collaborator answers is decided by the environment from
    the history of calls up to and including the one that asks. *)

Inductive LogLevel : Type := LOG_WARN | LOG_ERROR.

Inductive Event : Type :=
  | EvCalloc
  | EvLog (lvl : LogLevel) (msg : string)
  | EvTextureInit (type : EGL_TexType) (streaming : bool)
  | EvTextureFree
  | EvTextureSetup (pf : EGL_PixelFormat) (w h pitch : Z)
  | EvTextureUpdateFromDMA (frame : FrameBuffer) (dmaFd : Z)
  | EvTextureUpdateFromFrame (frame : FrameBuffer)
      (damageRects : list FrameDamageRect) (damageRectsCount : Z)
  | EvTextureAddFilter (sh : option EGL_Shader) (enabled : bool)
  | EvTextureEnableFilter (handle : PostProcessHandle) (enable : bool)
  | EvTextureSetFilterRes (handle : PostProcessHandle) (w h : Z)
  | EvTextureInvalidate
  | EvTextureProcess
  | EvTextureBind
  | EvTextureGetFinalSize
  | EvShaderInit (sh : EGL_Shader)
  | EvShaderCompile (sh : option EGL_Shader)
  | EvShaderGetUniform (sh : option EGL_Shader) (name : string)
  | EvShaderSetUniforms (sh : option EGL_Shader) (uniforms : list EGL_Uniform)
  | EvShaderUse (sh : option EGL_Shader)
  | EvRectsInit (maxRects : Z)
  | EvRectsMatrix (w h : Z) (x y scaleX scaleY : float32) (rot : LG_RendererRotate)
  | EvRectsUpdate (rects : list FrameDamageRect) (w h : Z)
  | EvRectsRender
  | EvCountedBufferNew
  | EvRegisterKeybind (description : string)
  | EvAlert (msg : string) (arg : option Z)
  | EvInvalidateWindow (full : bool)
  | EvGlBindTexture.

Record Env : Type := mkEnv
  { env_bool : list Event -> bool;            (* success of a fallible call *)
    env_int : list Event -> Z;                (* a uniform location *)
    env_status : list Event -> EGL_TexStatus; (* egl_textureProcess *)
    env_rect : list Event -> Rect;            (* egl_textureGetFinalSize *)
    option_get_int : string -> string -> Z;
    option_get_bool : string -> string -> bool;
    option_get_float : string -> string -> float32 }.

(** What the configuration panel reports during one pass of
    [egl_desktopConfigUI]: which widgets the user operated. *)
Record UIInput : Type := mkUIInput
  { ui_comboOpen : bool;               (* igBeginCombo returned true *)
    ui_selectable : Z -> bool;         (* igSelectableBool of item i returned true *)
    ui_nvGain : option Z;              (* igSliderInt stored this value *)
    ui_fsr1Clicked : bool;             (* igCheckbox flipped fsr1 *)
    ui_fsr1Sharpness : option float32; (* igSliderFloat stored this value *)
    ui_casClicked : bool;              (* igCheckbox flipped cas *)
    ui_casSharpness : option float32   (* igSliderFloat stored this value *) }.

(** ** The state monad of the operations *)

#[projections(primitive)]
Record State : Type := mkState { desktop : EGL_Desktop; trace : list Event }.

Definition M (A : Type) : Type := State -> A * State.

Definition ret {A : Type} (a : A) : M A := fun s => (a, s).

Definition bind {A B : Type} (m : M A) (k : A -> M B) : M B :=
  fun s => let '(a, s') := m s in k a s'.

Declare Scope desk_scope.
Delimit Scope desk_scope with desk.
Notation "x <- m ;; k" := (bind m (fun x => k))
  (at level 100, m at next level, right associativity) : desk_scope.
Notation "m ;; k" := (bind m (fun _ => k))
  (at level 100, right associativity) : desk_scope.
Open Scope desk_scope.

Definition get : M EGL_Desktop := fun s => (desktop s, s).

Definition modify (f : EGL_Desktop -> EGL_Desktop) : M unit :=
  fun s => (tt, mkState (f (desktop s)) (trace s)).

Definition emit (e : Event) : M unit :=
  fun s => (tt, mkState (desktop s) (trace s ++ [e])).

Definition history : M (list Event) := fun s => (trace s, s).

Definition when (b : bool) (m : M unit) : M unit := if b then m else ret tt.

(** A loop over the items of a list, in order. *)
Fixpoint for_each {A : Type} (l : list A) (body : A -> M unit) : M unit :=
  match l with
  | [] => ret tt
  | x :: l' => body x ;; for_each l' body
  end.

Definition exec {A : Type} (m : M A) (s : State) : State := snd (m s).
Definition eval {A : Type} (m : M A) (s : State) : A := fst (m s).

(** The events an action appends when run from [s]. *)
Definition emitted {A : Type} (m : M A) (s : State) : list Event :=
  drop (length (trace s)) (trace (exec m s)).

Section Operations.

Variable env : Env.

Open Scope string_scope.
Open Scope Z_scope.

(** *** Collaborator calls *)

Definition call_bool (e : Event) : M bool :=
  emit e ;; h <- history ;; ret (env_bool env h).

Definition call_int (e : Event) : M Z :=
  emit e ;; h <- history ;; ret (env_int env h).

Definition DEBUG_ERROR (msg : string) : M unit := emit (EvLog LOG_ERROR msg).
Definition DEBUG_WARN (msg : string) : M unit := emit (EvLog LOG_WARN msg).

Definition app_alert (msg : string) (arg : option Z) : M unit := emit (EvAlert msg arg).
Definition app_invalidateWindow (full : bool) : M unit := emit (EvInvalidateWindow full).
Definition app_registerKeybind (description : string) : M unit :=
  emit (EvRegisterKeybind description).

(** The texture object lives behind [desktop->texture]; the calls below act
    on the model stored in that field.  A call made while the field is NULL
    is recorded and leaves the surface as it is. *)

Definition egl_textureInit (type : EGL_TexType) (streaming : bool) : M bool :=
  ok <- call_bool (EvTextureInit type streaming) ;;
  modify (set_texture (if ok then Some (texture_new type streaming) else None)) ;;
  ret ok.

Definition egl_textureFree : M unit :=
  emit EvTextureFree ;; modify (set_texture None).

Definition egl_textureSetup (pf : EGL_PixelFormat) (w h pitch : Z) : M bool :=
  ok <- call_bool (EvTextureSetup pf w h pitch) ;;
  when ok (modify (fun d =>
    set_texture (texture_with_setup pf w h pitch <$> texture d) d)) ;;
  ret ok.

Definition egl_textureUpdateFromDMA (frame : FrameBuffer) (dmaFd : Z) : M bool :=
  call_bool (EvTextureUpdateFromDMA frame dmaFd).

Definition egl_textureUpdateFromFrame (frame : FrameBuffer)
    (damageRects : list FrameDamageRect) (damageRectsCount : Z) : M bool :=
  call_bool (EvTextureUpdateFromFrame frame damageRects damageRectsCount).

Definition egl_textureAddFilter (sh : option EGL_Shader) (enabled : bool)
    : M PostProcessHandle :=
  emit (EvTextureAddFilter sh enabled) ;;
  d <- get ;;
  match texture d with
  | Some t =>
      modify (set_texture (Some (fst (texture_add_filter sh enabled t)))) ;;
      ret (Some (snd (texture_add_filter sh enabled t)))
  | None => ret None
  end.

Definition egl_textureEnableFilter (handle : PostProcessHandle) (enable : bool)
    : M unit :=
  emit (EvTextureEnableFilter handle enable) ;;
  modify (fun d =>
    set_texture (texture_alter_step (step_enable enable) handle <$> texture d) d).

Definition egl_textureSetFilterRes (handle : PostProcessHandle) (w h : Z)
    : M unit :=
  emit (EvTextureSetFilterRes handle w h) ;;
  modify (fun d =>
    set_texture (texture_alter_step (step_resize w h) handle <$> texture d) d).

Definition egl_textureInvalidate : M unit := emit EvTextureInvalidate.

Definition egl_textureProcess : M EGL_TexStatus :=
  emit EvTextureProcess ;; h <- history ;; ret (env_status env h).

Definition egl_textureBind : M unit := emit EvTextureBind.

Definition egl_textureGetFinalSize : M Rect :=
  emit EvTextureGetFinalSize ;; h <- history ;; ret (env_rect env h).

(** [egl_shaderInit(&slot)]: the slot names the shader object from then on. *)
Definition egl_shaderInit (slot : option EGL_Shader -> EGL_Desktop -> EGL_Desktop)
    (sh : EGL_Shader) : M bool :=
  ok <- call_bool (EvShaderInit sh) ;;
  modify (slot (Some sh)) ;;
  ret ok.

Definition egl_shaderCompile (sh : option EGL_Shader) : M bool :=
  call_bool (EvShaderCompile sh).

Definition egl_shaderGetUniform (sh : option EGL_Shader) (name : string) : M GLint :=
  call_int (EvShaderGetUniform sh name).

Definition egl_shaderSetUniforms (sh : option EGL_Shader)
    (uniforms : list EGL_Uniform) : M unit :=
  emit (EvShaderSetUniforms sh uniforms).

Definition egl_shaderUse (sh : option EGL_Shader) : M unit := emit (EvShaderUse sh).

Definition egl_desktopRectsInit (maxRects : Z) : M bool :=
  ok <- call_bool (EvRectsInit maxRects) ;;
  modify (set_mesh ok) ;;
  ret ok.

Definition countedBufferNew : M bool :=
  ok <- call_bool EvCountedBufferNew ;;
  modify (set_matrix ok) ;;
  ret ok.

(** *** desktop.c *)

Definition set_ds_shader (sh : option EGL_Shader) (d : EGL_Desktop) : EGL_Desktop :=
  set_shader
    (mkDesktopShader sh (uTransform (shader d)) (uDesktopSize (shader d))
       (uTextureSize (shader d)) (uScaleAlgo (shader d)) (uNVGain (shader d))
       (uCBMode (shader d))) d.

Definition egl_initDesktopShader : M bool :=
  ok <- egl_shaderInit set_ds_shader Shader_desktop ;;
  if negb ok then ret false else
  d <- get ;;
  let sh := ds_shader (shader d) in
  ok <- egl_shaderCompile sh ;;
  if negb ok then ret false else
  uT <- egl_shaderGetUniform sh "transform" ;;
  uD <- egl_shaderGetUniform sh "desktopSize" ;;
  uX <- egl_shaderGetUniform sh "textureSize" ;;
  uS <- egl_shaderGetUniform sh "scaleAlgo" ;;
  uN <- egl_shaderGetUniform sh "nvGain" ;;
  uC <- egl_shaderGetUniform sh "cbMode" ;;
  modify (set_shader (mkDesktopShader sh uT uD uX uS uN uC)) ;;
  ret true.

Definition setupFilters : M unit :=
  d <- get ;;
  h <- egl_textureAddFilter (ffxFSR1_0 d) (ffxFSR1Enable d) ;;
  modify (set_ffxFSR1Handle_0 h) ;;
  d <- get ;;
  h <- egl_textureAddFilter (ffxFSR1_1 d) (ffxFSR1Enable d) ;;
  modify (set_ffxFSR1Handle_1 h) ;;
  d <- get ;;
  h <- egl_textureAddFilter (ffxCAS d) (ffxCASEnable d) ;;
  modify (set_ffxCASHandle h).

Definition egl_desktopInit (useDMA_ : bool) (maxRects : Z) : M bool :=
  ok <- call_bool EvCalloc ;;
  if negb ok then DEBUG_ERROR "Failed to malloc EGL_Desktop" ;; ret false else
  modify (fun _ => zero_desktop) ;;
  ok <- egl_textureInit
          (if useDMA_ then EGL_TEXTYPE_DMABUF else EGL_TEXTYPE_FRAMEBUFFER) true ;;
  if negb ok then
    DEBUG_ERROR "Failed to initialize the desktop texture" ;; ret false else
  ok <- egl_initDesktopShader ;;
  if negb ok then
    DEBUG_ERROR "Failed to initialize the generic desktop shader" ;; ret false else
  ok <- egl_desktopRectsInit maxRects ;;
  if negb ok then
    DEBUG_ERROR "Failed to initialize the desktop mesh" ;; ret false else
  ok <- countedBufferNew ;;
  if negb ok then
    DEBUG_ERROR "Failed to allocate the desktop matrix buffer" ;; ret false else
  app_registerKeybind "Toggle night vision mode" ;;
  modify (set_nvMax (option_get_int env "egl" "nvGainMax")) ;;
  modify (set_nvGain (option_get_int env "egl" "nvGain")) ;;
  modify (set_cbMode (option_get_int env "egl" "cbMode")) ;;
  modify (set_scaleAlgo (option_get_int env "egl" "scale")) ;;
  modify (set_useDMA useDMA_) ;;
  (* AMD FidelityFX FSR *)
  egl_shaderInit set_ffxFSR1_0 Shader_ffxFSR1_easu ;;
  d <- get ;;
  egl_shaderCompile (ffxFSR1_0 d) ;;
  egl_shaderInit set_ffxFSR1_1 Shader_ffxFSR1_rcas ;;
  d <- get ;;
  egl_shaderCompile (ffxFSR1_1 d) ;;
  modify (set_ffxFSR1Enable (option_get_bool env "eglFilter" "ffxFSR")) ;;
  modify (fun d => set_ffxFSR1Uniform
            (set_uniform_type EGL_UNIFORM_TYPE_1F (ffxFSR1Uniform d)) d) ;;
  loc <- egl_shaderGetUniform (ffxFSR1_1 d) "uSharpness" ;;
  modify (fun d => set_ffxFSR1Uniform
            (set_uniform_location loc (ffxFSR1Uniform d)) d) ;;
  modify (fun d => set_ffxFSR1Uniform
            (set_uniform_f0 (option_get_float env "eglFilter" "ffxFSRSharpness")
               (ffxFSR1Uniform d)) d) ;;
  d <- get ;;
  egl_shaderSetUniforms (ffxFSR1_1 d) [ffxFSR1Uniform d] ;;
  (* AMD FidelityFX CAS *)
  egl_shaderInit set_ffxCAS Shader_ffxCAS ;;
  d <- get ;;
  egl_shaderCompile (ffxCAS d) ;;
  modify (set_ffxCASEnable (option_get_bool env "eglFilter" "ffxCAS")) ;;
  modify (fun d => set_ffxCASUniform
            (set_uniform_type EGL_UNIFORM_TYPE_1F (ffxCASUniform d)) d) ;;
  loc <- egl_shaderGetUniform (ffxCAS d) "uSharpness" ;;
  modify (fun d => set_ffxCASUniform
            (set_uniform_location loc (ffxCASUniform d)) d) ;;
  modify (fun d => set_ffxCASUniform
            (set_uniform_f0 (option_get_float env "eglFilter" "ffxCASSharpness")
               (ffxCASUniform d)) d) ;;
  d <- get ;;
  egl_shaderSetUniforms (ffxCAS d) [ffxCASUniform d] ;;
  setupFilters ;;
  ret true.

(** [if (desktop->nvGain++ == desktop->nvMax) desktop->nvGain = 0;] compares
    the value before the increment. *)
Definition toggleNV (key : Z) : M unit :=
  d <- get ;;
  let old := nvGain d in
  modify (set_nvGain (Int32.wrap_int (old + 1))) ;;
  when (old =? nvMax d) (modify (set_nvGain 0)) ;;
  d <- get ;;
  (if nvGain d =? 0 then app_alert "NV Disabled" None
   else if nvGain d =? 1 then app_alert "NV Enabled" None
   else app_alert "NV Gain + %d" (Some (Int32.wrap_int (nvGain d - 1)))) ;;
  app_invalidateWindow true.

(** [egl_desktopConfigUI] draws four groups of widgets in turn: the scale
    algorithm combo, the night vision slider, the FSR group and the CAS
    group; each group is a definition of its own below.  The flag
    [invalidateTex] is handed from group to group. *)

(** The combo: every item the user selects is stored, in item order. *)
Definition configUI_scale (ui : UIInput) : M unit :=
  when (ui_comboOpen ui)
    (for_each (seqZ 0 EGL_SCALE_MAX) (fun i =>
       when (ui_selectable ui i) (modify (set_scaleAlgo i)))).

Definition configUI_nightVision (ui : UIInput) : M unit :=
  match ui_nvGain ui with
  | Some g => modify (set_nvGain g)
  | None => ret tt
  end.

Definition configUI_fsr (ui : UIInput) (invalidateTex : bool) : M bool :=
  d <- get ;;
  let fsr1 := xorb (ffxFSR1Enable d) (ui_fsr1Clicked ui) in
  invalidateTex <-
    (if negb (eqb fsr1 (ffxFSR1Enable d)) then
       modify (set_ffxFSR1Enable fsr1) ;;
       egl_textureEnableFilter (ffxFSR1Handle_0 d) (fsr1 && upscale d) ;;
       egl_textureEnableFilter (ffxFSR1Handle_1 d) (fsr1 && upscale d) ;;
       ret true
     else ret invalidateTex) ;;
  let fsr1Sharpness :=
    match ui_fsr1Sharpness ui with
    | Some v => v
    | None => uniform_f0 (ffxFSR1Uniform d)
    end in
  if F32.neqb fsr1Sharpness (uniform_f0 (ffxFSR1Uniform d)) then
    (* enable FSR1 if the sharpness was changed *)
    when (negb fsr1)
      (modify (set_ffxFSR1Enable true) ;;
       egl_textureEnableFilter (ffxFSR1Handle_0 d) (true && upscale d) ;;
       egl_textureEnableFilter (ffxFSR1Handle_1 d) (true && upscale d)) ;;
    modify (fun d => set_ffxFSR1Uniform
              (set_uniform_f0 (F32.sub F32.two (F32.mul fsr1Sharpness F32.two))
                 (ffxFSR1Uniform d)) d) ;;
    d <- get ;;
    egl_shaderSetUniforms (ffxFSR1_1 d) [ffxFSR1Uniform d] ;;
    ret true
  else ret invalidateTex.

Definition configUI_cas (ui : UIInput) (invalidateTex : bool) : M bool :=
  d <- get ;;
  let cas := xorb (ffxCASEnable d) (ui_casClicked ui) in
  invalidateTex <-
    (if negb (eqb cas (ffxCASEnable d)) then
       modify (set_ffxCASEnable cas) ;;
       egl_textureEnableFilter (ffxCASHandle d) cas ;;
       ret true
     else ret invalidateTex) ;;
  let casSharpness :=
    match ui_casSharpness ui with
    | Some v => v
    | None => uniform_f0 (ffxCASUniform d)
    end in
  if F32.neqb casSharpness (uniform_f0 (ffxCASUniform d)) then
    (* enable CAS if the sharpness was changed *)
    when (negb cas)
      (modify (set_ffxCASEnable true) ;;
       egl_textureEnableFilter (ffxCASHandle d) true) ;;
    modify (fun d => set_ffxCASUniform
              (set_uniform_f0 casSharpness (ffxCASUniform d)) d) ;;
    d <- get ;;
    egl_shaderSetUniforms (ffxCAS d) [ffxCASUniform d] ;;
    ret true
  else ret invalidateTex.

Definition egl_desktopConfigUI (ui : UIInput) : M unit :=
  configUI_scale ui ;;
  configUI_nightVision ui ;;
  let invalidateTex := false in
  invalidateTex <- configUI_fsr ui invalidateTex ;;
  invalidateTex <- configUI_cas ui invalidateTex ;;
  when invalidateTex
    (egl_textureInvalidate ;; app_invalidateWindow true).

(** The [switch (format.type)] of [egl_desktopSetup]; [None] is its
    [default] branch. *)
Definition frame_pixel_format (type : FrameType) : option EGL_PixelFormat :=
  match type with
  | FRAME_TYPE_BGRA => Some EGL_PF_BGRA
  | FRAME_TYPE_RGBA => Some EGL_PF_RGBA
  | FRAME_TYPE_RGBA10 => Some EGL_PF_RGBA10
  | FRAME_TYPE_RGBA16F => Some EGL_PF_RGBA16F
  | FRAME_TYPE_other _ => None
  end.

Definition egl_desktopSetup (fmt : LG_RendererFormat) : M bool :=
  modify (set_format fmt) ;;
  match frame_pixel_format (fmt_type fmt) with
  | None => DEBUG_ERROR "Unsupported frame format" ;; ret false
  | Some pixFmt =>
      modify (set_width (fmt_width fmt)) ;;
      modify (set_height (fmt_height fmt)) ;;
      ok <- egl_textureSetup pixFmt (fmt_width fmt) (fmt_height fmt) (fmt_pitch fmt) ;;
      if negb ok then
        DEBUG_ERROR "Failed to setup the desktop texture" ;; ret false
      else ret true
  end.

Definition egl_desktopUpdate (frame : FrameBuffer) (dmaFd : Z)
    (damageRects : list FrameDamageRect) (damageRectsCount : Z) : M bool :=
  d <- get ;;
  if useDMA d && (0 <=? dmaFd) then
    ok <- egl_textureUpdateFromDMA frame dmaFd ;;
    if ok then ret true else
    DEBUG_WARN "DMA update failed, disabling DMABUF imports" ;;
    modify (set_useDMA false) ;;
    egl_textureFree ;;
    ok <- egl_textureInit EGL_TEXTYPE_FRAMEBUFFER true ;;
    if negb ok then
      DEBUG_ERROR "Failed to initialize the desktop texture" ;; ret false else
    setupFilters ;;
    d <- get ;;
    ok <- egl_desktopSetup (format d) ;;
    if negb ok then ret false else
    egl_textureUpdateFromFrame frame damageRects damageRectsCount
  else
    egl_textureUpdateFromFrame frame damageRects damageRectsCount.

Definition egl_desktopResize (w h : Z) : M unit :=
  d <- get ;;
  if (width d <? w) && (height d <? h) then
    modify (set_upscale true) ;;
    when (ffxFSR1Enable d)
      (egl_textureEnableFilter (ffxFSR1Handle_0 d) true ;;
       egl_textureEnableFilter (ffxFSR1Handle_1 d) true) ;;
    egl_textureSetFilterRes (ffxFSR1Handle_0 d) w h ;;
    egl_textureSetFilterRes (ffxFSR1Handle_1 d) w h ;;
    egl_textureSetFilterRes (ffxCASHandle d) w h
  else
    modify (set_upscale false) ;;
    egl_textureEnableFilter (ffxFSR1Handle_0 d) false ;;
    egl_textureEnableFilter (ffxFSR1Handle_1 d) false ;;
    egl_textureSetFilterRes (ffxCASHandle d) 0 0.

Definition egl_desktopRender (x y scaleX scaleY : float32)
    (scaleType : EGL_DesktopScaleType) (rot : LG_RendererRotate)
    (rects : list FrameDamageRect) : M bool :=
  status <- egl_textureProcess ;;
  match status with
  | EGL_TEX_STATUS_OK | EGL_TEX_STATUS_NOTREADY => ret tt
  | EGL_TEX_STATUS_ERROR => DEBUG_ERROR "Failed to process the desktop texture"
  end ;;
  let scaleAlgo_ := EGL_SCALE_NEAREST in
  egl_textureBind ;;
  finalSize <- egl_textureGetFinalSize ;;
  d <- get ;;
  let scaleType :=
    if (width d <? rect_x finalSize) || (height d <? rect_y finalSize)
    then EGL_DESKTOP_DOWNSCALE else scaleType in
  let scaleAlgo_ :=
    if scaleAlgo d =? EGL_SCALE_AUTO then
      match scaleType with
      | EGL_DESKTOP_NOSCALE | EGL_DESKTOP_UPSCALE => EGL_SCALE_NEAREST
      | EGL_DESKTOP_DOWNSCALE => EGL_SCALE_LINEAR
      end
    else scaleAlgo d in
  emit (EvRectsMatrix (width d) (height d) x y scaleX scaleY rot) ;;
  emit (EvRectsUpdate rects (width d) (height d)) ;;
  let sh := shader d in
  let uniforms :=
    [ mkUniform EGL_UNIFORM_TYPE_1I (uScaleAlgo sh) (UV_i [scaleAlgo_]);
      mkUniform EGL_UNIFORM_TYPE_2F (uDesktopSize sh)
        (UV_f [F32.of_Z (width d); F32.of_Z (height d)]);
      mkUniform EGL_UNIFORM_TYPE_2I (uTextureSize sh)
        (UV_i [rect_x finalSize; rect_y finalSize]);
      mkUniform EGL_UNIFORM_TYPE_M3x2FV (uTransform sh) (UV_m false);
      mkUniform EGL_UNIFORM_TYPE_1F (uNVGain sh) (UV_f [F32.of_Z (nvGain d)]);
      mkUniform EGL_UNIFORM_TYPE_1I (uCBMode sh) (UV_f [F32.of_Z (cbMode d)]) ] in
  egl_shaderSetUniforms (ds_shader sh) uniforms ;;
  egl_shaderUse (ds_shader sh) ;;
  emit EvRectsRender ;;
  emit EvGlBindTexture ;;
  ret true.

(** *** The life of a surface

    After [egl_desktopInit] has returned true the renderer calls the
    operations below on the surface, in any order, until it frees it. *)

Inductive Op : Type :=
  | OpToggleNV (key : Z)
  | OpConfigUI (ui : UIInput)
  | OpSetup (fmt : LG_RendererFormat)
  | OpUpdate (frame : FrameBuffer) (dmaFd : Z)
      (damageRects : list FrameDamageRect) (damageRectsCount : Z)
  | OpResize (w h : Z)
  | OpRender (x y scaleX scaleY : float32) (scaleType : EGL_DesktopScaleType)
      (rot : LG_RendererRotate) (rects : list FrameDamageRect).

Definition run_op (o : Op) : M unit :=
  match o with
  | OpToggleNV key => toggleNV key
  | OpConfigUI ui => egl_desktopConfigUI ui
  | OpSetup fmt => egl_desktopSetup fmt ;; ret tt
  | OpUpdate frame dmaFd rects n => egl_desktopUpdate frame dmaFd rects n ;; ret tt
  | OpResize w h => egl_desktopResize w h
  | OpRender x y sx sy st rot rects =>
      egl_desktopRender x y sx sy st rot rects ;; ret tt
  end.

Definition run_ops (ops : list Op) : M unit := for_each ops run_op.

Inductive reachable : State -> Prop :=
  | reach_init s0 useDMA_ maxRects :
      eval (egl_desktopInit useDMA_ maxRects) s0 = true ->
      reachable (exec (egl_desktopInit useDMA_ maxRects) s0)
  | reach_op s o :
      reachable s -> reachable (exec (run_op o) s).

End Operations.

(** *** The validator of the scale option

    [struct Option] is declared by the configuration store; the validator
    reads [value.x_int] and writes the error string through [error]. *)

Record Option : Type := mkOption
  { opt_module : string; opt_name : string; x_int : Z }.

Definition egl_desktopScaleValidate (opt : Option) (error : string)
    : bool * (Option * string) :=
  if (0 <=? x_int opt) && (x_int opt <? EGL_SCALE_MAX) then (true, (opt, error))
  else (false, (opt, "Invalid scale algorithm number"%string)).

(** Modelled from the spec: the configuration store (option.c) is not part of
    the unit.  The spec gives it "validation hooks for range-checked values
    (e.g., scale algorithm index must lie in the valid enum range;
    out-of-range rejected with a descriptive error and prior value
    retained)".  [option_store_int] offers the value [v] for an option that
    holds [prior]: the hook decides, and a rejected value leaves the option
    as it was and reports the hook's message. *)
Definition option_store_int
    (validator : Option -> string -> bool * (Option * string))
    (prior : Option) (v : Z) : Option * option string :=
  let candidate := mkOption (opt_module prior) (opt_name prior) v in
  let '(ok, (_, err)) := validator candidate ""%string in
  if ok then (candidate, None) else (prior, Some err).

(** ** Scenarios

    Concrete environments and inputs, used to run the operations. *)

Module Scenario.

Definition options_int (section key : string) : Z :=
  if String.eqb key "nvGainMax" then 1 else 0.

(** Every collaborator call succeeds; FSR is switched on in the
    configuration with raw sharpness 0.5, CAS is off. *)
Definition env_ok : Env :=
  {| env_bool := fun _ => true;
     env_int := fun h => Z.of_nat (length h);
     env_status := fun _ => EGL_TEX_STATUS_OK;
     env_rect := fun _ => mkRect 1920 1080;
     option_get_int := options_int;
     option_get_bool := fun _ key => String.eqb key "ffxFSR";
     option_get_float := fun _ _ => F32.half |}.

(** As [env_ok], with FSR off in the configuration. *)
Definition env_plain : Env :=
  {| env_bool := fun _ => true;
     env_int := fun h => Z.of_nat (length h);
     env_status := fun _ => EGL_TEX_STATUS_OK;
     env_rect := fun _ => mkRect 1920 1080;
     option_get_int := options_int;
     option_get_bool := fun _ _ => false;
     option_get_float := fun _ _ => F32.half |}.

Definition is_dma_import (e : Event) : bool :=
  match e with
  | EvTextureUpdateFromDMA _ _ => true
  | _ => false
  end.

(** As [env_ok], except that every zero-copy import fails. *)
Definition env_dma_fails : Env :=
  {| env_bool := fun h =>
       match last h with
       | Some e => negb (is_dma_import e)
       | None => true
       end;
     env_int := fun h => Z.of_nat (length h);
     env_status := fun _ => EGL_TEX_STATUS_OK;
     env_rect := fun _ => mkRect 1920 1080;
     option_get_int := options_int;
     option_get_bool := fun _ key => String.eqb key "ffxFSR";
     option_get_float := fun _ _ => F32.half |}.

Definition start : State := mkState zero_desktop [].

Definition bgra_1080p : LG_RendererFormat := mkFormat FRAME_TYPE_BGRA 1920 1080 7680.

(** A surface ready for frames: created with DMA, FSR on, set up for BGRA
    1920x1080. *)
Definition ready (env : Env) : State :=
  exec (egl_desktopSetup env bgra_1080p) (exec (egl_desktopInit env true 64) start).

(** A surface created with FSR enabled in the configuration. *)
Definition created : State := exec (egl_desktopInit env_ok true 64) start.

(** The surface [ready env_dma_fails] after the window was resized to the
    size of the source, so that it does not upscale. *)
Definition not_upscaling : State :=
  exec (egl_desktopResize 1920 1080) (ready env_dma_fails).

(** The same surface after a frame whose zero-copy import failed. *)
Definition after_downgrade : State :=
  exec (egl_desktopUpdate env_dma_fails 100 5 [] 0) not_upscaling.

(** A user who moves the FSR sharpness slider to 1.0. *)
Definition ui_fsr_sharper : UIInput :=
  {| ui_comboOpen := false; ui_selectable := fun _ => false; ui_nvGain := None;
     ui_fsr1Clicked := false; ui_fsr1Sharpness := Some F32.one;
     ui_casClicked := false; ui_casSharpness := None |}.

Definition unsupported_format : LG_RendererFormat :=
  mkFormat (FRAME_TYPE_other 7) 640 480 2560.

End Scenario.

(** ** Vocabulary of the properties *)

Definition is_redraw (e : Event) : bool :=
  match e with
  | EvInvalidateWindow true => true
  | _ => false
  end.

(** Number of forced window redraws in a list of calls. *)
Definition redraws (es : list Event) : nat := length (List.filter is_redraw es).

(** The gain a toggle leaves, as the source computes it. *)
Definition nv_next (gain max : Z) : Z :=
  if gain =? max then 0 else Int32.wrap_int (gain + 1).

(** The scale selector in the words of the specification (section 4.3):
    [select(configured, detectedScaleType, finalFilteredSize, logicalSize)].
    Step 1 forces the detected scale type to Downscale when the final
    filtered size exceeds the logical size in either axis; step 2 returns a
    configured algorithm other than Auto unconditionally; step 3 maps
    Downscale to Linear and NoScale or Upscale to Nearest. *)
Definition select (configured : Z) (detectedScaleType : EGL_DesktopScaleType)
    (finalFilteredSize logicalSize : Rect) : Z :=
  let detected :=
    if (rect_x logicalSize <? rect_x finalFilteredSize)
       || (rect_y logicalSize <? rect_y finalFilteredSize)
    then EGL_DESKTOP_DOWNSCALE else detectedScaleType in
  if negb (configured =? EGL_SCALE_AUTO) then configured
  else match detected with
       | EGL_DESKTOP_DOWNSCALE => EGL_SCALE_LINEAR
       | EGL_DESKTOP_NOSCALE => EGL_SCALE_NEAREST
       | EGL_DESKTOP_UPSCALE => EGL_SCALE_NEAREST
       end.

(** The calls of a transfer-path downgrade, in the order of
    [egl_desktopUpdate]: the failed import, the warning, the disposal of the
    texture and the construction of its replacement; then the attachment of
    the filter stages by [setupFilters]. *)
Definition downgrade_events (frame : FrameBuffer) (dmaFd : Z) : list Event :=
  [ EvTextureUpdateFromDMA frame dmaFd;
    EvLog LOG_WARN "DMA update failed, disabling DMABUF imports";
    EvTextureFree;
    EvTextureInit EGL_TEXTYPE_FRAMEBUFFER true ].

Definition attach_events (d : EGL_Desktop) : list Event :=
  [ EvTextureAddFilter (ffxFSR1_0 d) (ffxFSR1Enable d);
    EvTextureAddFilter (ffxFSR1_1 d) (ffxFSR1Enable d);
    EvTextureAddFilter (ffxCAS d) (ffxCASEnable d) ].

(** The filter stages [setupFilters] attaches to a fresh texture. *)
Definition attached_steps (d : EGL_Desktop) : list RenderStep :=
  [ mkStep (ffxFSR1_0 d) (ffxFSR1Enable d) 0 0;
    mkStep (ffxFSR1_1 d) (ffxFSR1Enable d) 0 0;
    mkStep (ffxCAS d) (ffxCASEnable d) 0 0 ].

(** The surface once the buffered texture has replaced the zero-copy one and
    the filter stages are attached to it. *)
Definition downgraded (d : EGL_Desktop) : EGL_Desktop :=
  set_ffxCASHandle (Some 2%nat)
    (set_ffxFSR1Handle_1 (Some 1%nat)
       (set_ffxFSR1Handle_0 (Some 0%nat)
          (set_texture
             (Some (mkTexture EGL_TEXTYPE_FRAMEBUFFER true None (attached_steps d)))
             (set_useDMA false d)))).

Definition supported (type : FrameType) : Prop :=
  type = FRAME_TYPE_BGRA \/ type = FRAME_TYPE_RGBA
  \/ type = FRAME_TYPE_RGBA10 \/ type = FRAME_TYPE_RGBA16F.

(** An action preserves a property of the surface. *)
Definition preserves {A : Type} (P : EGL_Desktop -> Prop) (m : M A) : Prop :=
  forall s : State, P (desktop s) -> P (desktop (exec m s)).

(** The transfer path of the surface is the buffered one. *)
Definition buffered (d : EGL_Desktop) : Prop := useDMA d = false.

(** The filter stages a user controls: the two-pass FSR resampler (an
    upscale-only stage) and the single-pass CAS sharpener. *)
Inductive Stage : Type := StageFSR | StageCAS.

(** The stored user flag of a stage. *)
Definition enabledByUser (st : Stage) (d : EGL_Desktop) : bool :=
  match st with
  | StageFSR => ffxFSR1Enable d
  | StageCAS => ffxCASEnable d
  end.

(** The stored sharpness uniform of a stage. *)
Definition sharpness_uniform (st : Stage) (d : EGL_Desktop) : float32 :=
  match st with
  | StageFSR => uniform_f0 (ffxFSR1Uniform d)
  | StageCAS => uniform_f0 (ffxCASUniform d)
  end.

(** The value the user gave the sharpness slider of a stage, if any. *)
Definition ui_sharpness (st : Stage) (ui : UIInput) : option float32 :=
  match st with
  | StageFSR => ui_fsr1Sharpness ui
  | StageCAS => ui_casSharpness ui
  end.

(** The uniform of a stage for a raw sharpness value, in the words of the
    specification: [2.0 - raw * 2.0] for the two-pass resampler, the raw
    value unmodified for the sharpening stage. *)
Definition sharpness_of_raw (st : Stage) (raw : float32) : float32 :=
  match st with
  | StageFSR => F32.sub F32.two (F32.mul raw F32.two)
  | StageCAS => raw
  end.


(** The stage a filter handle of the surface names, if the texture has it. *)
Definition stage_of (h : PostProcessHandle) (d : EGL_Desktop) : option RenderStep :=
  texture_step h (texture d).

(** The filter handles of the surface name the three stages of its texture,
    in pipeline order, and an FSR pass is active only if the user enabled
    FSR.  (After a failed texture construction there is no texture.) *)
Definition stages_attached (d : EGL_Desktop) : Prop :=
  ffxFSR1Handle_0 d = Some 0%nat
  /\ ffxFSR1Handle_1 d = Some 1%nat
  /\ ffxCASHandle d = Some 2%nat
  /\ forall t, texture d = Some t ->
       exists a b c,
         tex_steps t = [a; b; c]
         /\ (step_enabled a = true -> ffxFSR1Enable d = true)
         /\ (step_enabled b = true -> ffxFSR1Enable d = true).

(** Without a texture the filter calls change nothing: the handles and the
    absence of the texture are kept. *)
Definition detached (h0 h1 h2 : PostProcessHandle) (d : EGL_Desktop) : Prop :=
  texture d = None
  /\ ffxFSR1Handle_0 d = h0 /\ ffxFSR1Handle_1 d = h1 /\ ffxCASHandle d = h2.

(** A texture that has no filter stage yet. *)
Definition tex_fresh (d : EGL_Desktop) : Prop :=
  exists t, texture d = Some t /\ tex_steps t = [].

(** From a surface with [P], a call of [m] that returns true leaves a
    surface with [Q]. *)
Definition establishes (P : EGL_Desktop -> Prop) (m : M bool)
    (Q : EGL_Desktop -> Prop) : Prop :=
  forall s : State, P (desktop s) -> eval m s = true -> Q (desktop (exec m s)).

(** Whether a stage is active, read through a handle of the surface. *)
Definition activeNow (h : PostProcessHandle) (d : EGL_Desktop) : option bool :=
  step_enabled <$> stage_of h d.

(** ** Vocabulary of the further properties *)

(** Every call an action makes satisfies [ok]; the history it found is kept
    and the calls are appended to it. *)
Definition emits_only {A : Type} (ok : Event -> bool) (m : M A) : Prop :=
  forall s : State,
    exists es, trace (exec m s) = trace s ++ es /\ forallb ok es = true.

(** Calls that move frame data into the texture. *)
Definition is_ingest (e : Event) : bool :=
  match e with
  | EvTextureUpdateFromDMA _ _ | EvTextureUpdateFromFrame _ _ _ => true
  | _ => false
  end.

(** Calls that create or dispose of the texture. *)
Definition is_texture_lifecycle (e : Event) : bool :=
  match e with
  | EvTextureInit _ _ | EvTextureFree => true
  | _ => false
  end.

(** Calls that change a filter stage that is already attached, or ask for a
    new frame to be drawn. *)
Definition is_adjustment (e : Event) : bool :=
  match e with
  | EvTextureEnableFilter _ _ | EvTextureSetFilterRes _ _ _
  | EvTextureInvalidate | EvInvalidateWindow _ | EvShaderSetUniforms _ _ => true
  | _ => false
  end.

Definition is_texture_free (e : Event) : bool :=
  match e with
  | EvTextureFree => true
  | _ => false
  end.

(** Number of texture disposals in a list of calls: the downgrades. *)
Definition downgrades (es : list Event) : nat :=
  length (List.filter is_texture_free es).

Definition is_update (o : Op) : bool :=
  match o with
  | OpUpdate _ _ _ _ => true
  | _ => false
  end.

(** Calls that [egl_desktopInit] makes only once every checked allocation
    has succeeded: the registration of the night vision key and the
    attachment of the filter stages. *)
Definition is_commitment (e : Event) : bool :=
  match e with
  | EvRegisterKeybind _ | EvTextureAddFilter _ _ => true
  | _ => false
  end.

Definition is_error_log (e : Event) : bool :=
  match e with
  | EvLog LOG_ERROR _ => true
  | _ => false
  end.

(** The texture of the surface, when there is one, is of the kind of the
    transfer path: a DMABUF texture on the zero-copy path, a framebuffer
    texture on the buffered path; and it is a streaming texture. *)
Definition texture_matches_path (d : EGL_Desktop) : Prop :=
  forall t, texture d = Some t ->
    tex_type t = (if useDMA d then EGL_TEXTYPE_DMABUF else EGL_TEXTYPE_FRAMEBUFFER)
    /\ tex_streaming t = true.

Module Trial.

(** No allocation succeeds. *)
Definition env_no_memory : Env :=
  {| env_bool := fun _ => false;
     env_int := fun _ => 0;
     env_status := fun _ => EGL_TEX_STATUS_ERROR;
     env_rect := fun _ => mkRect 0 0;
     option_get_int := fun _ _ => 0;
     option_get_bool := fun _ _ => false;
     option_get_float := fun _ _ => F32.zero |}.

End Trial.

(** The alert that announces a night vision gain: off at 0, on at 1, the
    level [gain - 1] above. *)
Definition nv_alert (gain : Z) : Event :=
  if gain =? 0 then EvAlert "NV Disabled" None
  else if gain =? 1 then EvAlert "NV Enabled" None
  else EvAlert "NV Gain + %d" (Some (gain - 1)).

(** The scale algorithm a pass of the panel leaves: the last item of the
    combo the user selected, the stored one when the combo is closed or no
    item was selected. *)
Definition chosen_scale (ui : UIInput) (current : Z) : Z :=
  if ui_comboOpen ui then
    default current (last (List.filter (ui_selectable ui) (seqZ 0 EGL_SCALE_MAX)))
  else current.

Definition valid_scale (d : EGL_Desktop) : Prop := 0 <= scaleAlgo d < EGL_SCALE_MAX.



(** The shader a stage's sharpness uniform is sent to, and the uniform. *)
Definition stage_shader (st : Stage) (d : EGL_Desktop) : option EGL_Shader :=
  match st with
  | StageFSR => ffxFSR1_1 d
  | StageCAS => ffxCAS d
  end.

Definition stage_uniform (st : Stage) (d : EGL_Desktop) : EGL_Uniform :=
  match st with
  | StageFSR => ffxFSR1Uniform d
  | StageCAS => ffxCASUniform d
  end.

(** The value the sharpness slider of a stage holds after the widget was
    drawn: the user's, or the stored uniform it was loaded with. *)
Definition slider_value (st : Stage) (ui : UIInput) (d : EGL_Desktop) : float32 :=
  default (sharpness_uniform st d) (ui_sharpness st ui).

Definition ends_with_redraw (s : State) : Prop :=
  exists pre, trace s = pre ++ [EvTextureInvalidate; EvInvalidateWindow true].

(** The resolution a stage renders at, read through a handle of the
    surface. *)
Definition resolution (h : PostProcessHandle) (d : EGL_Desktop) : option (Z * Z) :=
  (fun st => (step_width st, step_height st)) <$> stage_of h d.


(** The calls with which [egl_desktopRender] draws the frame. *)
Definition draw_events (sh : option EGL_Shader) : list Event :=
  [EvShaderUse sh; EvRectsRender; EvGlBindTexture].

(** The calls whose failure [egl_desktopInit] checks: the allocation of the
    surface, the construction of the texture, the creation and compilation
    of the desktop shader, the mesh and the matrix buffer. *)
Definition is_checked (e : Event) : bool :=
  match e with
  | EvCalloc | EvTextureInit _ _ | EvRectsInit _ | EvCountedBufferNew => true
  | EvShaderInit Shader_desktop | EvShaderCompile (Some Shader_desktop) => true
  | _ => false
  end.

(** An environment that answers every checked call with success; what it
    answers to any other call is left open. *)
Definition checked_calls_succeed (env : Env) : Prop :=
  forall (h : list Event) (e : Event),
    last h = Some e -> is_checked e = true -> env_bool env h = true.

Module Faulty.

(** Every checked call succeeds; the creation and the compilation of the
    three filter shaders fail. *)
Definition env_filters_fail : Env :=
  {| env_bool := fun h =>
       match last h with
       | Some e => is_checked e
       | None => true
       end;
     env_int := fun h => Z.of_nat (length h);
     env_status := fun _ => EGL_TEX_STATUS_OK;
     env_rect := fun _ => mkRect 1920 1080;
     option_get_int := Scenario.options_int;
     option_get_bool := fun _ _ => true;
     option_get_float := fun _ _ => F32.half |}.

End Faulty.

Module Panel.



(** A user who ticks the FSR check box, and one who ticks the CAS one. *)
Definition ui_tick_fsr : UIInput :=
  {| ui_comboOpen := false; ui_selectable := fun _ => false; ui_nvGain := None;
     ui_fsr1Clicked := true; ui_fsr1Sharpness := None;
     ui_casClicked := false; ui_casSharpness := None |}.

Definition ui_tick_cas : UIInput :=
  {| ui_comboOpen := false; ui_selectable := fun _ => false; ui_nvGain := None;
     ui_fsr1Clicked := false; ui_fsr1Sharpness := None;
     ui_casClicked := true; ui_casSharpness := None |}.


(** A surface whose night vision gain, 5, is above the maximum, 0. *)
Definition gain_above_max : State := mkState (set_nvGain 5 zero_desktop) [].

End Panel.

(** * Properties *)

(** ** Machine integers *)

Lemma wrap_int_id z : Int32.in_range z -> Int32.wrap_int z = z.
Proof.
  unfold Int32.in_range, Int32.wrap_int, Int32.min_int, Int32.max_int. intros Hz.
  rewrite Z.mod_small; lia.
Qed.

(** ** Running the monad *)

Lemma bind_run {A B : Type} (m : M A) (k : A -> M B) (s : State) :
  bind m k s = k (fst (m s)) (snd (m s)).
Proof. unfold bind. destruct (m s); reflexivity. Qed.

Lemma exec_bind {A B : Type} (m : M A) (k : A -> M B) (s : State) :
  exec (bind m k) s = exec (k (eval m s)) (exec m s).
Proof. unfold exec, eval. rewrite bind_run. reflexivity. Qed.

Lemma eval_bind {A B : Type} (m : M A) (k : A -> M B) (s : State) :
  eval (bind m k) s = eval (k (eval m s)) (exec m s).
Proof. unfold exec, eval. rewrite bind_run. reflexivity. Qed.

Lemma exec_for_each_cons {A : Type} (x : A) (l : list A) (body : A -> M unit) s :
  exec (for_each (x :: l) body) s = exec (for_each l body) (exec (body x) s).
Proof. cbn [for_each]. apply exec_bind. Qed.

Lemma emitted_app {A : Type} (m : M A) (s : State) (es : list Event) :
  trace (exec m s) = trace s ++ es -> emitted m s = es.
Proof.
  unfold emitted. intros ->. rewrite drop_app_length. reflexivity.
Qed.

(** ** C9: the validator of the scale option *)

Lemma egl_desktopScaleValidate_accepts (opt : Option) (error : string) :
  fst (egl_desktopScaleValidate opt error) = true <-> 0 <= x_int opt < EGL_SCALE_MAX.
Proof.
  unfold egl_desktopScaleValidate.
  destruct (0 <=? x_int opt) eqn:Hlo; destruct (x_int opt <? EGL_SCALE_MAX) eqn:Hhi;
    cbn; split; intros H; try discriminate; try reflexivity; lia.
Qed.

(** C9.  [egl_desktopScaleValidate] returns true exactly for the values [v]
    with [0 <= v < EGL_SCALE_MAX].  For every other value it returns false,
    stores the message "Invalid scale algorithm number" through [error] and
    leaves the option untouched (the value is not clamped into the range);
    the configuration store, offered such a value, keeps the option it held
    and reports that message. *)
Theorem scale_validate_range (opt : Option) (error : string) :
  (fst (egl_desktopScaleValidate opt error) = true <-> 0 <= x_int opt < EGL_SCALE_MAX)
  /\ fst (snd (egl_desktopScaleValidate opt error)) = opt
  /\ (~ 0 <= x_int opt < EGL_SCALE_MAX ->
        egl_desktopScaleValidate opt error
          = (false, (opt, "Invalid scale algorithm number"%string)))
  /\ (forall prior : Option,
        ~ 0 <= x_int opt < EGL_SCALE_MAX ->
        option_store_int egl_desktopScaleValidate prior (x_int opt)
          = (prior, Some "Invalid scale algorithm number"%string))
  /\ (forall prior : Option,
        0 <= x_int opt < EGL_SCALE_MAX ->
        option_store_int egl_desktopScaleValidate prior (x_int opt)
          = (mkOption (opt_module prior) (opt_name prior) (x_int opt), None)).
Proof.
  split; [apply egl_desktopScaleValidate_accepts|].
  split.
  { unfold egl_desktopScaleValidate.
    destruct ((0 <=? x_int opt) && (x_int opt <? EGL_SCALE_MAX)); reflexivity. }
  assert (Hrej : forall o e, ~ 0 <= x_int o < EGL_SCALE_MAX ->
            egl_desktopScaleValidate o e
              = (false, (o, "Invalid scale algorithm number"%string))).
  { intros o e Hout. unfold egl_desktopScaleValidate.
    destruct (0 <=? x_int o) eqn:Hlo; destruct (x_int o <? EGL_SCALE_MAX) eqn:Hhi;
      cbn; try reflexivity. exfalso. apply Hout. lia. }
  split; [apply Hrej|].
  split.
  - intros prior Hout. unfold option_store_int.
    rewrite Hrej by exact Hout. reflexivity.
  - intros prior Hin. unfold option_store_int, egl_desktopScaleValidate. cbn [x_int].
    destruct (0 <=? x_int opt) eqn:Hlo; destruct (x_int opt <? EGL_SCALE_MAX) eqn:Hhi;
      cbn; try reflexivity; lia.
Qed.

(** ** C7: the night vision toggle *)

Lemma toggleNV_run (key : Z) (s : State) :
  exists alert,
    is_redraw alert = false /\
    toggleNV key s =
      (tt, mkState (set_nvGain (nv_next (nvGain (desktop s)) (nvMax (desktop s))) (desktop s))
             (trace s ++ [alert; EvInvalidateWindow true])).
Proof.
  unfold toggleNV, nv_next, when, app_alert, app_invalidateWindow.
  unfold bind, get, modify, emit, ret. cbn.
  destruct (nvGain (desktop s) =? nvMax (desktop s)); cbn.
  - eexists. split; [|rewrite <- List.app_assoc; reflexivity]. reflexivity.
  - destruct (Int32.wrap_int (nvGain (desktop s) + 1) =? 0);
      [|destruct (Int32.wrap_int (nvGain (desktop s) + 1) =? 1)];
      cbn; (eexists; split; [|rewrite <- List.app_assoc; reflexivity]; reflexivity).
Qed.

Lemma nv_next_mod (gain max : Z) :
  0 <= gain <= max -> Int32.in_range max ->
  nv_next gain max = (gain + 1) mod (max + 1).
Proof.
  intros Hg Hmax. unfold nv_next.
  destruct (Z.eqb_spec gain max) as [->|Hne].
  - rewrite Z.mod_same by lia. reflexivity.
  - rewrite wrap_int_id.
    + rewrite Z.mod_small by lia. reflexivity.
    + unfold Int32.in_range, Int32.min_int, Int32.max_int in *. lia.
Qed.

Lemma toggleNV_many (keys : list Z) : forall s : State,
  0 <= nvGain (desktop s) <= nvMax (desktop s) ->
  Int32.in_range (nvMax (desktop s)) ->
  nvMax (desktop (exec (for_each keys toggleNV) s)) = nvMax (desktop s)
  /\ nvGain (desktop (exec (for_each keys toggleNV) s))
       = (nvGain (desktop s) + Z.of_nat (length keys)) mod (nvMax (desktop s) + 1)
  /\ exists es, trace (exec (for_each keys toggleNV) s) = trace s ++ es
                /\ redraws es = length keys.
Proof.
  induction keys as [|key keys IH]; intros s Hg Hmax.
  - cbn. rewrite Z.add_0_r, Z.mod_small by lia.
    repeat split. exists []. rewrite app_nil_r. split; reflexivity.
  - rewrite exec_for_each_cons.
    destruct (toggleNV_run key s) as (alert & Halert & Hrun).
    assert (Hex : exec (toggleNV key) s = snd (toggleNV key s)) by reflexivity.
    rewrite Hrun in Hex. cbn [snd] in Hex. rewrite Hex. clear Hex Hrun.
    set (s1 := mkState _ _).
    assert (Hnext := nv_next_mod _ _ Hg Hmax).
    assert (Hg1 : 0 <= nvGain (desktop s1) <= nvMax (desktop s1)).
    { subst s1. cbn. rewrite Hnext.
      pose proof (Z.mod_pos_bound (nvGain (desktop s) + 1) (nvMax (desktop s) + 1)).
      lia. }
    destruct (IH s1 Hg1 Hmax) as (IHmax & IHgain & es & IHtr & IHred).
    subst s1. cbn [desktop nvGain nvMax set_nvGain trace] in IHmax, IHgain, IHtr.
    split; [exact IHmax|]. split.
    + rewrite IHgain, Hnext. cbn [length].
      rewrite Nat2Z.inj_succ, Zplus_mod_idemp_l. f_equal. lia.
    + exists ([alert; EvInvalidateWindow true] ++ es). split.
      * rewrite IHtr, <- List.app_assoc. reflexivity.
      * unfold redraws in *. cbn [app List.filter is_redraw]. rewrite Halert.
        cbn [length]. rewrite IHred. reflexivity.
Qed.

(** C7.  Starting from gain 0 with [nvMax >= 0], after the toggles of [keys]
    the gain is [length keys mod (nvMax + 1)] and the window was invalidated
    once per toggle; and each single toggle takes a gain [g] of [0..nvMax] to
    [(g + 1) mod (nvMax + 1)] and ends by invalidating the window. *)
Theorem nv_toggle_cycle (s : State) (keys : list Z) :
  nvGain (desktop s) = 0 ->
  0 <= nvMax (desktop s) ->
  Int32.in_range (nvMax (desktop s)) ->
  nvGain (desktop (exec (for_each keys toggleNV) s))
    = Z.of_nat (length keys) mod (nvMax (desktop s) + 1)
  /\ redraws (emitted (for_each keys toggleNV) s) = length keys
  /\ (forall (key : Z) (s1 : State),
        0 <= nvGain (desktop s1) <= nvMax (desktop s1) ->
        Int32.in_range (nvMax (desktop s1)) ->
        nvGain (desktop (exec (toggleNV key) s1))
          = (nvGain (desktop s1) + 1) mod (nvMax (desktop s1) + 1)
        /\ nvMax (desktop (exec (toggleNV key) s1)) = nvMax (desktop s1)
        /\ last (trace (exec (toggleNV key) s1)) = Some (EvInvalidateWindow true)).
Proof.
  intros Hzero Hmax Hrange.
  assert (Hg : 0 <= nvGain (desktop s) <= nvMax (desktop s)) by lia.
  destruct (toggleNV_many keys s Hg Hrange) as (_ & Hgain & es & Htr & Hred).
  split; [rewrite Hgain, Hzero; reflexivity|].
  split; [rewrite (emitted_app _ _ _ Htr); exact Hred|].
  intros key s1 Hg1 Hr1.
  destruct (toggleNV_run key s1) as (alert & _ & Hrun).
  unfold exec. rewrite Hrun. cbn [snd desktop trace set_nvGain nvGain nvMax].
  split; [apply nv_next_mod; assumption|]. split; [reflexivity|].
  rewrite last_app. reflexivity.
Qed.

(** ** C3: the scale algorithm of a frame *)

(** C3.  In every call of [egl_desktopRender] the first uniform sent to the
    desktop shader is the scale algorithm, and its value is the reference
    selector [select] applied to the configured algorithm, the scale type the
    caller passed, the final size the texture reported in this call and the
    logical desktop size. *)
Theorem render_scale_algorithm (env : Env) (s : State)
    (x y scaleX scaleY : float32) (scaleType : EGL_DesktopScaleType)
    (rot : LG_RendererRotate) (rects : list FrameDamageRect) :
  let d := desktop s in
  let m := egl_desktopRender env x y scaleX scaleY scaleType rot rects in
  exists (hist : list Event) (others : list EGL_Uniform),
    hist `prefix_of` trace (exec m s)
    /\ trace s `prefix_of` hist
    /\ last hist = Some EvTextureGetFinalSize
    /\ EvShaderSetUniforms (ds_shader (shader d))
         (mkUniform EGL_UNIFORM_TYPE_1I (uScaleAlgo (shader d))
            (UV_i [select (scaleAlgo d) scaleType (env_rect env hist)
                     (mkRect (width d) (height d))])
          :: others)
       ∈ emitted m s
    /\ eval m s = true.
Proof.
  intros d m. subst m d.
  unfold egl_desktopRender, egl_textureProcess, egl_textureBind,
    egl_textureGetFinalSize, egl_shaderSetUniforms, egl_shaderUse, DEBUG_ERROR,
    emitted, exec, eval.
  unfold bind, get, modify, emit, ret, history. cbn.
  destruct (env_status env (trace s ++ [EvTextureProcess])); cbn;
    repeat rewrite <- List.app_assoc; cbn [app].
  1, 2: exists (trace s ++ [EvTextureProcess; EvTextureBind; EvTextureGetFinalSize]).
  3: exists (trace s ++ [EvTextureProcess;
                         EvLog LOG_ERROR "Failed to process the desktop texture";
                         EvTextureBind; EvTextureGetFinalSize]).
  all: eexists; split; [eexists; rewrite <- List.app_assoc; reflexivity|].
  all: split; [eexists; reflexivity|].
  all: split; [rewrite last_app; reflexivity|].
  all: split; [|reflexivity].
  all: rewrite drop_app_length; unfold select; cbn [rect_x rect_y].
  all: destruct (scaleAlgo (desktop s) =? EGL_SCALE_AUTO); cbn [negb].
  all: repeat (first [apply list_elem_of_here | apply list_elem_of_further]).
Qed.

(** ** The steps of [egl_desktopSetup] and [egl_desktopUpdate] *)

Lemma frame_pixel_format_None (type : FrameType) :
  frame_pixel_format type = None <-> ~ supported type.
Proof.
  unfold supported. destruct type; cbn; split; intros H; try discriminate;
    try reflexivity; try (exfalso; apply H; tauto).
  intros [?|[?|[?|?]]]; discriminate.
Qed.

Lemma egl_desktopSetup_unsupported (env : Env) (fmt : LG_RendererFormat) (s : State) :
  frame_pixel_format (fmt_type fmt) = None ->
  egl_desktopSetup env fmt s =
    (false, mkState (set_format fmt (desktop s))
              (trace s ++ [EvLog LOG_ERROR "Unsupported frame format"])).
Proof.
  intros Hpf. unfold egl_desktopSetup. rewrite Hpf.
  reflexivity.
Qed.

Lemma egl_desktopSetup_supported (env : Env) (fmt : LG_RendererFormat)
    (pf : EGL_PixelFormat) (s : State) :
  frame_pixel_format (fmt_type fmt) = Some pf ->
  let d1 := set_height (fmt_height fmt) (set_width (fmt_width fmt)
              (set_format fmt (desktop s))) in
  let tr := trace s ++
              [EvTextureSetup pf (fmt_width fmt) (fmt_height fmt) (fmt_pitch fmt)] in
  egl_desktopSetup env fmt s =
    if env_bool env tr then
      (true,
       mkState (set_texture
                  (texture_with_setup pf (fmt_width fmt) (fmt_height fmt)
                     (fmt_pitch fmt) <$> texture d1) d1) tr)
    else
      (false,
       mkState d1 (tr ++ [EvLog LOG_ERROR "Failed to setup the desktop texture"])).
Proof.
  intros Hpf d1 tr. subst d1 tr. unfold egl_desktopSetup. rewrite Hpf.
  unfold egl_textureSetup, call_bool, DEBUG_ERROR, when.
  unfold bind, get, modify, emit, ret, history. cbn.
  destruct (env_bool env _); reflexivity.
Qed.

Lemma egl_desktopUpdate_buffered (env : Env) (frame : FrameBuffer) (dmaFd : Z)
    (rects : list FrameDamageRect) (n : Z) (s : State) :
  useDMA (desktop s) && (0 <=? dmaFd) = false ->
  let tr := trace s ++ [EvTextureUpdateFromFrame frame rects n] in
  egl_desktopUpdate env frame dmaFd rects n s = (env_bool env tr, mkState (desktop s) tr).
Proof.
  intros Hcond tr. unfold egl_desktopUpdate.
  rewrite bind_run. cbn [get fst snd]. rewrite Hcond. reflexivity.
Qed.

Lemma egl_desktopUpdate_zero_copy (env : Env) (frame : FrameBuffer) (dmaFd : Z)
    (rects : list FrameDamageRect) (n : Z) (s : State) :
  useDMA (desktop s) && (0 <=? dmaFd) = true ->
  let tr := trace s ++ [EvTextureUpdateFromDMA frame dmaFd] in
  env_bool env tr = true ->
  egl_desktopUpdate env frame dmaFd rects n s = (true, mkState (desktop s) tr).
Proof.
  intros Hcond tr Hok. unfold egl_desktopUpdate.
  rewrite bind_run. cbn [get fst snd]. rewrite Hcond.
  unfold egl_textureUpdateFromDMA, call_bool.
  unfold bind, get, modify, emit, ret, history. cbn. fold tr. rewrite Hok.
  reflexivity.
Qed.

Lemma egl_desktopUpdate_downgrade (env : Env) (frame : FrameBuffer) (dmaFd : Z)
    (rects : list FrameDamageRect) (n : Z) (s : State) :
  useDMA (desktop s) && (0 <=? dmaFd) = true ->
  env_bool env (trace s ++ [EvTextureUpdateFromDMA frame dmaFd]) = false ->
  let d := desktop s in
  let tr := trace s ++ downgrade_events frame dmaFd in
  egl_desktopUpdate env frame dmaFd rects n s =
    if env_bool env tr then
      (ok <- egl_desktopSetup env (format d) ;;
       if negb ok then ret false
       else egl_textureUpdateFromFrame env frame rects n)
        (mkState (downgraded d) (tr ++ attach_events d))
    else
      (false,
       mkState (set_texture None (set_useDMA false d))
         (tr ++ [EvLog LOG_ERROR "Failed to initialize the desktop texture"])).
Proof.
  intros Hcond Hfail d tr. subst d tr. unfold egl_desktopUpdate.
  rewrite bind_run. cbn [get fst snd]. rewrite Hcond.
  unfold egl_textureUpdateFromDMA, egl_textureInit, egl_textureFree, call_bool,
    DEBUG_WARN, DEBUG_ERROR, setupFilters, egl_textureAddFilter, downgrade_events.
  unfold bind, get, modify, emit, ret, history. cbn.
  rewrite Hfail. cbn.
  repeat rewrite <- List.app_assoc. cbn [app].
  destruct (env_bool env (trace s ++ [_; _; _; _])); cbn;
    unfold attach_events; repeat rewrite <- List.app_assoc; cbn [app];
    reflexivity.
Qed.

(** ** C2: the transfer-path downgrade within one call *)

(** C2.  When [egl_desktopUpdate] is called with the zero-copy path active
    and a valid handle, and the import fails, the same call logs a warning,
    sets the path to buffered, frees the texture, constructs a buffered
    texture, attaches the three filter stages again, runs
    [egl_desktopSetup] with the stored format and then ingests the same frame
    and damage rectangles through the buffered path, returning what that
    ingestion returns.  When the construction, the setup or the ingestion
    fails the call returns false and makes no further call: nothing is
    retried. *)
Theorem update_downgrade_sequence (env : Env) (s : State) (frame : FrameBuffer)
    (dmaFd : Z) (rects : list FrameDamageRect) (n : Z) :
  useDMA (desktop s) = true ->
  0 <= dmaFd ->
  env_bool env (trace s ++ [EvTextureUpdateFromDMA frame dmaFd]) = false ->
  let d := desktop s in
  let m := egl_desktopUpdate env frame dmaFd rects n in
  let attached := downgrade_events frame dmaFd ++ attach_events d in
  useDMA (desktop (exec m s)) = false
  /\ if env_bool env (trace s ++ downgrade_events frame dmaFd) then
       match frame_pixel_format (fmt_type (format d)) with
       | Some pf =>
           let setup :=
             EvTextureSetup pf (fmt_width (format d)) (fmt_height (format d))
               (fmt_pitch (format d)) in
           if env_bool env (trace s ++ attached ++ [setup]) then
             emitted m s
               = attached ++ [setup; EvTextureUpdateFromFrame frame rects n]
             /\ eval m s = env_bool env (trace (exec m s))
             /\ texture (desktop (exec m s))
                  = Some (mkTexture EGL_TEXTYPE_FRAMEBUFFER true
                            (Some (pf, fmt_width (format d), fmt_height (format d),
                                   fmt_pitch (format d)))
                            (attached_steps d))
           else
             eval m s = false
             /\ emitted m s
                  = attached ++
                    [setup; EvLog LOG_ERROR "Failed to setup the desktop texture"]
       | None =>
           eval m s = false
           /\ emitted m s
                = attached ++ [EvLog LOG_ERROR "Unsupported frame format"]
       end
     else
       eval m s = false
       /\ emitted m s
            = downgrade_events frame dmaFd ++
              [EvLog LOG_ERROR "Failed to initialize the desktop texture"]
       /\ texture (desktop (exec m s)) = None.
Proof.
  intros Hdma Hfd Hfail d m attached. subst m attached.
  assert (Hcond : useDMA (desktop s) && (0 <=? dmaFd) = true).
  { rewrite Hdma. cbn. apply Z.leb_le. exact Hfd. }
  unfold emitted, exec, eval.
  rewrite (egl_desktopUpdate_downgrade env frame dmaFd rects n s Hcond Hfail).
  fold d.
  destruct (env_bool env (trace s ++ downgrade_events frame dmaFd)) eqn:Hinit.
  2: { cbn [fst snd desktop trace]. rewrite <- List.app_assoc, drop_app_length.
       repeat split. }
  rewrite bind_run.
  destruct (frame_pixel_format (fmt_type (format d))) as [pf|] eqn:Hpf.
  - rewrite (egl_desktopSetup_supported env (format d) pf _ Hpf).
    cbn [desktop trace]. rewrite <- ?List.app_assoc.
    match goal with
    | |- context [if env_bool env ?h then _ else _] =>
        destruct (env_bool env h) eqn:Hsetup
    end.
    + cbn [fst snd negb]. unfold egl_textureUpdateFromFrame, call_bool.
      unfold bind, get, modify, emit, ret, history. cbn.
      rewrite <- ?List.app_assoc. rewrite drop_app_length.
      repeat split.
    + cbn. rewrite <- ?List.app_assoc. rewrite drop_app_length.
      repeat split.
  - rewrite (egl_desktopSetup_unsupported env (format d) _ Hpf).
    cbn. rewrite <- ?List.app_assoc. rewrite drop_app_length.
    repeat split.
Qed.

(** ** C10: a rejected format is stored before it is validated *)

(** C10.  For a format whose type is none of BGRA, RGBA, RGBA10 and RGBA16F,
    [egl_desktopSetup] returns false and leaves the stored width and height
    and the texture as they were, but the stored format is the rejected one.
    From any later state that still holds it, a transfer-path downgrade
    whose texture construction succeeds re-runs the setup with the rejected
    format, which fails again: the call returns false after the message
    "Unsupported frame format" and never reaches the buffered ingestion. *)
Theorem setup_stores_rejected_format (env : Env) (s : State) (fmt : LG_RendererFormat) :
  ~ supported (fmt_type fmt) ->
  let s1 := exec (egl_desktopSetup env fmt) s in
  eval (egl_desktopSetup env fmt) s = false
  /\ width (desktop s1) = width (desktop s)
  /\ height (desktop s1) = height (desktop s)
  /\ texture (desktop s1) = texture (desktop s)
  /\ format (desktop s1) = fmt
  /\ forall (s2 : State) (frame : FrameBuffer) (dmaFd : Z)
       (rects : list FrameDamageRect) (n : Z),
       format (desktop s2) = format (desktop s1) ->
       useDMA (desktop s2) = true ->
       0 <= dmaFd ->
       env_bool env (trace s2 ++ [EvTextureUpdateFromDMA frame dmaFd]) = false ->
       env_bool env (trace s2 ++ downgrade_events frame dmaFd) = true ->
       let m := egl_desktopUpdate env frame dmaFd rects n in
       eval m s2 = false
       /\ emitted m s2
            = downgrade_events frame dmaFd ++ attach_events (desktop s2) ++
              [EvLog LOG_ERROR "Unsupported frame format"]
       /\ format (desktop (exec m s2)) = fmt.
Proof.
  intros Hunsup s1. apply frame_pixel_format_None in Hunsup. subst s1.
  unfold exec, eval. rewrite (egl_desktopSetup_unsupported env fmt s Hunsup).
  cbn [fst snd desktop trace].
  repeat (split; [reflexivity|]).
  intros s2 frame dmaFd rects n Hfmt Hdma Hfd Hfail Hinit.
  cbn in Hfmt.
  assert (Hcond : useDMA (desktop s2) && (0 <=? dmaFd) = true).
  { rewrite Hdma. cbn. apply Z.leb_le. exact Hfd. }
  unfold emitted, exec, eval.
  rewrite (egl_desktopUpdate_downgrade env frame dmaFd rects n s2 Hcond Hfail).
  rewrite Hinit, bind_run, Hfmt.
  rewrite (egl_desktopSetup_unsupported env fmt _ Hunsup).
  cbn. rewrite <- ?List.app_assoc. rewrite drop_app_length.
  repeat split.
Qed.

(** ** Properties of the surface kept by the operations *)

Section Preserves.

Context {P : EGL_Desktop -> Prop}.

Lemma preserves_ret {A : Type} (a : A) : preserves P (ret a).
Proof. intros s H. exact H. Qed.

Lemma preserves_get : preserves P get.
Proof. intros s H. exact H. Qed.

Lemma preserves_history : preserves P history.
Proof. intros s H. exact H. Qed.

Lemma preserves_emit (e : Event) : preserves P (emit e).
Proof. intros s H. exact H. Qed.

Lemma preserves_modify (f : EGL_Desktop -> EGL_Desktop) :
  (forall d, P d -> P (f d)) -> preserves P (modify f).
Proof. intros Hf s H. apply Hf. exact H. Qed.

Lemma preserves_bind {A B : Type} (m : M A) (k : A -> M B) :
  preserves P m -> (forall a, preserves P (k a)) -> preserves P (bind m k).
Proof.
  intros Hm Hk s H. rewrite exec_bind. apply Hk. apply Hm. exact H.
Qed.

Lemma preserves_when (b : bool) (m : M unit) :
  preserves P m -> preserves P (when b m).
Proof. intros Hm. destruct b; [exact Hm|apply preserves_ret]. Qed.

Lemma preserves_for_each {A : Type} (l : list A) (body : A -> M unit) :
  (forall x, preserves P (body x)) -> preserves P (for_each l body).
Proof.
  intros Hbody. induction l as [|x l IH]; cbn [for_each].
  - apply preserves_ret.
  - apply preserves_bind; [apply Hbody|intros _; exact IH].
Qed.

End Preserves.

(** One step of a structural proof of [preserves]; [side] closes the goals
    [P d -> P (f d)] that the assignments leave. *)
Ltac preserves_step side :=
  first
    [ apply preserves_ret
    | apply preserves_get
    | apply preserves_history
    | apply preserves_emit
    | apply preserves_modify; side
    | apply preserves_bind; [|intros ?]
    | apply preserves_when
    | apply preserves_for_each; intros ?
    | match goal with
      | |- preserves _ (if ?c then _ else _) => destruct c
      | |- preserves _ (match ?x with _ => _ end) => destruct x
      end ].

Ltac unfold_calls :=
  unfold call_bool, call_int, DEBUG_ERROR, DEBUG_WARN, app_alert,
    app_invalidateWindow, app_registerKeybind, egl_textureSetup,
    egl_textureUpdateFromDMA, egl_textureUpdateFromFrame,
    egl_textureEnableFilter, egl_textureSetFilterRes, egl_textureInvalidate,
    egl_textureProcess, egl_textureBind, egl_textureGetFinalSize,
    egl_shaderSetUniforms, egl_shaderUse.

Lemma toggleNV_preserves (P : EGL_Desktop -> Prop) (key : Z) :
  (forall g d, P d -> P (set_nvGain g d)) -> preserves P (toggleNV key).
Proof.
  intros Hset. unfold toggleNV. unfold_calls.
  repeat preserves_step ltac:(intros ? ?; apply Hset; assumption).
Qed.

Lemma egl_desktopRender_preserves (env : Env) (P : EGL_Desktop -> Prop)
    x y scaleX scaleY scaleType rot rects :
  preserves P (egl_desktopRender env x y scaleX scaleY scaleType rot rects).
Proof.
  unfold egl_desktopRender. unfold_calls.
  repeat preserves_step ltac:(idtac).
Qed.

Lemma buffered_run_op (env : Env) (o : Op) : preserves buffered (run_op env o).
Proof.
  destruct o; unfold run_op.
  - apply toggleNV_preserves. intros g d H. exact H.
  - unfold egl_desktopConfigUI, configUI_scale, configUI_nightVision,
      configUI_fsr, configUI_cas. unfold_calls.
    repeat preserves_step ltac:(intros ? Hd; exact Hd).
  - unfold egl_desktopSetup. unfold_calls.
    repeat preserves_step ltac:(intros ? Hd; exact Hd).
  - unfold egl_desktopUpdate, egl_desktopSetup, setupFilters, egl_textureInit,
      egl_textureFree, egl_textureAddFilter. unfold_calls.
    repeat preserves_step ltac:(intros ? Hd; first [exact Hd|reflexivity]).
  - unfold egl_desktopResize. unfold_calls.
    repeat preserves_step ltac:(intros ? Hd; exact Hd).
  - apply preserves_bind; [apply egl_desktopRender_preserves|intros ?].
    apply preserves_ret.
Qed.

Lemma buffered_run_ops (env : Env) (ops : list Op) :
  preserves buffered (run_ops env ops).
Proof. apply preserves_for_each. intros o. apply buffered_run_op. Qed.

(** ** C1: the downgrade is permanent *)

(** C1.  Once a call of [egl_desktopUpdate] has met a failing zero-copy
    import, the surface is on the buffered path, it stays there through any
    sequence of operations, and every later call of [egl_desktopUpdate]
    makes exactly one collaborator call, the buffered ingestion of its frame
    and damage rectangles, whatever DMA handle it is given; it returns what
    that ingestion returns and leaves the surface as it is. *)
Theorem downgrade_is_permanent (env : Env) (s : State)
    (frame : FrameBuffer) (dmaFd : Z) (rects : list FrameDamageRect) (n : Z)
    (ops : list Op)
    (frame' : FrameBuffer) (dmaFd' : Z) (rects' : list FrameDamageRect) (n' : Z) :
  useDMA (desktop s) = true ->
  0 <= dmaFd ->
  env_bool env (trace s ++ [EvTextureUpdateFromDMA frame dmaFd]) = false ->
  let s1 := exec (egl_desktopUpdate env frame dmaFd rects n) s in
  let s2 := exec (run_ops env ops) s1 in
  let m := egl_desktopUpdate env frame' dmaFd' rects' n' in
  useDMA (desktop s1) = false
  /\ useDMA (desktop s2) = false
  /\ emitted m s2 = [EvTextureUpdateFromFrame frame' rects' n']
  /\ eval m s2 = env_bool env (trace s2 ++ [EvTextureUpdateFromFrame frame' rects' n'])
  /\ desktop (exec m s2) = desktop s2.
Proof.
  intros Hdma Hfd Hfail s1 s2 m.
  assert (H1 : buffered (desktop s1)).
  { subst s1. revert Hdma Hfd Hfail. clear. intros Hdma Hfd Hfail.
    assert (Hcond : useDMA (desktop s) && (0 <=? dmaFd) = true).
    { rewrite Hdma. cbn. apply Z.leb_le. exact Hfd. }
    unfold exec.
    rewrite (egl_desktopUpdate_downgrade env frame dmaFd rects n s Hcond Hfail).
    destruct (env_bool env (trace s ++ downgrade_events frame dmaFd));
      [|reflexivity].
    change (buffered (desktop (exec
      (ok <- egl_desktopSetup env (format (desktop s)) ;;
       if negb ok then ret false
       else egl_textureUpdateFromFrame env frame rects n)
      (mkState (downgraded (desktop s))
         ((trace s ++ downgrade_events frame dmaFd) ++ attach_events (desktop s)))))).
    assert (Hp : preserves buffered
      (ok <- egl_desktopSetup env (format (desktop s)) ;;
       if negb ok then ret false
       else egl_textureUpdateFromFrame env frame rects n)).
    { unfold egl_desktopSetup. unfold_calls.
      repeat preserves_step ltac:(intros ? Hd; exact Hd). }
    apply Hp. reflexivity. }
  assert (H2 : buffered (desktop s2)).
  { subst s2. apply buffered_run_ops. exact H1. }
  split; [exact H1|]. split; [exact H2|].
  assert (Hcond : useDMA (desktop s2) && (0 <=? dmaFd') = false).
  { unfold buffered in H2. rewrite H2. reflexivity. }
  subst m. unfold emitted, exec, eval.
  rewrite (egl_desktopUpdate_buffered env frame' dmaFd' rects' n' s2 Hcond).
  cbn [fst snd desktop trace]. rewrite drop_app_length. repeat split.
Qed.

(** ** The groups of [egl_desktopConfigUI] *)

Lemma egl_desktopConfigUI_run (ui : UIInput) (s : State) :
  let s1 := exec (configUI_nightVision ui) (exec (configUI_scale ui) s) in
  let s2 := exec (configUI_fsr ui false) s1 in
  let r2 := eval (configUI_fsr ui false) s1 in
  let s3 := exec (configUI_cas ui r2) s2 in
  let r3 := eval (configUI_cas ui r2) s2 in
  exec (egl_desktopConfigUI ui) s =
    if r3 then mkState (desktop s3) (trace s3 ++ [EvTextureInvalidate; EvInvalidateWindow true])
    else s3.
Proof.
  intros s1 s2 r2 s3 r3. unfold egl_desktopConfigUI.
  rewrite !exec_bind. fold s1. fold s2 r2. fold s3 r3.
  destruct r3; cbn [when].
  - unfold egl_textureInvalidate, app_invalidateWindow, exec, bind, emit. cbn.
    rewrite <- List.app_assoc. reflexivity.
  - reflexivity.
Qed.

(** The combo and the slider of the first two groups leave every field but
    [scaleAlgo] and [nvGain] as it is. *)
Lemma configUI_scale_preserves (P : EGL_Desktop -> Prop) (ui : UIInput) :
  (forall i d, P d -> P (set_scaleAlgo i d)) -> preserves P (configUI_scale ui).
Proof.
  intros Hset. unfold configUI_scale.
  repeat preserves_step ltac:(intros ? ?; apply Hset; assumption).
Qed.

Lemma configUI_nightVision_preserves (P : EGL_Desktop -> Prop) (ui : UIInput) :
  (forall g d, P d -> P (set_nvGain g d)) -> preserves P (configUI_nightVision ui).
Proof.
  intros Hset. unfold configUI_nightVision.
  repeat preserves_step ltac:(intros ? ?; apply Hset; assumption).
Qed.

Lemma configUI_fsr_keeps_cas (ui : UIInput) (inv : bool) (b : bool) (u : EGL_Uniform) :
  preserves (fun d => ffxCASEnable d = b /\ ffxCASUniform d = u) (configUI_fsr ui inv).
Proof.
  unfold configUI_fsr. unfold_calls.
  repeat preserves_step ltac:(intros ? Hd; exact Hd).
Qed.

Lemma configUI_cas_keeps_fsr (ui : UIInput) (inv : bool) (b : bool) (u : EGL_Uniform) :
  preserves (fun d => ffxFSR1Enable d = b /\ ffxFSR1Uniform d = u) (configUI_cas ui inv).
Proof.
  unfold configUI_cas. unfold_calls.
  repeat preserves_step ltac:(intros ? Hd; exact Hd).
Qed.

Lemma uniform_f0_set (x : float32) (u : EGL_Uniform) :
  uniform_f0 (set_uniform_f0 x u) = x.
Proof. unfold uniform_f0, set_uniform_f0. cbn. destruct (u_value u) as [[|? ?]| |]; reflexivity. Qed.

(** A changed FSR sharpness: the group reports the change, has the stage
    enabled, stores [2.0 - v * 2.0] and sends it to the RCAS pass. *)
Lemma configUI_fsr_changed (ui : UIInput) (inv : bool) (s : State) (v : float32) :
  ui_fsr1Sharpness ui = Some v ->
  F32.neqb v (uniform_f0 (ffxFSR1Uniform (desktop s))) = true ->
  let s' := exec (configUI_fsr ui inv) s in
  eval (configUI_fsr ui inv) s = true
  /\ ffxFSR1Enable (desktop s') = true
  /\ uniform_f0 (ffxFSR1Uniform (desktop s')) = sharpness_of_raw StageFSR v
  /\ last (trace s')
       = Some (EvShaderSetUniforms (ffxFSR1_1 (desktop s)) [ffxFSR1Uniform (desktop s')]).
Proof.
  intros Hv Hne. unfold configUI_fsr, eval, exec. unfold_calls.
  unfold bind, get, modify, emit, ret, when. cbn. rewrite Hv, Hne.
  destruct (ui_fsr1Clicked ui), (ffxFSR1Enable (desktop s)) eqn:Hen; cbn;
    rewrite uniform_f0_set, last_snoc; repeat split; exact Hen.
Qed.

Lemma configUI_cas_changed (ui : UIInput) (inv : bool) (s : State) (v : float32) :
  ui_casSharpness ui = Some v ->
  F32.neqb v (uniform_f0 (ffxCASUniform (desktop s))) = true ->
  let s' := exec (configUI_cas ui inv) s in
  eval (configUI_cas ui inv) s = true
  /\ ffxCASEnable (desktop s') = true
  /\ uniform_f0 (ffxCASUniform (desktop s')) = sharpness_of_raw StageCAS v
  /\ last (trace s')
       = Some (EvShaderSetUniforms (ffxCAS (desktop s)) [ffxCASUniform (desktop s')]).
Proof.
  intros Hv Hne. unfold configUI_cas, eval, exec. unfold_calls.
  unfold bind, get, modify, emit, ret, when. cbn. rewrite Hv, Hne.
  destruct (ui_casClicked ui), (ffxCASEnable (desktop s)) eqn:Hen; cbn;
    rewrite uniform_f0_set, last_snoc; repeat split; exact Hen.
Qed.

(** The CAS group never clears the flag it is handed. *)
Lemma configUI_cas_keeps_flag (ui : UIInput) (s : State) :
  eval (configUI_cas ui true) s = true.
Proof.
  unfold configUI_cas, eval. unfold_calls.
  unfold bind, get, modify, emit, ret, when. cbn.
  destruct (ui_casClicked ui), (ffxCASEnable (desktop s)); cbn;
    destruct (F32.neqb _ _); cbn; reflexivity.
Qed.

(** ** C8: a changed sharpness enables its stage and marks the frame dirty *)

(** C8.  For each stage, FSR and CAS: when a pass of the configuration panel
    gives the stage's sharpness a value different from the stored one while
    the stage's user flag is false, the flag is true afterwards, and the pass
    ends by invalidating the texture and the window. *)
Theorem sharpness_change_enables_stage (st : Stage) (s : State) (ui : UIInput)
    (v : float32) :
  ui_sharpness st ui = Some v ->
  F32.neqb v (sharpness_uniform st (desktop s)) = true ->
  enabledByUser st (desktop s) = false ->
  let s' := exec (egl_desktopConfigUI ui) s in
  enabledByUser st (desktop s') = true
  /\ exists pre, trace s' = pre ++ [EvTextureInvalidate; EvInvalidateWindow true].
Proof.
  intros Hv Hne _ s'. subst s'. rewrite egl_desktopConfigUI_run.
  set (s1 := exec (configUI_nightVision ui) (exec (configUI_scale ui) s)).
  set (s2 := exec (configUI_fsr ui false) s1).
  set (r2 := eval (configUI_fsr ui false) s1).
  set (s3 := exec (configUI_cas ui r2) s2).
  set (r3 := eval (configUI_cas ui r2) s2).
  assert (H1 : ffxFSR1Uniform (desktop s1) = ffxFSR1Uniform (desktop s)
               /\ ffxCASUniform (desktop s1) = ffxCASUniform (desktop s)).
  { subst s1.
    apply (configUI_nightVision_preserves
             (fun d => ffxFSR1Uniform d = ffxFSR1Uniform (desktop s)
                       /\ ffxCASUniform d = ffxCASUniform (desktop s)));
      [intros g d Hd; exact Hd|].
    apply (configUI_scale_preserves
             (fun d => ffxFSR1Uniform d = ffxFSR1Uniform (desktop s)
                       /\ ffxCASUniform d = ffxCASUniform (desktop s)));
      [intros i d Hd; exact Hd|].
    split; reflexivity. }
  destruct H1 as [H1f H1c].
  destruct st; cbn [ui_sharpness sharpness_uniform enabledByUser] in *.
  - (* FSR *)
    rewrite <- H1f in Hne.
    destruct (configUI_fsr_changed ui false s1 v Hv Hne) as (Hr2 & Hen2 & _).
    fold s2 in Hen2. fold r2 in Hr2.
    assert (Hr3 : r3 = true).
    { subst r3. rewrite Hr2. apply configUI_cas_keeps_flag. }
    assert (Hen3 : ffxFSR1Enable (desktop s3) = true).
    { subst s3.
      apply (configUI_cas_keeps_fsr ui r2 true (ffxFSR1Uniform (desktop s2))).
      split; [exact Hen2|reflexivity]. }
    rewrite Hr3. cbn [desktop trace]. split; [exact Hen3|].
    exists (trace s3). reflexivity.
  - (* CAS *)
    assert (H2c : ffxCASUniform (desktop s2) = ffxCASUniform (desktop s1)).
    { subst s2.
      apply (configUI_fsr_keeps_cas ui false (ffxCASEnable (desktop s1))
               (ffxCASUniform (desktop s1))).
      split; reflexivity. }
    rewrite <- H1c, <- H2c in Hne.
    destruct (configUI_cas_changed ui r2 s2 v Hv Hne) as (Hr3 & Hen3 & _).
    fold s3 in Hen3. fold r3 in Hr3.
    rewrite Hr3. cbn [desktop trace]. split; [exact Hen3|].
    exists (trace s3). reflexivity.
Qed.

(** ** The filter stages of a surface in use *)

Lemma stages_attached_frame (d d' : EGL_Desktop) :
  ffxFSR1Handle_0 d' = ffxFSR1Handle_0 d ->
  ffxFSR1Handle_1 d' = ffxFSR1Handle_1 d ->
  ffxCASHandle d' = ffxCASHandle d ->
  ffxFSR1Enable d' = ffxFSR1Enable d ->
  (forall t', texture d' = Some t' ->
     exists t, texture d = Some t /\ tex_steps t' = tex_steps t) ->
  stages_attached d -> stages_attached d'.
Proof.
  intros H0 H1 H2 He Ht (J0 & J1 & J2 & Jt).
  unfold stages_attached. rewrite H0, H1, H2, He.
  repeat (split; [assumption|]).
  intros t' Ht'. destruct (Ht t' Ht') as (t & Hdt & Hsteps).
  rewrite Hsteps. apply Jt. exact Hdt.
Qed.

Lemma stages_attached_setup (pf : EGL_PixelFormat) (w h pitch : Z) (d : EGL_Desktop) :
  stages_attached d ->
  stages_attached (set_texture (texture_with_setup pf w h pitch <$> texture d) d).
Proof.
  apply stages_attached_frame; try reflexivity.
  cbn. intros t' Ht'. destruct (texture d) as [t|]; [|discriminate].
  injection Ht' as <-. exists t. split; reflexivity.
Qed.

Lemma stages_attached_downgraded (d : EGL_Desktop) : stages_attached (downgraded d).
Proof.
  unfold stages_attached, downgraded. cbn.
  repeat (split; [reflexivity|]).
  intros t [= <-]. eexists _, _, _. split; [reflexivity|].
  cbn. split; intros H; exact H.
Qed.

Lemma stages_attached_no_texture (d : EGL_Desktop) :
  stages_attached d -> stages_attached (set_texture None (set_useDMA false d)).
Proof.
  intros (J0 & J1 & J2 & _). unfold stages_attached. cbn.
  repeat (split; [assumption|]). intros t [=].
Qed.

Ltac attached_side :=
  intros ? Hd; first [exact Hd | apply stages_attached_setup; exact Hd].

Lemma egl_desktopSetup_attached (env : Env) (fmt : LG_RendererFormat) :
  preserves stages_attached (egl_desktopSetup env fmt).
Proof.
  unfold egl_desktopSetup. unfold_calls.
  repeat preserves_step attached_side.
Qed.

Lemma egl_desktopUpdate_attached (env : Env) frame dmaFd rects n :
  preserves stages_attached (egl_desktopUpdate env frame dmaFd rects n).
Proof.
  intros s J.
  destruct (useDMA (desktop s) && (0 <=? dmaFd)) eqn:Hcond.
  2: { unfold exec. rewrite egl_desktopUpdate_buffered by exact Hcond. exact J. }
  destruct (env_bool env (trace s ++ [EvTextureUpdateFromDMA frame dmaFd])) eqn:Hdma.
  { unfold exec. rewrite egl_desktopUpdate_zero_copy by assumption. exact J. }
  unfold exec. rewrite egl_desktopUpdate_downgrade by assumption.
  destruct (env_bool env (trace s ++ downgrade_events frame dmaFd)).
  2: { apply stages_attached_no_texture. exact J. }
  assert (Hp : preserves stages_attached
    (ok <- egl_desktopSetup env (format (desktop s)) ;;
     if negb ok then ret false
     else egl_textureUpdateFromFrame env frame rects n)).
  { apply preserves_bind; [apply egl_desktopSetup_attached|intros ok].
    unfold_calls. repeat preserves_step attached_side. }
  apply Hp. apply stages_attached_downgraded.
Qed.

(** What [egl_desktopResize] leaves, on a surface with its stages attached
    and a texture. *)
Lemma egl_desktopResize_run (w h : Z) (s : State) (t : EGL_Texture)
    (a b c : RenderStep) :
  stages_attached (desktop s) ->
  texture (desktop s) = Some t ->
  tex_steps t = [a; b; c] ->
  let d := desktop s in
  let up := (width d <? w) && (height d <? h) in
  desktop (exec (egl_desktopResize w h) s) =
    set_texture
      (Some (texture_with_steps
               (if up then
                  [ step_resize w h (step_enable (ffxFSR1Enable d || step_enabled a) a);
                    step_resize w h (step_enable (ffxFSR1Enable d || step_enabled b) b);
                    step_resize w h c ]
                else
                  [ step_enable false a; step_enable false b; step_resize 0 0 c ])
               t))
      (set_upscale up d).
Proof.
  intros (J0 & J1 & J2 & _) Ht Hsteps d up. subst d up.
  unfold egl_desktopResize, exec. unfold_calls.
  unfold bind, get, modify, emit, ret, when. cbn.
  rewrite J0, J1, J2.
  destruct ((width (desktop s) <? w) && (height (desktop s) <? h)); cbn.
  - destruct (ffxFSR1Enable (desktop s)) eqn:Hen; cbn;
      rewrite Ht; cbn; rewrite Hsteps; cbn; destruct a, b, c; reflexivity.
  - rewrite Ht; cbn; rewrite Hsteps; reflexivity.
Qed.

Ltac detached_side :=
  intros ? Hd; first
    [ exact Hd
    | destruct Hd as (Ht & Hh); split; [cbn; rewrite Ht; reflexivity|exact Hh] ].

Lemma detached_attached (d : EGL_Desktop) :
  detached (Some 0%nat) (Some 1%nat) (Some 2%nat) d -> stages_attached d.
Proof.
  intros (Ht & H0 & H1 & H2). unfold stages_attached.
  repeat (split; [assumption|]). intros t Hsome. congruence.
Qed.

Lemma attached_detached (d : EGL_Desktop) :
  stages_attached d -> texture d = None ->
  detached (Some 0%nat) (Some 1%nat) (Some 2%nat) d.
Proof. intros (H0 & H1 & H2 & _) Ht. repeat split; assumption. Qed.

Lemma egl_desktopResize_detached (w h : Z) h0 h1 h2 :
  preserves (detached h0 h1 h2) (egl_desktopResize w h).
Proof.
  unfold egl_desktopResize. unfold_calls.
  repeat preserves_step detached_side.
Qed.

Lemma configUI_fsr_detached (ui : UIInput) (inv : bool) h0 h1 h2 :
  preserves (detached h0 h1 h2) (configUI_fsr ui inv).
Proof.
  unfold configUI_fsr. unfold_calls.
  repeat preserves_step detached_side.
Qed.

Lemma configUI_cas_detached (ui : UIInput) (inv : bool) h0 h1 h2 :
  preserves (detached h0 h1 h2) (configUI_cas ui inv).
Proof.
  unfold configUI_cas. unfold_calls.
  repeat preserves_step detached_side.
Qed.

Lemma egl_desktopResize_attached (w h : Z) :
  preserves stages_attached (egl_desktopResize w h).
Proof.
  intros s J. destruct (texture (desktop s)) as [t|] eqn:Ht.
  - pose proof J as (J0 & J1 & J2 & Jt).
    destruct (Jt t Ht) as (a & b & c & Hsteps & Ha & Hb).
    rewrite (egl_desktopResize_run w h s t a b c J Ht Hsteps).
    unfold stages_attached. cbn.
    repeat (split; [assumption|]).
    intros t' [= <-]. cbn.
    destruct ((width (desktop s) <? w) && (height (desktop s) <? h));
      eexists _, _, _; (split; [reflexivity|]); cbn.
    + split; intros H; apply orb_true_iff in H; destruct H; auto.
    + split; intros H; discriminate.
  - apply detached_attached. apply egl_desktopResize_detached.
    apply attached_detached; assumption.
Qed.

Lemma configUI_fsr_attached (ui : UIInput) (inv : bool) :
  preserves stages_attached (configUI_fsr ui inv).
Proof.
  intros s J. destruct (texture (desktop s)) as [t|] eqn:Ht.
  - pose proof J as (J0 & J1 & J2 & Jt).
    destruct (Jt t Ht) as (a & b & c & Hsteps & Ha & Hb).
    unfold configUI_fsr, exec. unfold_calls.
    unfold bind, get, modify, emit, ret, when. cbn.
    rewrite J0, J1.
    destruct (ui_fsr1Clicked ui), (ffxFSR1Enable (desktop s)) eqn:Hen; cbn;
      destruct (F32.neqb _ _); cbn;
      unfold stages_attached; cbn; rewrite ?Ht; cbn; rewrite ?Hsteps; cbn;
      (repeat (split; [assumption|]));
      intros t' [= <-]; cbn; rewrite ?Hsteps;
      eexists _, _, _; (split; [reflexivity|]); cbn;
      split; intros H; rewrite ?Hen; first [reflexivity | discriminate | auto].
  - apply detached_attached. apply configUI_fsr_detached.
    apply attached_detached; assumption.
Qed.

Lemma configUI_cas_attached (ui : UIInput) (inv : bool) :
  preserves stages_attached (configUI_cas ui inv).
Proof.
  intros s J. destruct (texture (desktop s)) as [t|] eqn:Ht.
  - pose proof J as (J0 & J1 & J2 & Jt).
    destruct (Jt t Ht) as (a & b & c & Hsteps & Ha & Hb).
    unfold configUI_cas, exec. unfold_calls.
    unfold bind, get, modify, emit, ret, when. cbn.
    rewrite J2.
    destruct (ui_casClicked ui), (ffxCASEnable (desktop s)) eqn:Hen; cbn;
      destruct (F32.neqb _ _); cbn;
      unfold stages_attached; cbn; rewrite ?Ht; cbn; rewrite ?Hsteps; cbn;
      (repeat (split; [assumption|]));
      intros t' [= <-]; cbn; rewrite ?Hsteps;
      eexists _, _, _; (split; [reflexivity|]); cbn;
      split; intros H; auto.
  - apply detached_attached. apply configUI_cas_detached.
    apply attached_detached; assumption.
Qed.

Lemma egl_desktopConfigUI_attached (ui : UIInput) :
  preserves stages_attached (egl_desktopConfigUI ui).
Proof.
  unfold egl_desktopConfigUI.
  apply preserves_bind;
    [apply configUI_scale_preserves; intros i d Hd; exact Hd|intros _].
  apply preserves_bind;
    [apply configUI_nightVision_preserves; intros g d Hd; exact Hd|intros _].
  apply preserves_bind; [apply configUI_fsr_attached|intros r2].
  apply preserves_bind; [apply configUI_cas_attached|intros r3].
  unfold_calls. repeat preserves_step attached_side.
Qed.

Lemma run_op_attached (env : Env) (o : Op) : preserves stages_attached (run_op env o).
Proof.
  destruct o; unfold run_op.
  - apply toggleNV_preserves. intros g d Hd. exact Hd.
  - apply egl_desktopConfigUI_attached.
  - apply preserves_bind; [apply egl_desktopSetup_attached|intros ?].
    apply preserves_ret.
  - apply preserves_bind; [apply egl_desktopUpdate_attached|intros ?].
    apply preserves_ret.
  - apply egl_desktopResize_attached.
  - apply preserves_bind; [apply egl_desktopRender_preserves|intros ?].
    apply preserves_ret.
Qed.

(** ** The surface [egl_desktopInit] creates *)

Lemma establishes_bind {A : Type} (P Q : EGL_Desktop -> Prop) (m : M A) (k : A -> M bool) :
  preserves P m -> (forall a, establishes P (k a) Q) -> establishes P (bind m k) Q.
Proof.
  intros Hm Hk s HP He. rewrite exec_bind. rewrite eval_bind in He.
  apply Hk; [apply Hm; exact HP|exact He].
Qed.

(** An early [return false] establishes anything. *)
Lemma establishes_fail {A : Type} (P Q : EGL_Desktop -> Prop) (m : M A) :
  establishes P (bind m (fun _ => ret false)) Q.
Proof. intros s _ He. rewrite eval_bind in He. discriminate He. Qed.

Lemma establishes_textureInit {A : Type} (env : Env) (P Q : EGL_Desktop -> Prop)
    (type : EGL_TexType) (streaming : bool) (failure : M A) (rest : M bool) :
  establishes tex_fresh rest Q ->
  establishes P
    (ok <- egl_textureInit env type streaming ;;
     if negb ok then failure ;; ret false else rest) Q.
Proof.
  intros Hrest s _ He. rewrite exec_bind. rewrite eval_bind in He.
  revert He. unfold egl_textureInit, call_bool, eval, exec.
  unfold bind at 2 3 5 6, emit, history, modify, ret. cbn.
  destruct (env_bool env _); cbn [negb].
  - intros He. apply Hrest; [|exact He].
    eexists. split; reflexivity.
  - unfold bind. destruct (failure _). intros He. discriminate He.
Qed.

Lemma establishes_setupFilters :
  establishes tex_fresh (setupFilters ;; ret true) stages_attached.
Proof.
  intros s (t & Ht & Hsteps) _.
  unfold setupFilters, egl_textureAddFilter, exec.
  unfold bind, get, modify, emit, ret. cbn.
  rewrite Ht. cbn. rewrite Hsteps. cbn.
  unfold stages_attached. cbn.
  repeat (split; [reflexivity|]).
  intros t' [= <-]. eexists _, _, _. split; [reflexivity|].
  cbn. split; intros H; exact H.
Qed.

Ltac establishes_step :=
  lazymatch goal with
  | |- establishes _ (bind setupFilters _) _ => apply establishes_setupFilters
  | |- establishes _ (bind _ (fun _ => ret false)) _ => apply establishes_fail
  | |- establishes _ (if negb ?c then _ else _) _ => destruct c; cbn [negb]
  | |- establishes _ (bind (egl_textureInit _ _ _) _) _ =>
      apply establishes_textureInit
  | |- establishes _ (bind _ _) _ =>
      apply establishes_bind;
        [ unfold egl_initDesktopShader, egl_desktopRectsInit, countedBufferNew,
            egl_shaderInit, egl_shaderCompile, egl_shaderGetUniform;
          unfold_calls;
          repeat preserves_step ltac:(intros ? Hd; exact Hd)
        | intros ?; cbv beta ]
  end.

Lemma egl_desktopInit_attached (env : Env) (useDMA_ : bool) (maxRects : Z) :
  establishes (fun _ => True) (egl_desktopInit env useDMA_ maxRects) stages_attached.
Proof.
  unfold egl_desktopInit.
  repeat establishes_step.
Qed.

Lemma reachable_attached (env : Env) (s : State) :
  reachable env s -> stages_attached (desktop s).
Proof.
  induction 1 as [s0 useDMA_ maxRects Hok|s o _ IH].
  - apply egl_desktopInit_attached; [exact I|exact Hok].
  - apply run_op_attached. exact IH.
Qed.

(** ** C4: the flags a resize derives *)

(** C4.  On a surface in use, after [egl_desktopResize] with target size
    [(w, h)] the flag [upscale] is [(w > width) && (h > height)], the user
    flags of both stages are the ones from before the call, and each of the
    two FSR passes (the upscale-only stage) is active exactly when the user
    enabled FSR and the surface upscales.  While the surface has a texture
    both passes exist. *)
Theorem resize_derives_stage_flags (env : Env) (s : State) (w h : Z) :
  reachable env s ->
  let d := desktop s in
  let d' := desktop (exec (egl_desktopResize w h) s) in
  upscale d' = (width d <? w) && (height d <? h)
  /\ enabledByUser StageFSR d' = enabledByUser StageFSR d
  /\ enabledByUser StageCAS d' = enabledByUser StageCAS d
  /\ (forall (hdl : PostProcessHandle) (st : RenderStep),
        hdl = ffxFSR1Handle_0 d' \/ hdl = ffxFSR1Handle_1 d' ->
        stage_of hdl d' = Some st ->
        step_enabled st = enabledByUser StageFSR d' && upscale d')
  /\ (texture d <> None ->
        is_Some (stage_of (ffxFSR1Handle_0 d') d')
        /\ is_Some (stage_of (ffxFSR1Handle_1 d') d')).
Proof.
  intros Hreach d d'. apply reachable_attached in Hreach.
  pose proof Hreach as (J0 & J1 & J2 & Jt). fold d in J0, J1, J2, Jt.
  destruct (texture d) as [t|] eqn:Ht.
  - destruct (Jt t eq_refl) as (a & b & c & Hsteps & Ha & Hb).
    subst d'. rewrite (egl_desktopResize_run w h s t a b c Hreach Ht Hsteps).
    fold d. cbn [enabledByUser]. unfold stage_of. cbn.
    rewrite J0, J1.
    split; [reflexivity|]. split; [reflexivity|]. split; [reflexivity|].
    split.
    + intros hdl st [-> | ->]; cbn;
        destruct ((width d <? w) && (height d <? h)); cbn;
        intros [= <-]; cbn; rewrite ?andb_true_r, ?andb_false_r; try reflexivity.
      * destruct (ffxFSR1Enable d) eqn:Hen; [reflexivity|].
        cbn. destruct (step_enabled a); [|reflexivity].
        symmetry. apply Ha. reflexivity.
      * destruct (ffxFSR1Enable d) eqn:Hen; [reflexivity|].
        cbn. destruct (step_enabled b); [|reflexivity].
        symmetry. apply Hb. reflexivity.
    + intros _. destruct ((width d <? w) && (height d <? h)); cbn;
        split; eexists; reflexivity.
  - assert (Hdet : detached (Some 0%nat) (Some 1%nat) (Some 2%nat) d').
    { subst d'. apply egl_desktopResize_detached.
      apply attached_detached; assumption. }
    destruct Hdet as (Ht' & H0' & H1' & H2').
    assert (Hflags : upscale d' = (width d <? w) && (height d <? h)
                     /\ ffxFSR1Enable d' = ffxFSR1Enable d
                     /\ ffxCASEnable d' = ffxCASEnable d).
    { subst d' d. unfold egl_desktopResize, exec. unfold_calls.
      unfold bind, get, modify, emit, ret, when. cbn.
      destruct ((width (desktop s) <? w) && (height (desktop s) <? h)); cbn;
        [destruct (ffxFSR1Enable (desktop s)) eqn:Hen; cbn|];
        repeat split; try reflexivity; exact Hen. }
    destruct Hflags as (Hup & Hf & Hc).
    cbn [enabledByUser]. unfold stage_of. rewrite Ht'.
    repeat (split; [assumption|]).
    split; [intros hdl st _ Hst; discriminate Hst|].
    intros Hne. exfalso. apply Hne. reflexivity.
Qed.

(** ** C5: an FSR pass active on a surface that does not upscale *)

(** C5.  [setupFilters] attaches the FSR passes with the user flag alone.
    A surface created with FSR enabled in the configuration has both passes
    active although [upscale] is false; and on a surface that does not
    upscale, whose passes a resize has switched off, the re-attachment of a
    transfer-path downgrade switches both passes on again. *)
Theorem setupFilters_ignores_upscale :
  (let d := desktop Scenario.created in
   eval (egl_desktopInit Scenario.env_ok true 64) Scenario.start = true
   /\ upscale d = false
   /\ enabledByUser StageFSR d = true
   /\ activeNow (ffxFSR1Handle_0 d) d = Some true
   /\ activeNow (ffxFSR1Handle_1 d) d = Some true)
  /\ (let d := desktop Scenario.not_upscaling in
      let d' := desktop Scenario.after_downgrade in
      upscale d = false
      /\ activeNow (ffxFSR1Handle_0 d) d = Some false
      /\ activeNow (ffxFSR1Handle_1 d) d = Some false
      /\ upscale d' = false
      /\ activeNow (ffxFSR1Handle_0 d') d' = Some true
      /\ activeNow (ffxFSR1Handle_1 d') d' = Some true).
Proof. vm_compute. repeat split. Qed.

(** ** C6: the sharpness uniform of the initial load *)

(** C6.  With the raw FSR sharpness 0.5 in the configuration store,
    [egl_desktopInit] stores 0.5 in the FSR sharpness uniform and sends 0.5
    to the RCAS pass, where [2.0 - 0.5 * 2.0] is 1.0; the CAS uniform holds
    the raw value. *)
Theorem init_stores_raw_fsr_sharpness :
  let d := desktop Scenario.created in
  option_get_float Scenario.env_ok "eglFilter" "ffxFSRSharpness" = F32.half
  /\ sharpness_of_raw StageFSR F32.half = F32.one
  /\ sharpness_uniform StageFSR d = F32.half
  /\ EvShaderSetUniforms (Some Shader_ffxFSR1_rcas)
       [mkUniform EGL_UNIFORM_TYPE_1F (u_location (ffxFSR1Uniform d)) (UV_f [F32.half])]
     ∈ trace Scenario.created
  /\ sharpness_uniform StageCAS d = sharpness_of_raw StageCAS F32.half.
Proof.
  vm_compute. repeat split.
  repeat (first [apply list_elem_of_here | apply list_elem_of_further]).
Qed.

(** ** The theorems at concrete surfaces *)

Lemma downgrade_is_permanent_witness :
  let env := Scenario.env_dma_fails in
  let s := Scenario.ready env in
  let ops := [OpResize 3840 2160; OpToggleNV 0; OpUpdate 101 6 [] 0] in
  (useDMA (desktop s) = true
   /\ 0 <= 5
   /\ env_bool env (trace s ++ [EvTextureUpdateFromDMA 100 5]) = false)
  /\ let s1 := exec (egl_desktopUpdate env 100 5 [] 0) s in
     let s2 := exec (run_ops env ops) s1 in
     let m := egl_desktopUpdate env 102 7 [] 0 in
     useDMA (desktop s1) = false
     /\ useDMA (desktop s2) = false
     /\ emitted m s2 = [EvTextureUpdateFromFrame 102 [] 0]
     /\ eval m s2 = env_bool env (trace s2 ++ [EvTextureUpdateFromFrame 102 [] 0])
     /\ desktop (exec m s2) = desktop s2.
Proof.
  intros env s ops.
  assert (H1 : useDMA (desktop s) = true) by (vm_compute; reflexivity).
  assert (H2 : 0 <= 5) by lia.
  assert (H3 : env_bool env (trace s ++ [EvTextureUpdateFromDMA 100 5]) = false)
    by (vm_compute; reflexivity).
  split; [repeat split; assumption|].
  exact (downgrade_is_permanent env s 100 5 [] 0 ops 102 7 [] 0 H1 H2 H3).
Defined.

Lemma update_downgrade_sequence_witness :
  let env := Scenario.env_dma_fails in
  let s := Scenario.ready env in
  (useDMA (desktop s) = true
   /\ 0 <= 5
   /\ env_bool env (trace s ++ [EvTextureUpdateFromDMA 100 5]) = false)
  /\ useDMA (desktop (exec (egl_desktopUpdate env 100 5 [] 0) s)) = false.
Proof.
  intros env s.
  assert (H1 : useDMA (desktop s) = true) by (vm_compute; reflexivity).
  assert (H2 : 0 <= 5) by lia.
  assert (H3 : env_bool env (trace s ++ [EvTextureUpdateFromDMA 100 5]) = false)
    by (vm_compute; reflexivity).
  split; [repeat split; assumption|].
  exact (proj1 (update_downgrade_sequence env s 100 5 [] 0 H1 H2 H3)).
Defined.

Lemma resize_derives_stage_flags_witness :
  let d := desktop Scenario.created in
  let d' := desktop (exec (egl_desktopResize 3840 2160) Scenario.created) in
  reachable Scenario.env_ok Scenario.created
  /\ upscale d' = (width d <? 3840) && (height d <? 2160)
  /\ enabledByUser StageFSR d' = enabledByUser StageFSR d.
Proof.
  intros d d'.
  assert (Hreach : reachable Scenario.env_ok Scenario.created).
  { apply reach_init. vm_compute. reflexivity. }
  split; [exact Hreach|].
  pose proof (resize_derives_stage_flags Scenario.env_ok Scenario.created
                3840 2160 Hreach) as (Hup & Hfsr & _).
  split; [exact Hup|exact Hfsr].
Defined.

Lemma nv_toggle_cycle_witness :
  let s := mkState (set_nvMax 2 zero_desktop) [] in
  (nvGain (desktop s) = 0 /\ 0 <= nvMax (desktop s)
   /\ Int32.in_range (nvMax (desktop s)))
  /\ nvGain (desktop (exec (for_each [0; 0; 0; 0] toggleNV) s))
       = Z.of_nat (length [0; 0; 0; 0]) mod (nvMax (desktop s) + 1).
Proof.
  intros s.
  assert (H1 : nvGain (desktop s) = 0) by reflexivity.
  assert (H2 : 0 <= nvMax (desktop s)) by (cbn; lia).
  assert (H3 : Int32.in_range (nvMax (desktop s)))
    by (unfold Int32.in_range, Int32.min_int, Int32.max_int; cbn; lia).
  split; [repeat split; assumption|].
  exact (proj1 (nv_toggle_cycle s [0; 0; 0; 0] H1 H2 H3)).
Defined.

Lemma sharpness_change_enables_stage_witness :
  let s := Scenario.ready Scenario.env_plain in
  let ui := Scenario.ui_fsr_sharper in
  (ui_sharpness StageFSR ui = Some F32.one
   /\ F32.neqb F32.one (sharpness_uniform StageFSR (desktop s)) = true
   /\ enabledByUser StageFSR (desktop s) = false)
  /\ enabledByUser StageFSR (desktop (exec (egl_desktopConfigUI ui) s)) = true.
Proof.
  intros s ui.
  assert (H1 : ui_sharpness StageFSR ui = Some F32.one) by reflexivity.
  assert (H2 : F32.neqb F32.one (sharpness_uniform StageFSR (desktop s)) = true)
    by (vm_compute; reflexivity).
  assert (H3 : enabledByUser StageFSR (desktop s) = false)
    by (vm_compute; reflexivity).
  split; [repeat split; assumption|].
  exact (proj1 (sharpness_change_enables_stage StageFSR s ui F32.one H1 H2 H3)).
Defined.

Lemma setup_stores_rejected_format_witness :
  let env := Scenario.env_ok in
  let s := Scenario.created in
  let fmt := Scenario.unsupported_format in
  ~ supported (fmt_type fmt)
  /\ eval (egl_desktopSetup env fmt) s = false
  /\ format (desktop (exec (egl_desktopSetup env fmt) s)) = fmt.
Proof.
  intros env s fmt.
  assert (H : ~ supported (fmt_type fmt)).
  { unfold supported. cbn. intros [H|[H|[H|H]]]; discriminate H. }
  split; [exact H|].
  pose proof (setup_stores_rejected_format env s fmt H)
    as (Hr & _ & _ & _ & Hf & _).
  split; [exact Hr|exact Hf].
Defined.

(** * Further properties of the operations *)

(** ** What an operation calls *)

Section EmitsOnly.

Context {ok : Event -> bool}.

Lemma emits_only_ret {A : Type} (a : A) : emits_only ok (ret a).
Proof. intros s. exists []. rewrite app_nil_r. split; reflexivity. Qed.

Lemma emits_only_get : emits_only ok get.
Proof. intros s. exists []. rewrite app_nil_r. split; reflexivity. Qed.

Lemma emits_only_history : emits_only ok history.
Proof. intros s. exists []. rewrite app_nil_r. split; reflexivity. Qed.

Lemma emits_only_modify (f : EGL_Desktop -> EGL_Desktop) : emits_only ok (modify f).
Proof. intros s. exists []. rewrite app_nil_r. split; reflexivity. Qed.

Lemma emits_only_emit (e : Event) : ok e = true -> emits_only ok (emit e).
Proof. intros He s. exists [e]. split; [reflexivity|]. cbn. rewrite He. reflexivity. Qed.

Lemma emits_only_bind {A B : Type} (m : M A) (k : A -> M B) :
  emits_only ok m -> (forall a, emits_only ok (k a)) -> emits_only ok (bind m k).
Proof.
  intros Hm Hk s. rewrite exec_bind.
  destruct (Hm s) as (es1 & Ht1 & Hok1).
  destruct (Hk (eval m s) (exec m s)) as (es2 & Ht2 & Hok2).
  exists (es1 ++ es2). split.
  - rewrite Ht2, Ht1, <- List.app_assoc. reflexivity.
  - rewrite forallb_app, Hok1, Hok2. reflexivity.
Qed.

Lemma emits_only_when (b : bool) (m : M unit) :
  emits_only ok m -> emits_only ok (when b m).
Proof. intros Hm. destruct b; [exact Hm|apply emits_only_ret]. Qed.

Lemma emits_only_for_each {A : Type} (l : list A) (body : A -> M unit) :
  (forall x, emits_only ok (body x)) -> emits_only ok (for_each l body).
Proof.
  intros Hbody. induction l as [|x l IH]; cbn [for_each].
  - apply emits_only_ret.
  - apply emits_only_bind; [apply Hbody|intros _; exact IH].
Qed.

End EmitsOnly.

Ltac emits_only_step :=
  first
    [ apply emits_only_ret
    | apply emits_only_get
    | apply emits_only_history
    | apply emits_only_modify
    | apply emits_only_emit; reflexivity
    | apply emits_only_bind; [|intros ?]
    | apply emits_only_when
    | apply emits_only_for_each; intros ?
    | match goal with
      | |- emits_only _ (if ?c then _ else _) => destruct c
      | |- emits_only _ (match ?x with _ => _ end) => destruct x
      end ].

Ltac unfold_ops :=
  unfold run_op, toggleNV, egl_desktopConfigUI, configUI_scale,
    configUI_nightVision, configUI_fsr, configUI_cas, egl_desktopSetup,
    egl_desktopUpdate, egl_desktopResize, egl_desktopRender, setupFilters,
    egl_textureInit, egl_textureFree, egl_textureAddFilter;
  unfold_calls.

Lemma emits_only_weaken {A : Type} (ok ok' : Event -> bool) (m : M A) :
  (forall e, ok e = true -> ok' e = true) -> emits_only ok m -> emits_only ok' m.
Proof.
  intros Himp Hm s. destruct (Hm s) as (es & Ht & Hok).
  exists es. split; [exact Ht|].
  apply forallb_forall. intros e He.
  apply Himp. revert e He. apply forallb_forall. exact Hok.
Qed.

Lemma emits_only_emitted {A : Type} (ok : Event -> bool) (m : M A) (s : State) :
  emits_only ok m ->
  trace (exec m s) = trace s ++ emitted m s /\ forallb ok (emitted m s) = true.
Proof.
  intros Hm. destruct (Hm s) as (es & Ht & Hok).
  rewrite (emitted_app m s es Ht). split; assumption.
Qed.

Lemma only_update_touches_transfer_aux (env : Env) (o : Op) :
  is_update o = false ->
  emits_only (fun e => negb (is_ingest e || is_texture_lifecycle e)) (run_op env o).
Proof.
  destruct o; cbn [is_update]; intros Hup; try discriminate Hup;
    unfold_ops; repeat emits_only_step.
Qed.

(** X1.  Only [egl_desktopUpdate] moves frame data or replaces the texture:
    no other operation of a surface in use calls the ingestion functions,
    [egl_textureInit] or [egl_textureFree]. *)
Theorem only_update_touches_transfer (env : Env) (o : Op) :
  is_update o = false ->
  emits_only (fun e => negb (is_ingest e || is_texture_lifecycle e)) (run_op env o).
Proof. apply only_update_touches_transfer_aux. Qed.

(** X2.  [egl_desktopUpdate] never adjusts an attached filter stage, never
    sends a uniform and never asks for a redraw, on any of its paths: the
    resolutions and active flags a resize gave the stages are not applied to
    the texture that replaces the zero-copy one. *)
Theorem update_never_adjusts (env : Env) (frame : FrameBuffer) (dmaFd : Z)
    (rects : list FrameDamageRect) (n : Z) :
  emits_only (fun e => negb (is_adjustment e))
    (egl_desktopUpdate env frame dmaFd rects n).
Proof. unfold_ops. repeat emits_only_step. Qed.

(** ** The downgrade happens at most once *)

Lemma downgrades_app (es1 es2 : list Event) :
  downgrades (es1 ++ es2) = (downgrades es1 + downgrades es2)%nat.
Proof. unfold downgrades. rewrite List.filter_app, length_app. reflexivity. Qed.

Lemma downgrades_none (es : list Event) :
  forallb (fun e => negb (is_ingest e || is_texture_lifecycle e)) es = true ->
  downgrades es = 0%nat.
Proof.
  unfold downgrades. induction es as [|e es IH]; [reflexivity|].
  cbn [forallb List.filter]. intros H. apply andb_true_iff in H as [He Hes].
  destruct e; cbn in He |- *; try discriminate He; apply IH; exact Hes.
Qed.

Lemma update_tail_run (env : Env) (fmt : LG_RendererFormat) (frame : FrameBuffer)
    (rects : list FrameDamageRect) (n : Z) (s : State) :
  let m := ok <- egl_desktopSetup env fmt ;;
           if negb ok then ret false
           else egl_textureUpdateFromFrame env frame rects n in
  exists es,
    trace (exec m s) = trace s ++ es
    /\ downgrades es = 0%nat
    /\ useDMA (desktop (exec m s)) = useDMA (desktop s).
Proof.
  intros m.
  assert (Hcalls : emits_only
            (fun e => negb (is_ingest e || is_texture_lifecycle e)
                      || is_ingest e) m).
  { subst m. unfold_ops. repeat emits_only_step. }
  destruct (Hcalls s) as (es & Ht & Hok).
  exists es. split; [exact Ht|]. split.
  - clear Ht. unfold downgrades. induction es as [|e es IH]; [reflexivity|].
    cbn [forallb List.filter] in *. apply andb_true_iff in Hok as [He Hes].
    destruct e; cbn in He |- *; try discriminate He; apply IH; exact Hes.
  - assert (Hp : preserves (fun d => useDMA d = useDMA (desktop s)) m).
    { subst m. unfold_ops.
      repeat preserves_step ltac:(intros ? Hd; exact Hd). }
    apply Hp. reflexivity.
Qed.

(** The calls of one operation: at most one downgrade, none on a buffered
    surface, and a downgrade leaves the surface buffered. *)
Lemma run_op_downgrades (env : Env) (o : Op) (s : State) :
  exists es,
    trace (exec (run_op env o) s) = trace s ++ es
    /\ (downgrades es <= 1)%nat
    /\ (buffered (desktop s) ->
        downgrades es = 0%nat /\ buffered (desktop (exec (run_op env o) s)))
    /\ (downgrades es = 1%nat -> buffered (desktop (exec (run_op env o) s))).
Proof.
  destruct (is_update o) eqn:Hup.
  - destruct o; try discriminate Hup. clear Hup.
    cbn [run_op]. rewrite exec_bind. unfold exec at 1 3 5. cbn [ret snd].
    destruct (useDMA (desktop s) && (0 <=? dmaFd)) eqn:Hcond.
    2: { unfold exec. rewrite egl_desktopUpdate_buffered by exact Hcond.
         cbn [snd desktop trace]. eexists. split; [reflexivity|].
         cbn. repeat split; auto; intros; discriminate. }
    destruct (env_bool env (trace s ++ [EvTextureUpdateFromDMA frame dmaFd])) eqn:Hdma.
    { unfold exec. rewrite egl_desktopUpdate_zero_copy by assumption.
      cbn [snd desktop trace]. eexists. split; [reflexivity|].
      cbn. repeat split; auto; intros; discriminate. }
    assert (Hnb : ~ buffered (desktop s)).
    { unfold buffered. intros Hb. rewrite Hb in Hcond. discriminate Hcond. }
    unfold exec. rewrite egl_desktopUpdate_downgrade by assumption.
    destruct (env_bool env (trace s ++ downgrade_events frame dmaFd)).
    + destruct (update_tail_run env (format (desktop s)) frame damageRects
                  damageRectsCount
                  (mkState (downgraded (desktop s))
                     ((trace s ++ downgrade_events frame dmaFd)
                        ++ attach_events (desktop s))))
        as (es & Ht & Hd & Hu).
      unfold exec in Ht, Hu. rewrite Ht. cbn [trace desktop] in *.
      exists (downgrade_events frame dmaFd ++ attach_events (desktop s) ++ es).
      split; [rewrite <- !List.app_assoc; reflexivity|].
      rewrite !downgrades_app, Hd. cbn.
      unfold buffered. rewrite Hu.
      repeat split; auto; intros; contradiction.
    + cbn [snd desktop trace].
      exists (downgrade_events frame dmaFd
                ++ [EvLog LOG_ERROR "Failed to initialize the desktop texture"]).
      split; [rewrite <- List.app_assoc; reflexivity|].
      cbn. repeat split; auto; intros; contradiction.
  - destruct (only_update_touches_transfer_aux env o Hup s) as (es & Ht & Hok).
    exists es. split; [exact Ht|].
    rewrite (downgrades_none es Hok).
    repeat split; auto.
    + apply buffered_run_op. assumption.
    + intros; discriminate.
Qed.

Lemma run_ops_downgrades (env : Env) (ops : list Op) : forall s : State,
  exists es,
    trace (exec (run_ops env ops) s) = trace s ++ es
    /\ (downgrades es <= 1)%nat
    /\ (buffered (desktop s) -> downgrades es = 0%nat).
Proof.
  induction ops as [|o ops IH]; intros s.
  - exists []. cbn. rewrite app_nil_r. repeat split; auto.
  - unfold run_ops. rewrite exec_for_each_cons. fold (run_ops env ops).
    destruct (run_op_downgrades env o s) as (es1 & Ht1 & Hle1 & Hb1 & Hone1).
    destruct (IH (exec (run_op env o) s)) as (es2 & Ht2 & Hle2 & Hb2).
    exists (es1 ++ es2). split; [rewrite Ht2, Ht1, <- List.app_assoc; reflexivity|].
    rewrite downgrades_app. split.
    + destruct (downgrades es1) as [|[|k]] eqn:Hk; [lia| |lia].
      rewrite (Hb2 (Hone1 eq_refl)). lia.
    + intros Hb. destruct (Hb1 Hb) as [H0 Hb']. rewrite H0, (Hb2 Hb'). reflexivity.
Qed.

(** X3.  Over any sequence of operations on a surface the texture is
    disposed of at most once: the transfer-path downgrade never happens a
    second time.  On a surface that is already buffered it never happens. *)
Theorem downgrade_at_most_once (env : Env) (ops : list Op) (s : State) :
  (downgrades (emitted (run_ops env ops) s) <= 1)%nat
  /\ (useDMA (desktop s) = false -> downgrades (emitted (run_ops env ops) s) = 0%nat).
Proof.
  destruct (run_ops_downgrades env ops s) as (es & Ht & Hle & Hb).
  rewrite (emitted_app _ _ _ Ht). split; assumption.
Qed.

(** ** Running [egl_desktopInit] step by step *)

Lemma run_bind_assoc {A B C : Type} (m : M A) (k1 : A -> M B) (k2 : B -> M C) s :
  bind (bind m k1) k2 s = bind m (fun a => bind (k1 a) k2) s.
Proof. unfold bind. destruct (m s) as [a s1]. reflexivity. Qed.

Lemma run_bind_ret {A B : Type} (a : A) (k : A -> M B) s :
  bind (ret a) k s = k a s.
Proof. reflexivity. Qed.

Lemma run_bind_emit {B : Type} (e : Event) (k : unit -> M B) d t es :
  bind (emit e) k (mkState d (t ++ es)) = k tt (mkState d (t ++ (es ++ [e]))).
Proof. unfold bind, emit. cbn. rewrite <- List.app_assoc. reflexivity. Qed.

Lemma run_bind_modify {B : Type} (f : EGL_Desktop -> EGL_Desktop) (k : unit -> M B) d t :
  bind (modify f) k (mkState d t) = k tt (mkState (f d) t).
Proof. reflexivity. Qed.

Lemma run_bind_get {B : Type} (k : EGL_Desktop -> M B) d t :
  bind get k (mkState d t) = k d (mkState d t).
Proof. reflexivity. Qed.

Lemma run_bind_history {B : Type} (k : list Event -> M B) d t :
  bind history k (mkState d t) = k t (mkState d t).
Proof. reflexivity. Qed.

Lemma run_modify (f : EGL_Desktop -> EGL_Desktop) d t :
  modify f (mkState d t) = (tt, mkState (f d) t).
Proof. reflexivity. Qed.

Lemma run_emit (e : Event) d t es :
  emit e (mkState d (t ++ es)) = (tt, mkState d (t ++ (es ++ [e]))).
Proof. unfold emit. cbn. rewrite <- List.app_assoc. reflexivity. Qed.

Ltac exec_cond E c :=
  let c' := eval cbn in c in
  try change c with c' in E;
  lazymatch c' with
  | true => idtac
  | false => idtac
  | Some _ => idtac
  | None => idtac
  | negb ?b => destruct b eqn:?; cbn [negb] in E
  | ?b => destruct b eqn:?
  end;
  cbv beta iota in E.

Ltac exec_step E :=
  lazymatch type of E with
  | bind (bind ?m ?k1) ?k2 ?s = _ => rewrite run_bind_assoc in E
  | bind (ret ?a) ?k ?s = _ => rewrite run_bind_ret in E; cbv beta in E
  | bind (emit ?e) ?k (mkState ?d (?t ++ ?es)) = _ =>
      let e' := eval cbn in e in
      let es' := eval cbn [app] in (es ++ [e']) in
      rewrite run_bind_emit in E; try change e with e' in E;
      change (es ++ [e']) with es' in E; cbv beta in E
  | bind (modify ?f) ?k (mkState ?d ?t) = _ =>
      let d' := eval cbn in (f d) in
      rewrite run_bind_modify in E; try change (f d) with d' in E; cbv beta in E
  | bind get ?k (mkState ?d ?t) = _ => rewrite run_bind_get in E; cbv beta in E
  | bind history ?k (mkState ?d ?t) = _ =>
      rewrite run_bind_history in E; cbv beta in E
  | bind (if ?c then _ else _) _ _ = _ => exec_cond E c
  | bind (match ?x with _ => _ end) _ _ = _ => exec_cond E x
  | (if ?c then _ else _) _ = _ => exec_cond E c
  | (match ?x with _ => _ end) _ = _ => exec_cond E x
  | modify ?f (mkState ?d ?t) = _ =>
      let d' := eval cbn in (f d) in
      rewrite run_modify in E; try change (f d) with d' in E
  | emit ?e (mkState ?d (?t ++ ?es)) = _ =>
      let e' := eval cbn in e in
      let es' := eval cbn [app] in (es ++ [e']) in
      rewrite run_emit in E; try change e with e' in E;
      change (es ++ [e']) with es' in E
  | ret _ _ = _ => unfold ret in E
  end.

Ltac exec_in E := repeat (exec_step E).

(** The outcome of [egl_desktopInit]: the surface it returns with true, and
    what a call that returns false has done. *)
Lemma egl_desktopInit_outcome (env : Env) (useDMA_ : bool) (maxRects : Z) (s0 : State) :
  let m := egl_desktopInit env useDMA_ maxRects in
  let d := desktop (exec m s0) in
  if eval m s0 then
    texture d
      = Some (mkTexture
                (if useDMA_ then EGL_TEXTYPE_DMABUF else EGL_TEXTYPE_FRAMEBUFFER)
                true None (attached_steps d))
    /\ (ffxFSR1Handle_0 d = Some 0%nat /\ ffxFSR1Handle_1 d = Some 1%nat
        /\ ffxCASHandle d = Some 2%nat)
    /\ (upscale d = false /\ width d = 0 /\ height d = 0)
    /\ useDMA d = useDMA_
    /\ (nvMax d = option_get_int env "egl" "nvGainMax"
        /\ nvGain d = option_get_int env "egl" "nvGain"
        /\ cbMode d = option_get_int env "egl" "cbMode"
        /\ scaleAlgo d = option_get_int env "egl" "scale")
    /\ (ffxFSR1Enable d = option_get_bool env "eglFilter" "ffxFSR"
        /\ ffxCASEnable d = option_get_bool env "eglFilter" "ffxCAS")
    /\ (uniform_f0 (ffxFSR1Uniform d) = option_get_float env "eglFilter" "ffxFSRSharpness"
        /\ uniform_f0 (ffxCASUniform d) = option_get_float env "eglFilter" "ffxCASSharpness")
    /\ (ffxFSR1_0 d = Some Shader_ffxFSR1_easu
        /\ ffxFSR1_1 d = Some Shader_ffxFSR1_rcas
        /\ ffxCAS d = Some Shader_ffxCAS
        /\ ds_shader (shader d) = Some Shader_desktop)
    /\ (mesh d = true /\ matrix d = true)
    /\ EvRegisterKeybind "Toggle night vision mode" ∈ emitted m s0
  else
    (exists e, last (emitted m s0) = Some e /\ is_error_log e = true)
    /\ forallb (fun e => negb (is_commitment e)) (emitted m s0) = true.
Proof.
  intros m d. subst m d. unfold emitted, eval, exec.
  destruct s0 as [d0 t0].
  destruct (egl_desktopInit env useDMA_ maxRects (mkState d0 t0)) as [r s1] eqn:E.
  cbn [fst snd desktop trace].
  replace (mkState d0 t0) with (mkState d0 (t0 ++ [])) in E
    by (rewrite app_nil_r; reflexivity).
  unfold egl_desktopInit, egl_initDesktopShader, egl_textureInit,
    egl_desktopRectsInit, countedBufferNew, egl_shaderInit, egl_shaderCompile,
    egl_shaderGetUniform, setupFilters, egl_textureAddFilter, call_bool,
    call_int, DEBUG_ERROR, app_registerKeybind, egl_shaderSetUniforms in E.
  exec_in E.
  all: injection E as <- <-; cbn [desktop trace].
  all: rewrite drop_app_length.
  all: try (split; [eexists; split; reflexivity|reflexivity]).
  repeat match goal with |- _ /\ _ => split end; try reflexivity.
  repeat (first [apply list_elem_of_here | apply list_elem_of_further]).
Qed.

(** ** The two outcomes of [egl_desktopInit] *)

(** X4.  A call of [egl_desktopInit] that returns true leaves a surface that
    does not upscale and has no size yet, whose transfer path is the one
    asked for, whose texture is a streaming texture of the matching kind
    with exactly the three filter stages attached, whose night vision,
    colour-blind, scale and filter settings are the values of the
    configuration store, and it has registered the night vision key. *)
Theorem egl_desktopInit_surface (env : Env) (useDMA_ : bool) (maxRects : Z) (s0 : State) :
  let m := egl_desktopInit env useDMA_ maxRects in
  let d := desktop (exec m s0) in
  eval m s0 = true ->
  texture d
    = Some (mkTexture
              (if useDMA_ then EGL_TEXTYPE_DMABUF else EGL_TEXTYPE_FRAMEBUFFER)
              true None (attached_steps d))
  /\ (ffxFSR1Handle_0 d = Some 0%nat /\ ffxFSR1Handle_1 d = Some 1%nat
      /\ ffxCASHandle d = Some 2%nat)
  /\ (upscale d = false /\ width d = 0 /\ height d = 0)
  /\ useDMA d = useDMA_
  /\ (nvMax d = option_get_int env "egl" "nvGainMax"
      /\ nvGain d = option_get_int env "egl" "nvGain"
      /\ cbMode d = option_get_int env "egl" "cbMode"
      /\ scaleAlgo d = option_get_int env "egl" "scale")
  /\ (ffxFSR1Enable d = option_get_bool env "eglFilter" "ffxFSR"
      /\ ffxCASEnable d = option_get_bool env "eglFilter" "ffxCAS")
  /\ EvRegisterKeybind "Toggle night vision mode" ∈ emitted m s0.
Proof.
  intros m d Hok. pose proof (egl_desktopInit_outcome env useDMA_ maxRects s0) as H.
  cbv zeta in H. fold m in H. rewrite Hok in H. fold d in H.
  destruct H as (Ht & Hh & Hg & Hu & Hnv & Hen & _ & _ & _ & Hk).
  repeat (split; [assumption|]). exact Hk.
Qed.

(** X5.  A call of [egl_desktopInit] that returns false ends with an error
    message, and has neither registered the night vision key nor attached a
    filter stage: these happen only after every checked allocation has
    succeeded. *)
Theorem egl_desktopInit_failure (env : Env) (useDMA_ : bool) (maxRects : Z) (s0 : State) :
  let m := egl_desktopInit env useDMA_ maxRects in
  eval m s0 = false ->
  (exists e, last (emitted m s0) = Some e /\ is_error_log e = true)
  /\ forallb (fun e => negb (is_commitment e)) (emitted m s0) = true.
Proof.
  intros m Hfail. pose proof (egl_desktopInit_outcome env useDMA_ maxRects s0) as H.
  cbv zeta in H. fold m in H. rewrite Hfail in H. exact H.
Qed.

(** ** The texture kind follows the transfer path *)

Lemma texture_matches_path_fmap (f : EGL_Texture -> EGL_Texture) (d : EGL_Desktop) :
  (forall t, tex_type (f t) = tex_type t /\ tex_streaming (f t) = tex_streaming t) ->
  texture_matches_path d ->
  texture_matches_path (set_texture (f <$> texture d) d).
Proof.
  intros Hf Hd t'. cbn. destruct (texture d) as [t|] eqn:Ht; [|discriminate].
  intros [= <-]. destruct (Hf t) as [-> ->]. apply Hd. exact Ht.
Qed.

Lemma texture_alter_step_kind (f : RenderStep -> RenderStep) (h : PostProcessHandle)
    (t : EGL_Texture) :
  tex_type (texture_alter_step f h t) = tex_type t
  /\ tex_streaming (texture_alter_step f h t) = tex_streaming t.
Proof. destruct h; split; reflexivity. Qed.

Lemma run_op_matches_path (env : Env) (o : Op) :
  preserves texture_matches_path (run_op env o).
Proof.
  assert (Hside : forall f h d, texture_matches_path d ->
            texture_matches_path (set_texture (texture_alter_step f h <$> texture d) d)).
  { intros f h d Hd. apply texture_matches_path_fmap; [|exact Hd].
    intros t. apply texture_alter_step_kind. }
  assert (Hsetup : forall fmt, preserves texture_matches_path (egl_desktopSetup env fmt)).
  { intros fmt. unfold egl_desktopSetup. unfold_calls.
    repeat preserves_step ltac:(intros ? Hd; first
      [ exact Hd
      | apply texture_matches_path_fmap; [intros t; split; reflexivity|exact Hd] ]). }
  destruct o; unfold run_op.
  - apply toggleNV_preserves. intros g d Hd. exact Hd.
  - unfold egl_desktopConfigUI, configUI_scale, configUI_nightVision,
      configUI_fsr, configUI_cas. unfold_calls.
    repeat preserves_step ltac:(intros ? Hd; first [exact Hd|apply Hside; exact Hd]).
  - apply preserves_bind; [apply Hsetup|intros ?; apply preserves_ret].
  - apply preserves_bind; [|intros ?; apply preserves_ret].
    intros s J.
    destruct (useDMA (desktop s) && (0 <=? dmaFd)) eqn:Hcond.
    2: { unfold exec. rewrite egl_desktopUpdate_buffered by exact Hcond. exact J. }
    destruct (env_bool env (trace s ++ [EvTextureUpdateFromDMA frame dmaFd])) eqn:Hdma.
    { unfold exec. rewrite egl_desktopUpdate_zero_copy by assumption. exact J. }
    unfold exec. rewrite egl_desktopUpdate_downgrade by assumption.
    destruct (env_bool env (trace s ++ downgrade_events frame dmaFd)).
    2: { intros t [=]. }
    assert (Hp : preserves texture_matches_path
      (ok <- egl_desktopSetup env (format (desktop s)) ;;
       if negb ok then ret false
       else egl_textureUpdateFromFrame env frame damageRects damageRectsCount)).
    { apply preserves_bind; [apply Hsetup|intros ok].
      unfold_calls. repeat preserves_step ltac:(intros ? Hd; exact Hd). }
    apply Hp. intros t [= <-]. split; reflexivity.
  - unfold egl_desktopResize. unfold_calls.
    repeat preserves_step ltac:(intros ? Hd; first [exact Hd|apply Hside; exact Hd]).
  - apply preserves_bind; [apply egl_desktopRender_preserves|intros ?].
    apply preserves_ret.
Qed.

(** X6.  On every surface in use the texture, when there is one, is of the
    kind of the active transfer path (DMABUF exactly while [useDMA] is set)
    and is a streaming texture: exactly one transfer path is active. *)
Theorem reachable_texture_matches_path (env : Env) (s : State) :
  reachable env s -> texture_matches_path (desktop s).
Proof.
  induction 1 as [s0 useDMA_ maxRects Hok|s o _ IH].
  - pose proof (egl_desktopInit_outcome env useDMA_ maxRects s0) as H.
    cbv zeta in H. unfold eval in Hok. unfold eval in H. rewrite Hok in H.
    destruct H as (Ht & _ & _ & Hu & _).
    intros t Heq. rewrite Ht in Heq. injection Heq as <-.
    rewrite Hu. split; reflexivity.
  - apply run_op_matches_path. exact IH.
Qed.

(** ** Night vision outside the cycle *)

Lemma toggleNV_exec (key : Z) (s : State) :
  desktop (exec (toggleNV key) s)
    = set_nvGain (nv_next (nvGain (desktop s)) (nvMax (desktop s))) (desktop s).
Proof.
  destruct (toggleNV_run key s) as (alert & _ & Hrun).
  unfold exec. rewrite Hrun. reflexivity.
Qed.

(** X7.  A gain above [nvMax] (the configuration store may hold one) never
    returns to the cycle: each toggle adds one, as long as the counter does
    not leave the range of [int], so night vision is never switched off. *)
Theorem toggleNV_above_max (keys : list Z) : forall s : State,
  nvMax (desktop s) < nvGain (desktop s) ->
  nvGain (desktop s) + Z.of_nat (length keys) <= Int32.max_int ->
  Int32.min_int <= nvMax (desktop s) ->
  nvGain (desktop (exec (for_each keys toggleNV) s))
    = nvGain (desktop s) + Z.of_nat (length keys)
  /\ nvMax (desktop (exec (for_each keys toggleNV) s)) = nvMax (desktop s).
Proof.
  induction keys as [|key keys IH]; intros s Hgt Htop Hmin.
  - cbn. split; [lia|reflexivity].
  - rewrite exec_for_each_cons.
    cbn [length] in Htop. rewrite Nat2Z.inj_succ in Htop.
    assert (Hnext : nv_next (nvGain (desktop s)) (nvMax (desktop s))
                    = nvGain (desktop s) + 1).
    { unfold nv_next. destruct (Z.eqb_spec (nvGain (desktop s)) (nvMax (desktop s)));
        [lia|].
      apply wrap_int_id. unfold Int32.in_range. split; lia. }
    pose proof (toggleNV_exec key s) as Hd. rewrite Hnext in Hd.
    destruct (IH (exec (toggleNV key) s)) as [Hg Hm];
      rewrite ?Hd; cbn [nvGain nvMax set_nvGain]; try lia.
    rewrite Hg, Hm, Hd. cbn [nvGain nvMax set_nvGain length].
    rewrite Nat2Z.inj_succ. split; [lia|reflexivity].
Qed.

(** X8.  Within the cycle a toggle changes the gain and nothing else of the
    surface, and makes exactly two calls: the alert that announces the gain
    it has just set (not the one it found), then the redraw of the window. *)
Theorem toggleNV_announces_new_gain (key : Z) (s : State) :
  0 <= nvGain (desktop s) <= nvMax (desktop s) ->
  Int32.in_range (nvMax (desktop s)) ->
  let s' := exec (toggleNV key) s in
  desktop s' = set_nvGain (nvGain (desktop s')) (desktop s)
  /\ emitted (toggleNV key) s
       = [nv_alert (nvGain (desktop s')); EvInvalidateWindow true].
Proof.
  intros Hg Hmax s'. subst s'.
  assert (Hnext := nv_next_mod _ _ Hg Hmax).
  pose proof (Z.mod_pos_bound (nvGain (desktop s) + 1) (nvMax (desktop s) + 1)) as Hb.
  assert (Hr : 0 <= nv_next (nvGain (desktop s)) (nvMax (desktop s))
               <= nvMax (desktop s)) by (rewrite Hnext; lia).
  split.
  - rewrite toggleNV_exec. reflexivity.
  - apply emitted_app. rewrite toggleNV_exec. cbn [nvGain set_nvGain].
    unfold toggleNV, exec, when, app_alert, app_invalidateWindow.
    unfold bind, get, modify, emit, ret. cbn.
    unfold nv_next in *. unfold nv_alert.
    destruct (nvGain (desktop s) =? nvMax (desktop s)); cbn.
    + rewrite <- List.app_assoc. reflexivity.
    + destruct (Int32.wrap_int (nvGain (desktop s) + 1) =? 0) eqn:H0; cbn;
        [rewrite <- List.app_assoc; reflexivity|].
      destruct (Int32.wrap_int (nvGain (desktop s) + 1) =? 1) eqn:H1; cbn;
        [rewrite <- List.app_assoc; reflexivity|].
      rewrite <- List.app_assoc. cbn [app].
      rewrite (wrap_int_id (Int32.wrap_int (nvGain (desktop s) + 1) - 1)).
      * reflexivity.
      * unfold Int32.in_range, Int32.min_int, Int32.max_int in *. lia.
Qed.

(** ** The configuration panel *)

Lemma select_items_run (ui : UIInput) (l : list Z) : forall s : State,
  exec (for_each l (fun i => when (ui_selectable ui i) (modify (set_scaleAlgo i)))) s
    = mkState
        (set_scaleAlgo
           (default (scaleAlgo (desktop s)) (last (List.filter (ui_selectable ui) l)))
           (desktop s))
        (trace s).
Proof.
  induction l as [|i l IH]; intros s.
  - reflexivity.
  - rewrite exec_for_each_cons, IH. cbn [List.filter].
    destruct (ui_selectable ui i) eqn:Hi; cbn [when].
    + unfold exec, modify. cbn [snd desktop trace scaleAlgo set_scaleAlgo].
      rewrite last_cons. destruct (last (List.filter (ui_selectable ui) l)); reflexivity.
    + reflexivity.
Qed.

Lemma configUI_scale_run (ui : UIInput) (s : State) :
  exec (configUI_scale ui) s
    = mkState (set_scaleAlgo (chosen_scale ui (scaleAlgo (desktop s))) (desktop s))
        (trace s).
Proof.
  unfold configUI_scale, chosen_scale. destruct (ui_comboOpen ui); cbn [when].
  - apply select_items_run.
  - reflexivity.
Qed.

Lemma configUI_nightVision_run (ui : UIInput) (s : State) :
  exec (configUI_nightVision ui) s
    = mkState (set_nvGain (default (nvGain (desktop s)) (ui_nvGain ui)) (desktop s))
        (trace s).
Proof. unfold configUI_nightVision. destruct (ui_nvGain ui); reflexivity. Qed.



Lemma chosen_scale_valid (ui : UIInput) (current : Z) :
  0 <= current < EGL_SCALE_MAX -> 0 <= chosen_scale ui current < EGL_SCALE_MAX.
Proof.
  intros Hc. unfold chosen_scale. destruct (ui_comboOpen ui); [|exact Hc].
  destruct (last (List.filter (ui_selectable ui) (seqZ 0 EGL_SCALE_MAX))) as [i|] eqn:Hl;
    [|exact Hc].
  cbn [default]. apply last_Some_elem_of in Hl.
  apply list_elem_of_In, List.filter_In in Hl as [Hin _].
  apply list_elem_of_In, elem_of_seqZ in Hin. unfold EGL_SCALE_MAX, id in *. lia.
Qed.

(** X10.  No operation on a surface takes a valid scale algorithm out of the
    range [0 .. EGL_SCALE_MAX - 1]: the combo of the panel is the only
    writer and stores item numbers only. *)
Theorem run_op_keeps_scale_valid (env : Env) (o : Op) :
  preserves valid_scale (run_op env o).
Proof.
  destruct o; unfold run_op.
  - apply toggleNV_preserves. intros g d Hd. exact Hd.
  - unfold egl_desktopConfigUI.
    apply preserves_bind.
    { intros s Hs. rewrite configUI_scale_run. apply chosen_scale_valid. exact Hs. }
    intros _. unfold configUI_nightVision, configUI_fsr, configUI_cas. unfold_calls.
    repeat preserves_step ltac:(intros ? Hd; exact Hd).
  - unfold egl_desktopSetup. unfold_calls.
    repeat preserves_step ltac:(intros ? Hd; exact Hd).
  - unfold egl_desktopUpdate, egl_desktopSetup, setupFilters, egl_textureInit,
      egl_textureFree, egl_textureAddFilter. unfold_calls.
    repeat preserves_step ltac:(intros ? Hd; exact Hd).
  - unfold egl_desktopResize. unfold_calls.
    repeat preserves_step ltac:(intros ? Hd; exact Hd).
  - apply preserves_bind; [apply egl_desktopRender_preserves|intros ?].
    apply preserves_ret.
Qed.

(** ** The sharpness sliders *)

Lemma configUI_fsr_slider (ui : UIInput) (inv : bool) (s : State) :
  let v := slider_value StageFSR ui (desktop s) in
  F32.neqb v (uniform_f0 (ffxFSR1Uniform (desktop s))) = true ->
  let s' := exec (configUI_fsr ui inv) s in
  eval (configUI_fsr ui inv) s = true
  /\ ffxFSR1Enable (desktop s') = true
  /\ uniform_f0 (ffxFSR1Uniform (desktop s')) = sharpness_of_raw StageFSR v
  /\ ffxFSR1_1 (desktop s') = ffxFSR1_1 (desktop s)
  /\ exists pre,
       trace s' = trace s ++ pre
                    ++ [EvShaderSetUniforms (ffxFSR1_1 (desktop s))
                          [ffxFSR1Uniform (desktop s')]].
Proof.
  intros v Hne. subst v. unfold slider_value in Hne.
  cbn [sharpness_uniform ui_sharpness] in Hne.
  unfold configUI_fsr, eval, exec. unfold_calls.
  unfold bind, get, modify, emit, ret, when. cbn.
  unfold slider_value. cbn [sharpness_uniform ui_sharpness].
  destruct (ui_fsr1Sharpness ui) as [v|]; cbn [default] in *; unfold id in *;
    rewrite Hne;
    destruct (ui_fsr1Clicked ui), (ffxFSR1Enable (desktop s)) eqn:Hen; cbn;
    rewrite uniform_f0_set;
    (repeat match goal with |- _ /\ _ => split end);
    try reflexivity; try exact Hen;
    rewrite <- ?List.app_assoc; cbn [app];
    lazymatch goal with
    | |- exists pre, ?t ++ ?l = ?t ++ pre ++ _ => exists (removelast l); reflexivity
    end.
Qed.

Lemma configUI_cas_slider (ui : UIInput) (inv : bool) (s : State) :
  let v := slider_value StageCAS ui (desktop s) in
  F32.neqb v (uniform_f0 (ffxCASUniform (desktop s))) = true ->
  let s' := exec (configUI_cas ui inv) s in
  eval (configUI_cas ui inv) s = true
  /\ ffxCASEnable (desktop s') = true
  /\ uniform_f0 (ffxCASUniform (desktop s')) = sharpness_of_raw StageCAS v
  /\ ffxCAS (desktop s') = ffxCAS (desktop s)
  /\ exists pre,
       trace s' = trace s ++ pre
                    ++ [EvShaderSetUniforms (ffxCAS (desktop s))
                          [ffxCASUniform (desktop s')]].
Proof.
  intros v Hne. subst v. unfold slider_value in Hne.
  cbn [sharpness_uniform ui_sharpness] in Hne.
  unfold configUI_cas, eval, exec. unfold_calls.
  unfold bind, get, modify, emit, ret, when. cbn.
  unfold slider_value. cbn [sharpness_uniform ui_sharpness].
  destruct (ui_casSharpness ui) as [v|]; cbn [default] in *; unfold id in *;
    rewrite Hne;
    destruct (ui_casClicked ui), (ffxCASEnable (desktop s)) eqn:Hen; cbn;
    rewrite uniform_f0_set;
    (repeat match goal with |- _ /\ _ => split end);
    try reflexivity; try exact Hen;
    rewrite <- ?List.app_assoc; cbn [app];
    lazymatch goal with
    | |- exists pre, ?t ++ ?l = ?t ++ pre ++ _ => exists (removelast l); reflexivity
    end.
Qed.

(** What the first two groups leave of the filter settings. *)
Lemma configUI_head_run (ui : UIInput) (s : State) :
  let s1 := exec (configUI_nightVision ui) (exec (configUI_scale ui) s) in
  trace s1 = trace s
  /\ (forall st, stage_uniform st (desktop s1) = stage_uniform st (desktop s)
                 /\ stage_shader st (desktop s1) = stage_shader st (desktop s)
                 /\ enabledByUser st (desktop s1) = enabledByUser st (desktop s))
  /\ texture (desktop s1) = texture (desktop s)
  /\ upscale (desktop s1) = upscale (desktop s)
  /\ ffxFSR1Handle_0 (desktop s1) = ffxFSR1Handle_0 (desktop s)
  /\ ffxFSR1Handle_1 (desktop s1) = ffxFSR1Handle_1 (desktop s)
  /\ ffxCASHandle (desktop s1) = ffxCASHandle (desktop s).
Proof.
  intros s1. subst s1. rewrite configUI_scale_run, configUI_nightVision_run.
  cbn. repeat split; destruct st; reflexivity.
Qed.

Lemma configUI_cas_extends (ui : UIInput) (inv : bool) :
  emits_only (fun _ => true) (configUI_cas ui inv).
Proof. unfold configUI_cas. unfold_calls. repeat emits_only_step. Qed.

Lemma configUI_cas_keeps_fsr_shader (ui : UIInput) (inv : bool) (sh : option EGL_Shader) :
  preserves (fun d => ffxFSR1_1 d = sh) (configUI_cas ui inv).
Proof.
  unfold configUI_cas. unfold_calls.
  repeat preserves_step ltac:(intros ? Hd; exact Hd).
Qed.

Lemma configUI_fsr_keeps_cas_shader (ui : UIInput) (inv : bool) (sh : option EGL_Shader) :
  preserves (fun d => ffxCAS d = sh) (configUI_fsr ui inv).
Proof.
  unfold configUI_fsr. unfold_calls.
  repeat preserves_step ltac:(intros ? Hd; exact Hd).
Qed.

(** A slider whose value differs from the stored uniform, in a whole pass. *)
Lemma configUI_slider_pass (st : Stage) (ui : UIInput) (s : State) :
  let v := slider_value st ui (desktop s) in
  F32.neqb v (sharpness_uniform st (desktop s)) = true ->
  let s' := exec (egl_desktopConfigUI ui) s in
  enabledByUser st (desktop s') = true
  /\ sharpness_uniform st (desktop s') = sharpness_of_raw st v
  /\ EvShaderSetUniforms (stage_shader st (desktop s')) [stage_uniform st (desktop s')]
       ∈ emitted (egl_desktopConfigUI ui) s
  /\ ends_with_redraw s'.
Proof.
  intros v Hne s'. subst v s'. unfold emitted. rewrite egl_desktopConfigUI_run.
  destruct (configUI_head_run ui s) as (Ht1 & Hst1 & _).
  set (s1 := exec (configUI_nightVision ui) (exec (configUI_scale ui) s)) in *.
  set (s2 := exec (configUI_fsr ui false) s1).
  set (r2 := eval (configUI_fsr ui false) s1).
  set (s3 := exec (configUI_cas ui r2) s2).
  set (r3 := eval (configUI_cas ui r2) s2).
  destruct st; cbn [enabledByUser sharpness_uniform stage_shader stage_uniform].
  - (* FSR *)
    assert (Hv : slider_value StageFSR ui (desktop s1) = slider_value StageFSR ui (desktop s)).
    { unfold slider_value. cbn [sharpness_uniform].
      destruct (Hst1 StageFSR) as (Hu & _). cbn in Hu. rewrite Hu. reflexivity. }
    destruct (Hst1 StageFSR) as (Hu1 & Hsh1 & _). cbn in Hu1, Hsh1.
    cbn [sharpness_uniform] in Hne. rewrite <- Hu1, <- Hv in Hne.
    destruct (configUI_fsr_slider ui false s1 Hne) as (Hr2 & Hen2 & Hf2 & Hsh2 & pre & Htr2).
    fold s2 in Hen2, Hf2, Hsh2, Htr2. fold r2 in Hr2. rewrite Hv in Hf2.
    assert (Hr3 : r3 = true).
    { subst r3. rewrite Hr2. apply configUI_cas_keeps_flag. }
    destruct (configUI_cas_keeps_fsr ui r2 true (ffxFSR1Uniform (desktop s2)) s2)
      as [Hen3 Hu3]; [split; [exact Hen2|reflexivity]|].
    fold s3 in Hen3, Hu3.
    pose proof (configUI_cas_keeps_fsr_shader ui r2 (ffxFSR1_1 (desktop s2)) s2 eq_refl)
      as Hsh3. fold s3 in Hsh3. cbn beta in Hsh3.
    destruct (configUI_cas_extends ui r2 s2) as (es & Htr3 & _). fold s3 in Htr3.
    rewrite Hr3. cbn [desktop trace].
    split; [exact Hen3|]. split; [rewrite Hu3; exact Hf2|].
    split; [|exists (trace s3); reflexivity].
    rewrite Htr3, Htr2, Ht1, <- !List.app_assoc, drop_app_length.
    rewrite Hu3, Hsh3, Hsh2.
    apply elem_of_app; right. apply elem_of_app; left. apply list_elem_of_here.
  - (* CAS *)
    destruct (Hst1 StageCAS) as (Hu1 & Hsh1 & _). cbn in Hu1, Hsh1.
    destruct (configUI_fsr_keeps_cas ui false (ffxCASEnable (desktop s1))
                (ffxCASUniform (desktop s1)) s1) as [_ Hu2]; [split; reflexivity|].
    fold s2 in Hu2.
    pose proof (configUI_fsr_keeps_cas_shader ui false (ffxCAS (desktop s1)) s1 eq_refl)
      as Hsh2. fold s2 in Hsh2. cbn beta in Hsh2.
    assert (Hv : slider_value StageCAS ui (desktop s2) = slider_value StageCAS ui (desktop s)).
    { unfold slider_value. cbn [sharpness_uniform]. rewrite Hu2, Hu1. reflexivity. }
    cbn [sharpness_uniform] in Hne. rewrite <- Hu1, <- Hu2, <- Hv in Hne.
    destruct (configUI_cas_slider ui r2 s2 Hne) as (Hr3 & Hen3 & Hf3 & Hsh3 & pre & Htr3).
    fold s3 in Hen3, Hf3, Hsh3, Htr3. fold r3 in Hr3. rewrite Hv in Hf3.
    assert (Hext2 : exists es, trace s2 = trace s1 ++ es).
    { assert (H : emits_only (fun _ => true) (configUI_fsr ui false)).
      { unfold configUI_fsr. unfold_calls. repeat emits_only_step. }
      destruct (H s1) as (es & Hes & _). exists es. exact Hes. }
    destruct Hext2 as (es2 & Htr2).
    rewrite Hr3. cbn [desktop trace].
    split; [exact Hen3|]. split; [exact Hf3|].
    split; [|exists (trace s3); reflexivity].
    rewrite Htr3, Htr2, Ht1, <- !List.app_assoc, drop_app_length.
    rewrite Hsh3.
    apply elem_of_app; right. apply elem_of_app; right. apply list_elem_of_here.
Qed.

(** X11.  When a pass gives the sharpness slider of a stage a value [v]
    that differs from the stored uniform, the stored uniform becomes
    [2.0 - v * 2.0] for FSR and [v] for CAS, and that uniform is sent to the
    stage's shader (the RCAS pass for FSR) during the pass. *)
Theorem configUI_sharpness_stored (st : Stage) (ui : UIInput) (s : State) (v : float32) :
  ui_sharpness st ui = Some v ->
  F32.neqb v (sharpness_uniform st (desktop s)) = true ->
  let s' := exec (egl_desktopConfigUI ui) s in
  sharpness_uniform st (desktop s') = sharpness_of_raw st v
  /\ EvShaderSetUniforms (stage_shader st (desktop s')) [stage_uniform st (desktop s')]
       ∈ emitted (egl_desktopConfigUI ui) s.
Proof.
  intros Hv Hne s'.
  assert (Hsv : slider_value st ui (desktop s) = v).
  { unfold slider_value. rewrite Hv. reflexivity. }
  pose proof (configUI_slider_pass st ui s) as H. cbv zeta in H.
  rewrite Hsv in H. destruct (H Hne) as (_ & Hu & Hin & _).
  split; assumption.
Qed.


(** ** The check boxes *)

Lemma texture_present_fmap (f : EGL_Texture -> EGL_Texture) (d : EGL_Desktop) :
  texture d <> None -> texture (set_texture (f <$> texture d) d) <> None.
Proof. cbn. destruct (texture d); [discriminate|intros H; exact H]. Qed.

Lemma configUI_fsr_keeps_texture (ui : UIInput) (inv : bool) :
  preserves (fun d => texture d <> None) (configUI_fsr ui inv).
Proof.
  unfold configUI_fsr. unfold_calls.
  repeat preserves_step ltac:(intros ? Hd; first
    [exact Hd | apply texture_present_fmap; exact Hd]).
Qed.

(** The CAS group leaves the FSR passes as they are. *)
Lemma configUI_cas_keeps_fsr_steps (ui : UIInput) (inv : bool) (s : State) :
  stages_attached (desktop s) ->
  let d' := desktop (exec (configUI_cas ui inv) s) in
  activeNow (Some 0%nat) d' = activeNow (Some 0%nat) (desktop s)
  /\ activeNow (Some 1%nat) d' = activeNow (Some 1%nat) (desktop s).
Proof.
  intros J d'. subst d'. destruct (texture (desktop s)) as [t|] eqn:Ht.
  - pose proof J as (_ & _ & J2 & Jt).
    destruct (Jt t Ht) as (a & b & c & Hsteps & _).
    unfold configUI_cas, exec, activeNow, stage_of. unfold_calls.
    unfold bind, get, modify, emit, ret, when. cbn. rewrite J2.
    destruct (ui_casClicked ui), (ffxCASEnable (desktop s)); cbn;
      destruct (F32.neqb _ _); cbn; rewrite ?Ht; cbn; rewrite ?Hsteps; cbn;
      split; reflexivity.
  - assert (Hd : detached (Some 0%nat) (Some 1%nat) (Some 2%nat)
                   (desktop (exec (configUI_cas ui inv) s))).
    { apply configUI_cas_detached. apply attached_detached; assumption. }
    destruct Hd as (Ht' & _). unfold activeNow, stage_of. rewrite Ht', Ht.
    split; reflexivity.
Qed.

(** X13.  On a surface with its stages attached, ticking the FSR check box
    (the slider left alone) inverts the user flag, gives both FSR passes the
    active state [flag && upscale], and marks the frame dirty: FSR enabled
    on a surface that does not upscale stays inactive. *)
Theorem configUI_fsr_checkbox (ui : UIInput) (s : State) :
  stages_attached (desktop s) ->
  texture (desktop s) <> None ->
  ui_fsr1Clicked ui = true ->
  F32.neqb (slider_value StageFSR ui (desktop s))
    (sharpness_uniform StageFSR (desktop s)) = false ->
  let d := desktop s in
  let s' := exec (egl_desktopConfigUI ui) s in
  let d' := desktop s' in
  enabledByUser StageFSR d' = negb (enabledByUser StageFSR d)
  /\ activeNow (ffxFSR1Handle_0 d') d' = Some (enabledByUser StageFSR d' && upscale d)
  /\ activeNow (ffxFSR1Handle_1 d') d' = Some (enabledByUser StageFSR d' && upscale d)
  /\ ends_with_redraw s'.
Proof.
  intros J Htex Hclick Hsame d s' d'. subst d s' d'.
  rewrite egl_desktopConfigUI_run.
  destruct (configUI_head_run ui s) as (Ht1 & Hst1 & Htex1 & Hup1 & H0 & H1 & H2).
  set (s1 := exec (configUI_nightVision ui) (exec (configUI_scale ui) s)) in *.
  set (s2 := exec (configUI_fsr ui false) s1).
  set (r2 := eval (configUI_fsr ui false) s1).
  set (s3 := exec (configUI_cas ui r2) s2).
  set (r3 := eval (configUI_cas ui r2) s2).
  destruct (Hst1 StageFSR) as (Hu1 & _ & Hen1). cbn in Hu1, Hen1.
  pose proof J as (J0 & J1 & J2 & Jt).
  destruct (texture (desktop s)) as [t|] eqn:Ht; [|contradiction].
  destruct (Jt t eq_refl) as (a & b & c & Hsteps & _).
  assert (Hfsr : r2 = true
                 /\ ffxFSR1Enable (desktop s2) = negb (ffxFSR1Enable (desktop s))
                 /\ upscale (desktop s2) = upscale (desktop s)
                 /\ activeNow (Some 0%nat) (desktop s2)
                      = Some (negb (ffxFSR1Enable (desktop s)) && upscale (desktop s))
                 /\ activeNow (Some 1%nat) (desktop s2)
                      = Some (negb (ffxFSR1Enable (desktop s)) && upscale (desktop s))
                 /\ ffxFSR1Handle_0 (desktop s2) = Some 0%nat
                 /\ ffxFSR1Handle_1 (desktop s2) = Some 1%nat).
  { subst r2 s2. clearbody s1. clear s3 r3. unfold slider_value in Hsame.
    cbn [sharpness_uniform ui_sharpness] in Hsame.
    unfold configUI_fsr, eval, exec, activeNow, stage_of. unfold_calls.
    unfold bind, get, modify, emit, ret, when. cbn.
    rewrite ?Hclick, ?Hu1, ?Hen1, ?Hup1, ?H0, ?H1, ?J0, ?J1.
    destruct (ui_fsr1Sharpness ui) as [v|]; cbn [default] in Hsame; unfold id in Hsame;
      destruct (ffxFSR1Enable (desktop s)) eqn:Hen; cbn; rewrite ?Hsame; cbn;
      rewrite ?Htex1; cbn; rewrite ?Hsteps; cbn; rewrite ?Hen;
      repeat split; try assumption; rewrite ?H0, ?H1; assumption. }
  destruct Hfsr as (Hr2 & Hen2 & Hup2 & Ha0 & Ha1 & Hh0 & Hh1).
  assert (J2' : stages_attached (desktop s2)).
  { subst s2. apply configUI_fsr_attached. subst s1.
    apply configUI_nightVision_preserves; [intros g d Hd; exact Hd|].
    apply configUI_scale_preserves; [intros i d Hd; exact Hd|]. exact J. }
  destruct (configUI_cas_keeps_fsr_steps ui r2 s2 J2') as [Hk0 Hk1]. fold s3 in Hk0, Hk1.
  destruct (configUI_cas_keeps_fsr ui r2 (ffxFSR1Enable (desktop s2))
              (ffxFSR1Uniform (desktop s2)) s2) as [Hen3 _]; [split; reflexivity|].
  fold s3 in Hen3.
  assert (J3 : stages_attached (desktop s3)).
  { subst s3. apply configUI_cas_attached. exact J2'. }
  destruct J3 as (J30 & J31 & _).
  assert (Hr3 : r3 = true).
  { subst r3. rewrite Hr2. apply configUI_cas_keeps_flag. }
  rewrite Hr3. cbn [desktop trace enabledByUser].
  rewrite J30, J31, Hk0, Hk1, Ha0, Ha1, Hen3, Hen2.
  repeat split. exists (trace s3). reflexivity.
Qed.

(** X14.  On a surface with its stages attached, ticking the CAS check box
    (the slider left alone) inverts the user flag and gives the CAS stage
    exactly that flag as its active state, whether or not the surface
    upscales, and marks the frame dirty. *)
Theorem configUI_cas_checkbox (ui : UIInput) (s : State) :
  stages_attached (desktop s) ->
  texture (desktop s) <> None ->
  ui_casClicked ui = true ->
  F32.neqb (slider_value StageCAS ui (desktop s))
    (sharpness_uniform StageCAS (desktop s)) = false ->
  let d := desktop s in
  let s' := exec (egl_desktopConfigUI ui) s in
  let d' := desktop s' in
  enabledByUser StageCAS d' = negb (enabledByUser StageCAS d)
  /\ activeNow (ffxCASHandle d') d' = Some (enabledByUser StageCAS d')
  /\ ends_with_redraw s'.
Proof.
  intros J Htex Hclick Hsame d s' d'. subst d s' d'.
  rewrite egl_desktopConfigUI_run.
  destruct (configUI_head_run ui s) as (Ht1 & Hst1 & Htex1 & Hup1 & H0 & H1 & H2).
  set (s1 := exec (configUI_nightVision ui) (exec (configUI_scale ui) s)) in *.
  set (s2 := exec (configUI_fsr ui false) s1).
  set (r2 := eval (configUI_fsr ui false) s1).
  set (s3 := exec (configUI_cas ui r2) s2).
  set (r3 := eval (configUI_cas ui r2) s2).
  destruct (Hst1 StageCAS) as (Hu1 & _ & Hen1). cbn in Hu1, Hen1.
  assert (J1' : stages_attached (desktop s1)).
  { subst s1.
    apply configUI_nightVision_preserves; [intros g d Hd; exact Hd|].
    apply configUI_scale_preserves; [intros i d Hd; exact Hd|]. exact J. }
  assert (J2' : stages_attached (desktop s2)).
  { subst s2. apply configUI_fsr_attached. exact J1'. }
  assert (Htex2 : texture (desktop s2) <> None).
  { subst s2. apply configUI_fsr_keeps_texture. rewrite Htex1. exact Htex. }
  destruct (configUI_fsr_keeps_cas ui false (ffxCASEnable (desktop s1))
              (ffxCASUniform (desktop s1)) s1) as [Hen2 Hu2]; [split; reflexivity|].
  fold s2 in Hen2, Hu2.
  pose proof J2' as (_ & _ & J22 & Jt2).
  destruct (texture (desktop s2)) as [t|] eqn:Ht2; [|contradiction].
  destruct (Jt2 t eq_refl) as (a & b & c & Hsteps & _).
  unfold slider_value in Hsame. cbn [sharpness_uniform ui_sharpness] in Hsame.
  rewrite <- Hu1, <- Hu2 in Hsame.
  subst r3 s3. clearbody s2 r2. clear Jt2.
  unfold configUI_cas, eval, exec, activeNow, stage_of. unfold_calls.
  unfold bind, get, modify, emit, ret, when. cbn.
  rewrite ?Hclick, ?Hen2, ?Hen1, ?J22, ?Hu2, ?Hu1.
  rewrite ?Hu2, ?Hu1 in Hsame.
  destruct (ui_casSharpness ui) as [v|]; cbn [default] in Hsame; unfold id in Hsame;
    destruct (ffxCASEnable (desktop s)) eqn:Hen; rewrite ?Hsame; cbn;
    rewrite ?J22, ?Ht2; cbn; rewrite ?Hsteps; cbn; rewrite ?Hen;
    (split; [reflexivity|]); (split; [reflexivity|]);
    unfold ends_with_redraw; cbn [trace]; eexists; reflexivity.
Qed.

(** ** Further properties of [egl_desktopSetup] *)


(** X16.  [egl_desktopSetup] touches no filter stage and does not look at
    the window: after a resize to [(w, h)] and a change of the source
    format, the flag [upscale] is still the comparison of [(w, h)] with the
    size of the old source, whatever the size of the new one. *)
Theorem egl_desktopSetup_keeps_upscale (env : Env) (fmt : LG_RendererFormat)
    (w h : Z) (s : State) :
  let s1 := exec (egl_desktopResize w h) s in
  let s2 := exec (egl_desktopSetup env fmt) s1 in
  upscale (desktop s2) = (width (desktop s) <? w) && (height (desktop s) <? h)
  /\ forallb (fun e => negb (is_adjustment e)) (emitted (egl_desktopSetup env fmt) s1)
     = true.
Proof.
  intros s1 s2. split.
  - assert (H1 : upscale (desktop s1)
                 = (width (desktop s) <? w) && (height (desktop s) <? h)).
    { subst s1. unfold egl_desktopResize, exec. unfold_calls.
      unfold bind, get, modify, emit, ret, when. cbn.
      destruct ((width (desktop s) <? w) && (height (desktop s) <? h)); cbn;
        [destruct (ffxFSR1Enable (desktop s)); reflexivity|reflexivity]. }
    rewrite <- H1. subst s2.
    assert (Hp : preserves (fun d => upscale d = upscale (desktop s1))
                   (egl_desktopSetup env fmt)).
    { unfold egl_desktopSetup. unfold_calls.
      repeat preserves_step ltac:(intros ? Hd; exact Hd). }
    apply Hp. reflexivity.
  - apply emits_only_emitted. unfold_ops. repeat emits_only_step.
Qed.

(** ** Further properties of [egl_desktopUpdate] *)

(** X17.  A frame that comes without a DMA handle ([dmaFd < 0]) is ingested
    through the buffered call even on a zero-copy surface: that call is the
    only one made, its answer is returned, and the surface, its transfer
    path included, is left as it was. *)
Theorem egl_desktopUpdate_without_handle (env : Env) (frame : FrameBuffer)
    (dmaFd : Z) (rects : list FrameDamageRect) (n : Z) (s : State) :
  dmaFd < 0 ->
  let m := egl_desktopUpdate env frame dmaFd rects n in
  emitted m s = [EvTextureUpdateFromFrame frame rects n]
  /\ eval m s = env_bool env (trace s ++ [EvTextureUpdateFromFrame frame rects n])
  /\ desktop (exec m s) = desktop s.
Proof.
  intros Hfd m. subst m.
  assert (Hcond : useDMA (desktop s) && (0 <=? dmaFd) = false).
  { replace (0 <=? dmaFd) with false by (symmetry; apply Z.leb_gt; exact Hfd).
    apply andb_false_r. }
  unfold emitted, exec, eval.
  rewrite (egl_desktopUpdate_buffered env frame dmaFd rects n s Hcond).
  cbn [fst snd desktop trace]. rewrite drop_app_length. repeat split.
Qed.

(** X18.  [egl_desktopUpdate] changes the surface only by downgrading: a
    call that does not dispose of the texture makes exactly one call, an
    ingestion of the frame, and leaves the surface as it was. *)
Theorem egl_desktopUpdate_only_downgrade_changes (env : Env) (frame : FrameBuffer)
    (dmaFd : Z) (rects : list FrameDamageRect) (n : Z) (s : State) :
  let m := egl_desktopUpdate env frame dmaFd rects n in
  downgrades (emitted m s) = 0%nat ->
  desktop (exec m s) = desktop s
  /\ exists e, emitted m s = [e] /\ is_ingest e = true.
Proof.
  intros m. subst m.
  destruct (useDMA (desktop s) && (0 <=? dmaFd)) eqn:Hcond.
  2: { intros _. unfold emitted, exec.
       rewrite (egl_desktopUpdate_buffered env frame dmaFd rects n s Hcond).
       cbn [snd desktop trace]. rewrite drop_app_length.
       split; [reflexivity|]. eexists. split; reflexivity. }
  destruct (env_bool env (trace s ++ [EvTextureUpdateFromDMA frame dmaFd])) eqn:Hdma.
  { intros _. unfold emitted, exec.
    rewrite (egl_desktopUpdate_zero_copy env frame dmaFd rects n s Hcond Hdma).
    cbn [snd desktop trace]. rewrite drop_app_length.
    split; [reflexivity|]. eexists. split; reflexivity. }
  intros Hnone. exfalso. revert Hnone. unfold emitted, exec.
  rewrite (egl_desktopUpdate_downgrade env frame dmaFd rects n s Hcond Hdma).
  cbv zeta.
  destruct (env_bool env (trace s ++ downgrade_events frame dmaFd)).
  - destruct (update_tail_run env (format (desktop s)) frame rects n
                (mkState (downgraded (desktop s))
                   ((trace s ++ downgrade_events frame dmaFd)
                      ++ attach_events (desktop s))))
      as (es & Ht & _ & _).
    unfold exec in Ht. rewrite Ht. cbn [trace].
    rewrite <- !List.app_assoc, drop_app_length, !downgrades_app.
    cbn. lia.
  - cbn [snd trace]. rewrite <- !List.app_assoc, drop_app_length, !downgrades_app.
    cbn. lia.
Qed.

(** ** The resolutions [egl_desktopResize] gives the stages *)

(** X19.  On a surface in use that has a texture, a resize to a window
    larger than the source in both directions gives all three stages the
    window size as their resolution; any other resize gives the CAS stage
    the resolution (0, 0) and leaves the resolution of the two FSR passes
    as it was. *)
Theorem egl_desktopResize_resolutions (env : Env) (s : State) (w h : Z) :
  reachable env s ->
  texture (desktop s) <> None ->
  let d := desktop s in
  let d' := desktop (exec (egl_desktopResize w h) s) in
  if (width d <? w) && (height d <? h) then
    resolution (ffxFSR1Handle_0 d') d' = Some (w, h)
    /\ resolution (ffxFSR1Handle_1 d') d' = Some (w, h)
    /\ resolution (ffxCASHandle d') d' = Some (w, h)
  else
    resolution (ffxFSR1Handle_0 d') d' = resolution (ffxFSR1Handle_0 d) d
    /\ resolution (ffxFSR1Handle_1 d') d' = resolution (ffxFSR1Handle_1 d) d
    /\ resolution (ffxCASHandle d') d' = Some (0, 0).
Proof.
  intros Hreach Htex d d'. apply reachable_attached in Hreach.
  pose proof Hreach as (J0 & J1 & J2 & Jt). fold d in J0, J1, J2, Jt.
  destruct (texture d) as [t|] eqn:Ht; [|contradiction].
  destruct (Jt t eq_refl) as (a & b & c & Hsteps & _).
  subst d'. rewrite (egl_desktopResize_run w h s t a b c Hreach Ht Hsteps).
  fold d. unfold resolution, stage_of. cbn. rewrite J0, J1, J2, Ht. cbn.
  rewrite Hsteps.
  destruct ((width d <? w) && (height d <? h)); cbn; repeat split.
Qed.

(** ** [egl_desktopRender] always draws *)

(** X20.  [egl_desktopRender] has no failure path: it returns true and
    leaves the surface as it is, and its last three calls select the
    desktop shader, draw the mesh and unbind the texture, whatever the
    texture reported.  A processing error of the texture is logged, and
    only that is: the message is among the calls exactly when
    [egl_textureProcess] answered with the error status. *)
Theorem egl_desktopRender_always_draws (env : Env) (s : State)
    (x y scaleX scaleY : float32) (scaleType : EGL_DesktopScaleType)
    (rot : LG_RendererRotate) (rects : list FrameDamageRect) :
  let m := egl_desktopRender env x y scaleX scaleY scaleType rot rects in
  eval m s = true
  /\ desktop (exec m s) = desktop s
  /\ (exists pre, emitted m s = (pre ++ draw_events (ds_shader (shader (desktop s))))%list)
  /\ (EvLog LOG_ERROR "Failed to process the desktop texture" ∈ emitted m s
      <-> env_status env (trace s ++ [EvTextureProcess]) = EGL_TEX_STATUS_ERROR).
Proof.
  intros m. subst m.
  unfold egl_desktopRender, egl_textureProcess, egl_textureBind,
    egl_textureGetFinalSize, egl_shaderSetUniforms, egl_shaderUse, DEBUG_ERROR,
    emitted, exec, eval, draw_events.
  unfold bind, get, modify, emit, ret, history. cbn.
  destruct (env_status env (trace s ++ [EvTextureProcess])); cbn;
    repeat rewrite <- List.app_assoc; cbn [app]; rewrite drop_app_length.
  all: split; [reflexivity|]; split; [reflexivity|].
  all: split;
    [lazymatch goal with
     | |- exists pre, ?l = (pre ++ _)%list =>
         exists (take (length l - 3) l); reflexivity
     end|].
  all: split; intros H; try discriminate H; try reflexivity.
  all: first
    [ solve [repeat first [apply list_elem_of_here | apply list_elem_of_further]]
    | exfalso; repeat (apply elem_of_cons in H as [H|H]; [discriminate H|]);
      apply elem_of_nil in H; exact H ].
Qed.

(** ** What no operation changes *)



(** ** The filter shaders are not checked *)

(** X22.  [egl_desktopInit] checks six calls and no other: when the
    allocation, the texture, the desktop shader (creation and compilation),
    the mesh and the matrix buffer succeed, the call returns true and logs
    nothing, whatever the creation and the compilation of the three filter
    shaders answered; the filter stages are attached all the same. *)
Theorem egl_desktopInit_unchecked_filters (env : Env) (useDMA_ : bool)
    (maxRects : Z) (s0 : State) :
  checked_calls_succeed env ->
  let m := egl_desktopInit env useDMA_ maxRects in
  eval m s0 = true
  /\ forallb (fun e => negb (is_error_log e)) (emitted m s0) = true
  /\ stages_attached (desktop (exec m s0)).
Proof.
  intros Hok m.
  assert (Hr : eval m s0 = true
               /\ forallb (fun e => negb (is_error_log e)) (emitted m s0) = true).
  { subst m. unfold emitted, eval, exec.
    destruct s0 as [d0 t0].
    destruct (egl_desktopInit env useDMA_ maxRects (mkState d0 t0)) as [r s1] eqn:E.
    cbn [fst snd desktop trace].
    replace (mkState d0 t0) with (mkState d0 (t0 ++ [])) in E
      by (rewrite app_nil_r; reflexivity).
    unfold egl_desktopInit, egl_initDesktopShader, egl_textureInit,
      egl_desktopRectsInit, countedBufferNew, egl_shaderInit, egl_shaderCompile,
      egl_shaderGetUniform, setupFilters, egl_textureAddFilter, call_bool,
      call_int, DEBUG_ERROR, app_registerKeybind, egl_shaderSetUniforms in E.
    exec_in E.
    all: try match goal with
         | Hf : env_bool _ (?t ++ ?l)%list = false |- _ =>
             exfalso;
             let o := eval cbn in (last l) in
             lazymatch o with
             | Some ?e =>
                 rewrite (Hok (t ++ l)%list e) in Hf;
                 [discriminate Hf | rewrite last_app; reflexivity | reflexivity]
             end
         end.
    injection E as <- <-. cbn [desktop trace]. rewrite drop_app_length.
    split; reflexivity. }
  destruct Hr as [Hr Hlog]. repeat (split; [assumption|]).
  apply egl_desktopInit_attached; [exact I|exact Hr].
Qed.

(** * The further properties on concrete surfaces *)

Lemma only_update_touches_transfer_witness :
  is_update (OpResize 3840 2160) = false
  /\ emits_only (fun e => negb (is_ingest e || is_texture_lifecycle e))
       (run_op Scenario.env_ok (OpResize 3840 2160)).
Proof.
  split; [reflexivity|].
  exact (only_update_touches_transfer Scenario.env_ok (OpResize 3840 2160) eq_refl).
Defined.

Lemma egl_desktopInit_surface_witness :
  let m := egl_desktopInit Scenario.env_ok true 64 in
  eval m Scenario.start = true
  /\ useDMA (desktop (exec m Scenario.start)) = true
  /\ EvRegisterKeybind "Toggle night vision mode" ∈ emitted m Scenario.start.
Proof.
  intros m.
  assert (H : eval m Scenario.start = true) by (vm_compute; reflexivity).
  split; [exact H|].
  pose proof (egl_desktopInit_surface Scenario.env_ok true 64 Scenario.start H)
    as (_ & _ & _ & Hdma & _ & _ & Hkey).
  split; [exact Hdma|exact Hkey].
Defined.

Lemma egl_desktopInit_failure_witness :
  let m := egl_desktopInit Trial.env_no_memory false 8 in
  eval m Scenario.start = false
  /\ forallb (fun e => negb (is_commitment e)) (emitted m Scenario.start) = true.
Proof.
  intros m.
  assert (H : eval m Scenario.start = false) by (vm_compute; reflexivity).
  split; [exact H|].
  exact (proj2 (egl_desktopInit_failure Trial.env_no_memory false 8 Scenario.start H)).
Defined.

Lemma reachable_texture_matches_path_witness :
  reachable Scenario.env_ok Scenario.created
  /\ texture_matches_path (desktop Scenario.created).
Proof.
  assert (Hreach : reachable Scenario.env_ok Scenario.created).
  { apply reach_init. vm_compute. reflexivity. }
  split; [exact Hreach|].
  exact (reachable_texture_matches_path Scenario.env_ok Scenario.created Hreach).
Defined.

Lemma toggleNV_above_max_witness :
  let s := Panel.gain_above_max in
  (nvMax (desktop s) < nvGain (desktop s)
   /\ nvGain (desktop s) + Z.of_nat (length [0; 0]) <= Int32.max_int
   /\ Int32.min_int <= nvMax (desktop s))
  /\ nvGain (desktop (exec (for_each [0; 0] toggleNV) s)) = 5 + 2.
Proof.
  intros s.
  assert (H1 : nvMax (desktop s) < nvGain (desktop s)) by (vm_compute; reflexivity).
  assert (H2 : nvGain (desktop s) + Z.of_nat (length [0; 0]) <= Int32.max_int)
    by (vm_compute; discriminate).
  assert (H3 : Int32.min_int <= nvMax (desktop s)) by (vm_compute; discriminate).
  split; [exact (conj H1 (conj H2 H3))|].
  exact (proj1 (toggleNV_above_max [0; 0] s H1 H2 H3)).
Defined.

Lemma toggleNV_announces_new_gain_witness :
  let s := Scenario.created in
  (0 <= nvGain (desktop s) <= nvMax (desktop s)
   /\ Int32.in_range (nvMax (desktop s)))
  /\ emitted (toggleNV 0) s
       = [nv_alert (nvGain (desktop (exec (toggleNV 0) s))); EvInvalidateWindow true].
Proof.
  intros s.
  assert (H1 : 0 <= nvGain (desktop s) <= nvMax (desktop s))
    by (vm_compute; split; discriminate).
  assert (H2 : Int32.in_range (nvMax (desktop s)))
    by (vm_compute; split; discriminate).
  split; [split; assumption|].
  exact (proj2 (toggleNV_announces_new_gain 0 s H1 H2)).
Defined.


Lemma configUI_sharpness_stored_witness :
  let s := Scenario.ready Scenario.env_plain in
  let ui := Scenario.ui_fsr_sharper in
  (ui_sharpness StageFSR ui = Some F32.one
   /\ F32.neqb F32.one (sharpness_uniform StageFSR (desktop s)) = true)
  /\ sharpness_uniform StageFSR (desktop (exec (egl_desktopConfigUI ui) s))
     = sharpness_of_raw StageFSR F32.one.
Proof.
  intros s ui.
  assert (H1 : ui_sharpness StageFSR ui = Some F32.one) by reflexivity.
  assert (H2 : F32.neqb F32.one (sharpness_uniform StageFSR (desktop s)) = true)
    by (vm_compute; reflexivity).
  split; [split; assumption|].
  exact (proj1 (configUI_sharpness_stored StageFSR ui s F32.one H1 H2)).
Defined.


Lemma configUI_fsr_checkbox_witness :
  let s := Scenario.created in
  let ui := Panel.ui_tick_fsr in
  let d' := desktop (exec (egl_desktopConfigUI ui) s) in
  (stages_attached (desktop s)
   /\ texture (desktop s) <> None
   /\ ui_fsr1Clicked ui = true
   /\ F32.neqb (slider_value StageFSR ui (desktop s))
        (sharpness_uniform StageFSR (desktop s)) = false)
  /\ enabledByUser StageFSR d' = negb (enabledByUser StageFSR (desktop s)).
Proof.
  intros s ui d'.
  assert (H1 : stages_attached (desktop s)).
  { apply (reachable_attached Scenario.env_ok). apply reach_init.
    vm_compute. reflexivity. }
  assert (H2 : texture (desktop s) <> None) by (vm_compute; discriminate).
  assert (H3 : ui_fsr1Clicked ui = true) by reflexivity.
  assert (H4 : F32.neqb (slider_value StageFSR ui (desktop s))
                 (sharpness_uniform StageFSR (desktop s)) = false)
    by (vm_compute; reflexivity).
  split; [exact (conj H1 (conj H2 (conj H3 H4)))|].
  exact (proj1 (configUI_fsr_checkbox ui s H1 H2 H3 H4)).
Defined.

Lemma configUI_cas_checkbox_witness :
  let s := Scenario.created in
  let ui := Panel.ui_tick_cas in
  let d' := desktop (exec (egl_desktopConfigUI ui) s) in
  (stages_attached (desktop s)
   /\ texture (desktop s) <> None
   /\ ui_casClicked ui = true
   /\ F32.neqb (slider_value StageCAS ui (desktop s))
        (sharpness_uniform StageCAS (desktop s)) = false)
  /\ enabledByUser StageCAS d' = negb (enabledByUser StageCAS (desktop s)).
Proof.
  intros s ui d'.
  assert (H1 : stages_attached (desktop s)).
  { apply (reachable_attached Scenario.env_ok). apply reach_init.
    vm_compute. reflexivity. }
  assert (H2 : texture (desktop s) <> None) by (vm_compute; discriminate).
  assert (H3 : ui_casClicked ui = true) by reflexivity.
  assert (H4 : F32.neqb (slider_value StageCAS ui (desktop s))
                 (sharpness_uniform StageCAS (desktop s)) = false)
    by (vm_compute; reflexivity).
  split; [exact (conj H1 (conj H2 (conj H3 H4)))|].
  exact (proj1 (configUI_cas_checkbox ui s H1 H2 H3 H4)).
Defined.


Lemma egl_desktopUpdate_without_handle_witness :
  let s := Scenario.ready Scenario.env_ok in
  let m := egl_desktopUpdate Scenario.env_ok 100 (-1) [] 0 in
  -1 < 0
  /\ useDMA (desktop s) = true
  /\ emitted m s = [EvTextureUpdateFromFrame 100 [] 0]
  /\ desktop (exec m s) = desktop s.
Proof.
  intros s m.
  assert (H : -1 < 0) by lia.
  split; [exact H|]. split; [vm_compute; reflexivity|].
  pose proof (egl_desktopUpdate_without_handle Scenario.env_ok 100 (-1) [] 0 s H)
    as (He & _ & Hd).
  split; [exact He|exact Hd].
Defined.

Lemma egl_desktopUpdate_only_downgrade_changes_witness :
  let s := Scenario.ready Scenario.env_ok in
  let m := egl_desktopUpdate Scenario.env_ok 100 5 [] 0 in
  downgrades (emitted m s) = 0%nat
  /\ desktop (exec m s) = desktop s.
Proof.
  intros s m.
  assert (H : downgrades (emitted m s) = 0%nat) by (vm_compute; reflexivity).
  split; [exact H|].
  exact (proj1 (egl_desktopUpdate_only_downgrade_changes Scenario.env_ok
                  100 5 [] 0 s H)).
Defined.

Lemma egl_desktopResize_resolutions_witness :
  let s := Scenario.ready Scenario.env_ok in
  let d := desktop s in
  let d' := desktop (exec (egl_desktopResize 3840 2160) s) in
  (reachable Scenario.env_ok s /\ texture d <> None)
  /\ if (width d <? 3840) && (height d <? 2160) then
       resolution (ffxFSR1Handle_0 d') d' = Some (3840, 2160)
       /\ resolution (ffxFSR1Handle_1 d') d' = Some (3840, 2160)
       /\ resolution (ffxCASHandle d') d' = Some (3840, 2160)
     else
       resolution (ffxFSR1Handle_0 d') d' = resolution (ffxFSR1Handle_0 d) d
       /\ resolution (ffxFSR1Handle_1 d') d' = resolution (ffxFSR1Handle_1 d) d
       /\ resolution (ffxCASHandle d') d' = Some (0, 0).
Proof.
  intros s d d'.
  assert (H1 : reachable Scenario.env_ok s).
  { apply (reach_op Scenario.env_ok _ (OpSetup Scenario.bgra_1080p)).
    apply reach_init. vm_compute. reflexivity. }
  assert (H2 : texture d <> None) by (vm_compute; discriminate).
  split; [split; assumption|].
  exact (egl_desktopResize_resolutions Scenario.env_ok s 3840 2160 H1 H2).
Defined.

Lemma egl_desktopInit_unchecked_filters_witness :
  let env := Faulty.env_filters_fail in
  let m := egl_desktopInit env true 64 in
  checked_calls_succeed env
  /\ env_bool env [EvShaderCompile (Some Shader_ffxCAS)] = false
  /\ eval m Scenario.start = true.
Proof.
  intros env m.
  assert (H : checked_calls_succeed env).
  { intros h e Hl Hc. simpl. rewrite Hl. exact Hc. }
  split; [exact H|]. split; [reflexivity|].
  exact (proj1 (egl_desktopInit_unchecked_filters env true 64 Scenario.start H)).
Defined.
